(** * ViT-Stamps scrapers: record normalisation and page-loop coordination

    A shallow embedding of the record extractors ([extract_stamp_data],
    [extract_product_data]) and of the page loops ([scrape_page],
    [scrape_all], [scrape_category], [scrape_condition],
    [scrape_with_query]) of the Python scrapers, one Rocq module per Python
    class, followed by the properties established about them.

    Conventions of the embedding.
    - Python [str] values are Rocq [string]s; a character [c : ascii] stands
      for the code point U+0000..U+00FF of the same number, and the character
      classes of [str.strip], [str.split], [str.isdigit], [re]'s [\d] and
      [float] are the ones CPython uses on that range.
    - A [dict] is a [gmap], the identifier set [scraped_ids] a [gset string]
      threaded through every call that reads or updates it.
    - A Python [float] is a binary64 value ([spec_float] of the standard
      library, precision 53, exponent bound 1024); conversions round to
      nearest, ties to even.
    - The extractors signal every rejection by [return None].  The embedding
      tags each such return with the gate of the pipeline it sits in
      ([Rejection]); [accepted] forgets the tag and gives back the
      [Optional[Dict]] of the source.
    - The table [stamps] of the database and the file stamps.json are
      values ([Table], [JsonFile]); a run leaves a trace of the batches it
      saves, which [replay] applies to them.
    - The browser of the Selenium scrapers is given by what it shows at
      each turn of their loops. *)

From Stdlib Require Import ZArith NArith QArith Ascii String List Bool Lia.
From Stdlib Require Import SpecFloat.
From stdpp Require Import base option gmap strings list pretty.

Set Warnings "-register-all".

Local Open Scope string_scope.
Local Open Scope list_scope.

(** ** Python text primitives *)

Module Py.

(** Code point of a character. *)
Definition ord (c : ascii) : N := N_of_ascii c.

(** [Py_UNICODE_ISSPACE] on U+0000..U+00FF: the class used by [str.strip]
    and [str.split] without arguments. *)
Definition isspace (c : ascii) : bool :=
  let n := ord c in
  (((9 <=? n) && (n <=? 13)) || ((28 <=? n) && (n <=? 32))
   || (n =? 133) || (n =? 160))%N.

(** Decimal digits (category Nd) on U+0000..U+00FF: the class of [\d] in a
    [str] pattern and of the digits [float] reads. *)
Definition isdecimal (c : ascii) : bool :=
  let n := ord c in ((48 <=? n) && (n <=? 57))%N.

(** The class of [str.isdigit]: the decimal digits and the superscript
    digits U+00B2, U+00B3 and U+00B9. *)
Definition isdigit_char (c : ascii) : bool :=
  let n := ord c in
  (isdecimal c || (n =? 178) || (n =? 179) || (n =? 185))%N.

Definition is_empty (s : string) : bool :=
  match s with EmptyString => true | String _ _ => false end.

Fixpoint forallb_str (p : ascii -> bool) (s : string) : bool :=
  match s with
  | EmptyString => true
  | String c s' => p c && forallb_str p s'
  end.

(** [s.isdigit()]: at least one character and all of them digits. *)
Definition str_isdigit (s : string) : bool :=
  negb (is_empty s) && forallb_str isdigit_char s.

(** [s] without its leading, and without its trailing, characters of
    class [p]. *)
Fixpoint lstrip_with (p : ascii -> bool) (s : string) : string :=
  match s with
  | EmptyString => EmptyString
  | String c s' => if p c then lstrip_with p s' else s
  end.

Fixpoint rstrip_with (p : ascii -> bool) (s : string) : string :=
  match s with
  | EmptyString => EmptyString
  | String c s' =>
      let r := rstrip_with p s' in
      if p c && is_empty r then EmptyString else String c r
  end.

(** [s.strip()] *)
Definition str_strip (s : string) : string :=
  rstrip_with isspace (lstrip_with isspace s).

(** [s.split()]: the maximal runs of non-whitespace characters.  [cur] is
    the run being read. *)
Fixpoint split_ws_from (cur : string) (s : string) : list string :=
  match s with
  | EmptyString => if is_empty cur then [] else [cur]
  | String c s' =>
      if isspace c
      then (if is_empty cur then split_ws_from EmptyString s'
            else cur :: split_ws_from EmptyString s')
      else split_ws_from (cur +:+ String c EmptyString) s'
  end.

Definition str_split_ws (s : string) : list string :=
  split_ws_from EmptyString s.

(** [s.split(sep)] and [s.split(sep, maxsplit)] for a non-empty [sep]: a
    left-to-right scan for non-overlapping occurrences.  [maxsplit] is
    [None] when the argument is absent; [skip] counts the characters of an
    occurrence of [sep] still to be passed over. *)
Fixpoint split_from (sep : string) (maxsplit : option nat)
    (skip : nat) (cur : string) (s : string) : list string :=
  match s with
  | EmptyString => [cur]
  | String c s' =>
      match skip with
      | S k => split_from sep maxsplit k cur s'
      | O =>
          let may_split :=
            match maxsplit with Some O => false | _ => true end in
          if may_split && String.prefix sep s
          then cur :: split_from sep (Nat.pred <$> maxsplit)
                        (String.length sep - 1) EmptyString s'
          else split_from sep maxsplit O (cur +:+ String c EmptyString) s'
      end
  end.

Definition str_split (sep : string) (maxsplit : option nat) (s : string)
  : list string :=
  split_from sep maxsplit O EmptyString s.

(** [needle in s] for two strings. *)
Fixpoint str_contains (needle : string) (s : string) : bool :=
  String.prefix needle s ||
  match s with
  | EmptyString => false
  | String _ s' => str_contains needle s'
  end.

(** [s[n:]] *)
Fixpoint str_drop (n : nat) (s : string) : string :=
  match n, s with
  | O, _ => s
  | S k, EmptyString => EmptyString
  | S k, String _ s' => str_drop k s'
  end.

(** [s[:n]] *)
Fixpoint str_take (n : nat) (s : string) : string :=
  match n, s with
  | O, _ => EmptyString
  | S k, EmptyString => EmptyString
  | S k, String c s' => String c (str_take k s')
  end.

(** [s.replace(c, '')] for a one-character [c]. *)
Fixpoint str_remove (c : ascii) (s : string) : string :=
  match s with
  | EmptyString => EmptyString
  | String d s' =>
      if Ascii.eqb c d then str_remove c s' else String d (str_remove c s')
  end.

(** Longest prefix of characters in class [p], and the rest. *)
Fixpoint span (p : ascii -> bool) (s : string) : string * string :=
  match s with
  | EmptyString => (EmptyString, EmptyString)
  | String c s' =>
      if p c then let '(a, b) := span p s' in (String c a, b)
      else (EmptyString, s)
  end.

(** [re.match(r'(\d{4})', s)]: group 1 when [s] begins with four decimal
    digits. *)
Definition re_match_year (s : string) : option string :=
  let y := str_take 4 s in
  if (String.length y =? 4)%nat && forallb_str isdecimal y
  then Some y else None.

(** The price pattern tried at the start of [s]: a dollar sign, then as
    group 1 one or more characters that are a [\d] or a comma, an optional
    dot, and any number of [\d].  Each greedy piece can be followed by an
    empty match of the next ones, so the first alternative the matcher
    tries succeeds. *)
Definition price_group_at (s : string) : option string :=
  match s with
  | String "$" s' =>
      let '(a, r1) := span (fun c => isdecimal c || Ascii.eqb c ",") s' in
      if is_empty a then None
      else
        let '(dot, r2) :=
          match r1 with
          | String "." r => (".", r)
          | _ => (EmptyString, r1)
          end in
        let '(b, _) := span isdecimal r2 in
        Some (a +:+ dot +:+ b)
  | _ => None
  end.

(** [re.search] with the price pattern: group 1 of the leftmost match. *)
Fixpoint re_search_price (s : string) : option string :=
  match price_group_at s with
  | Some g => Some g
  | None =>
      match s with
      | EmptyString => None
      | String _ s' => re_search_price s'
      end
  end.

(** *** Exceptions and [float] *)

(** The exceptions the extractors can meet; the last two are Selenium's. *)
Inductive exn : Type :=
  | ValueError | TypeError | AttributeError | OverflowError
  | NoSuchElementException | TimeoutException.

(** Binary64. *)
Definition prec : Z := 53.
Definition emax : Z := 1024.

(** The binary64 value nearest to [(-1)^neg * n * 10^k] (ties to even). *)
Definition float_of_decimal (neg : bool) (n : N) (k : Z) : spec_float :=
  match n with
  | N0 => S754_zero neg
  | Npos p =>
      match k with
      | Zneg q =>
          let '(mz, ez, lz) :=
            SFdiv_core_binary prec emax (Zpos p) 0 (Zpos (10 ^ q)) 0 in
          binary_round_aux prec emax neg mz ez lz
      | _ => binary_round prec emax neg (p * Z.to_pos (10 ^ k)) 0
      end
  end.

(** [float(z)] for a Python [int]. *)
Definition float_of_int (z : Z) : exn + spec_float :=
  match binary_normalize prec emax z 0 false with
  | S754_infinity _ => inl OverflowError
  | f => inr f
  end.

(** The rational a finite binary64 value denotes. *)
Definition float_value (f : spec_float) : option Q :=
  match f with
  | S754_zero _ => Some 0%Q
  | S754_finite s m e =>
      let q := match e with
               | Zneg k => (Zpos m # (2 ^ k))%Q
               | _ => inject_Z (Zpos m * 2 ^ e)
               end in
      Some (Qred (if s then Qopp q else q))
  | _ => None
  end.

(** White space [float] removes around its argument. *)
Definition isspace_float (c : ascii) : bool :=
  let n := ord c in
  (((9 <=? n) && (n <=? 13)) || (n =? 32) || (n =? 133) || (n =? 160))%N.

(** Lower case of an ASCII letter. *)
Definition lower (c : ascii) : ascii :=
  let n := ord c in
  if ((65 <=? n) && (n <=? 90))%N then ascii_of_N (n + 32) else c.

Fixpoint str_lower (s : string) : string :=
  match s with
  | EmptyString => EmptyString
  | String c s' => String (lower c) (str_lower s')
  end.

(** After a digit: the rest of a [digitpart], that is any number of digits
    each optionally preceded by one underscore.  Returns the digits read
    and what follows them. *)
Fixpoint digits_tail (s : string) : string * string :=
  match s with
  | EmptyString => (EmptyString, EmptyString)
  | String c s' =>
      if isdecimal c
      then let '(d, r) := digits_tail s' in (String c d, r)
      else if Ascii.eqb c "_"
      then match s' with
           | String c2 s'' =>
               if isdecimal c2
               then let '(d, r) := digits_tail s'' in (String c2 d, r)
               else (EmptyString, s)
           | EmptyString => (EmptyString, s)
           end
      else (EmptyString, s)
  end.

Definition digitpart (s : string) : option (string * string) :=
  match s with
  | String c s' =>
      if isdecimal c
      then let '(d, r) := digits_tail s' in Some (String c d, r)
      else None
  | EmptyString => None
  end.

Fixpoint N_of_digits_from (acc : N) (s : string) : N :=
  match s with
  | EmptyString => acc
  | String c s' => N_of_digits_from (acc * 10 + (ord c - 48))%N s'
  end.

Definition N_of_digits (s : string) : N := N_of_digits_from 0%N s.

Definition read_sign (s : string) : bool * string :=
  match s with
  | String "-" s' => (true, s')
  | String "+" s' => (false, s')
  | _ => (false, s)
  end.

(** [number]: integer digits, fraction digits and the rest. *)
Definition read_number (s : string) : option (string * string * string) :=
  match s with
  | String "." s' =>
      match digitpart s' with
      | Some (f, r) => Some (EmptyString, f, r)
      | None => None
      end
  | _ =>
      match digitpart s with
      | Some (i, String "." r) =>
          match digitpart r with
          | Some (f, r') => Some (i, f, r')
          | None => Some (i, EmptyString, r)
          end
      | Some (i, r) => Some (i, EmptyString, r)
      | None => None
      end
  end.

(** [exponent], when present; [None] when an exponent is begun and not
    completed. *)
Definition read_exponent (s : string) : option (Z * string) :=
  match s with
  | String c s' =>
      if Ascii.eqb (lower c) "e"
      then let '(neg, s'') := read_sign s' in
           match digitpart s'' with
           | Some (d, r) =>
               let x := Z.of_N (N_of_digits d) in
               Some (if neg then (- x)%Z else x, r)
           | None => None
           end
      else Some (0%Z, s)
  | EmptyString => Some (0%Z, s)
  end.

(** [float(s)] for a [str]. *)
Definition float_of_str (s : string) : exn + spec_float :=
  let t := rstrip_with isspace_float (lstrip_with isspace_float s) in
  let '(neg, u) := read_sign t in
  let name := str_lower u in
  if String.eqb name "inf" || String.eqb name "infinity"
  then inr (S754_infinity neg)
  else if String.eqb name "nan" then inr S754_nan
  else
    match read_number u with
    | None => inl ValueError
    | Some (i, f, r) =>
        match read_exponent r with
        | Some (x, EmptyString) =>
            inr (float_of_decimal neg (N_of_digits (i +:+ f))
                   (x - Z.of_nat (String.length f)))
        | _ => inl ValueError
        end
    end.

(** *** JSON values as Python objects *)

(** What [response.json()] builds: [None], [bool], [int], [float], [str],
    [list] and [dict]. *)
Inductive json : Type :=
  | JNull
  | JBool (b : bool)
  | JInt (z : Z)
  | JFloat (f : spec_float)
  | JStr (s : string)
  | JArr (l : list json)
  | JObj (l : list (string * json)).

(** Truth value of an object. *)
Definition truthy (v : json) : bool :=
  match v with
  | JNull => false
  | JBool b => b
  | JInt z => negb (z =? 0)%Z
  | JFloat (S754_zero _) => false
  | JFloat _ => true
  | JStr s => negb (is_empty s)
  | JArr l => match l with [] => false | _ => true end
  | JObj l => match l with [] => false | _ => true end
  end.

(** [a or b] *)
Definition or_ (a b : json) : json := if truthy a then a else b.

(** [d.get(key, default)] *)
Definition get (d : gmap string json) (key : string) (default : json)
  : json :=
  match d !! key with
  | Some v => v
  | None => default
  end.

(** [repr] of a [float], a [list] or a [dict] is left to the runtime. *)
Class Runtime := repr : json -> string.

(** [str(v)] *)
Definition str `{Runtime} (v : json) : string :=
  match v with
  | JNull => "None"
  | JBool true => "True"
  | JBool false => "False"
  | JInt z => pretty z
  | JStr s => s
  | _ => repr v
  end.

(** [needle in v] for a [str] needle. *)
Definition in_ (needle : string) (v : json) : exn + bool :=
  match v with
  | JStr s => inr (str_contains needle s)
  | JArr l =>
      inr (existsb
             (fun x => match x with
                       | JStr s => String.eqb needle s
                       | _ => false
                       end) l)
  | JObj l => inr (existsb (fun kv => String.eqb needle (fst kv)) l)
  | _ => inl TypeError
  end.

(** Looking up a [str] method ([strip], [split]) on [v]. *)
Definition str_method (v : json) : exn + string :=
  match v with
  | JStr s => inr s
  | _ => inl AttributeError
  end.

(** 1.0 *)
Definition float_one : spec_float := S754_finite false 4503599627370496 (-52).

(** [float(v)] *)
Definition float (v : json) : exn + spec_float :=
  match v with
  | JInt z => float_of_int z
  | JFloat f => inr f
  | JBool b => inr (if b then float_one else S754_zero false)
  | JStr s => float_of_str s
  | _ => inl TypeError
  end.

End Py.

(** ** Records and rejections *)

(** The gate at which an extractor returned [None]; [ExtractionError] is
    the [except Exception] clause, with the exception it caught. *)
Inductive Rejection : Type :=
  | NoIdentifier
  | Duplicate
  | NoImage
  | InvalidCatalogNumber
  | NoYear
  | NoCountry
  | NoPrice
  | ExtractionError (cause : Py.exn).

(** The dictionary an extractor returns.  [category] and [condition] are
    the keys the category and condition scrapers add. *)
Record CanonicalRecord : Type := {
  product_id : string;
  image_url : Py.json;
  stamp_number : string;
  year : string;
  country : string;
  price : spec_float;
  category : option string;
  condition : option string
}.

(** ** The extraction monad: rejections over the identifier set *)

(** An extractor reads and updates [self.scraped_ids] and either returns a
    value or leaves by [return None].  Its steps, in the order of the
    source, are the gates: reading the identifier, the image, the
    catalogue number, the title and the price.  A gate that does not touch
    the identifier set is a plain [Rejection + A]. *)
Definition Extract (A : Type) : Type :=
  gset string -> (Rejection + A) * gset string.

Definition ret {A} (a : A) : Extract A := fun ids => (inr a, ids).

Definition bind {A B} (m : Extract A) (k : A -> Extract B) : Extract B :=
  fun ids =>
    match m ids with
    | (inr a, ids') => k a ids'
    | (inl r, ids') => (inl r, ids')
    end.

(** [return None] at gate [r]. *)
Definition reject {A} (r : Rejection) : Extract A := fun ids => (inl r, ids).

(** [if c: return None] at gate [r]. *)
Definition reject_if (c : bool) (r : Rejection) : Extract unit :=
  if c then reject r else ret tt.

(** A gate that leaves the identifier set alone. *)
Definition gate {A} (g : Rejection + A) : Extract A := fun ids => (g, ids).

(** [x in self.scraped_ids] *)
Definition is_scraped (x : string) : Extract bool :=
  fun ids => (inr (bool_decide (x ∈ ids)), ids).

(** [self.scraped_ids.add(x)] *)
Definition mark_scraped (x : string) : Extract unit :=
  fun ids => (inr tt, {[x]} ∪ ids).

Declare Scope extract_scope.
Delimit Scope extract_scope with extract.
Notation "x <- m ;; k" := (bind m (fun x => k))
  (at level 100, m at next level, right associativity) : extract_scope.
Notation "m ;; k" := (bind m (fun _ => k))
  (at level 100, right associativity) : extract_scope.

(** An exception raised inside the [try] of an extractor reaches its
    [except Exception] clause. *)
Definition caught {A} (e : Py.exn + A) : Rejection + A :=
  match e with
  | inl x => inl (ExtractionError x)
  | inr a => inr a
  end.

(** The [Optional[Dict]] of the source. *)
Definition accepted {A} (r : Rejection + A) : option A :=
  match r with
  | inr a => Some a
  | inl _ => None
  end.

Definition placeholder : string := "new-image-coming-soon.jpg".

(** [is_valid_stamp_number] of the list scrapers: the same text in
    scraper.py, scraper_api.py, scraper_api_categories.py,
    scraper_api_us_conditions.py and scraper_api_segmented.py. *)
Definition is_valid_stamp_number (stamp_number_text : string) : bool :=
  let parts := Py.str_split_ws (Py.str_strip stamp_number_text) in
  match last parts with
  | None => false
  | Some number_part => Py.str_isdigit number_part
  end.

(** The lines shared by every title parser: the year is the four leading
    digits, the country what follows them, stripped. *)
Definition year_and_country (text : string) : Rejection + string * string :=
  match Py.re_match_year text with
  | None => inl NoYear
  | Some year => inr (year, Py.str_strip (Py.str_drop 4 text))
  end.

(** [for x in xs: d = extract(x); if d: out.append(d)] *)
Fixpoint extract_each {R} (extract : R -> Extract CanonicalRecord)
    (xs : list R) (ids : gset string)
  : list CanonicalRecord * gset string :=
  match xs with
  | [] => ([], ids)
  | x :: xs' =>
      let '(r, ids1) := extract x ids in
      let '(out, ids2) := extract_each extract xs' ids1 in
      (match r with inr d => d :: out | inl _ => out end, ids2)
  end.

(** ** The world of a scraping run *)

(** What one HTTP request comes back with: the request raises, or a
    response with its status code and, when the body decodes, its
    payload. *)
Inductive Fetch (P : Type) : Type :=
  | NetworkError
  | Response (status_code : Z) (body : option P).
Arguments NetworkError {P}.
Arguments Response {P} status_code body.

(** The decoded body of a search response: [results], a list of objects,
    and the two counters of [pagination] when present. *)
Record SearchPage : Type := {
  results : list (gmap string Py.json);
  currentPage : option Z;
  totalPages : option Z
}.

(** What a run does to the outside, in order: [requests.get] for a page,
    [time.sleep], [save_to_database] and [save_to_json_incremental]. *)
Inductive Event : Type :=
  | Get (page : Z)
  | Sleep (seconds : Q)
  | SaveToDatabase (stamps : list CanonicalRecord)
  | SaveToJson (stamps : list CanonicalRecord).

(** [script] holds the outcomes of the requests still to be made, in the
    order they are made. *)
Record World (P : Type) : Type := {
  script : list (Fetch P);
  scraped_ids : gset string;
  trace : list Event
}.
Arguments script {P} w.
Arguments scraped_ids {P} w.
Arguments trace {P} w.

Definition emit {P} (e : Event) (w : World P) : World P :=
  {| script := script w; scraped_ids := scraped_ids w;
     trace := trace w ++ [e] |}.

Definition with_ids {P} (ids : gset string) (w : World P) : World P :=
  {| script := script w; scraped_ids := ids; trace := trace w |}.

(** [requests.get] of page [page]: [None] when the script has no outcome
    left for it. *)
Definition request {P} (page : Z) (w : World P)
  : option (Fetch P * World P) :=
  match script w with
  | [] => None
  | r :: rest =>
      Some (r, {| script := rest; scraped_ids := scraped_ids w;
                  trace := trace w ++ [Get page] |})
  end.

(** [response.raise_for_status()] raises on a 4xx or 5xx status. *)
Definition raises_for_status (status_code : Z) : bool :=
  ((400 <=? status_code) && (status_code <? 600))%Z.

(** How a page loop ended, or why the model of it stopped: the loop left
    its [while], the script ran out in the middle of an iteration, or the
    iterations allowed were used up. *)
Inductive Outcome (S P : Type) : Type :=
  | Stopped (st : S) (w : World P)
  | Starved (st : S) (w : World P)
  | OutOfFuel (st : S) (w : World P).
Arguments Stopped {S P} st w.
Arguments Starved {S P} st w.
Arguments OutOfFuel {S P} st w.

(** The variables of a page loop. *)
Record Loop : Type := {
  page_num : Z;
  total_scraped : nat;
  consecutive_empty : nat
}.

(** ** The loop of [scrape_all] in scraper.py and scraper_api.py *)

(** The two methods carry the same loop, but for the page they scrape and
    for what they save a batch to.  It is written once, over
    [scrape_page] and [save], and named in the module of each class. *)
Module PlainLoop.
Section WithPage.
Context {P : Type}.
Variable scrape_page :
  Z -> World P -> option (list CanonicalRecord * World P).
Variable save : list CanonicalRecord -> World P -> World P.

(** [if max_pages and page_num > max_pages] *)
Definition over_limit (max_pages : option Z) (page_num : Z) : bool :=
  match max_pages with
  | Some m => negb (m =? 0)%Z && (page_num >? m)%Z
  | None => false
  end.

(** One turn of the [while True] of [scrape_all]: [inl] when the loop is
    left, [inr] when it goes round again. *)
Definition scrape_all_turn (delay : Q) (max_pages : option Z)
    (st : Loop) (w : World P) : option ((Loop + Loop) * World P) :=
  if over_limit max_pages (page_num st) then Some (inl st, w)
  else
    '(stamps, w1) ← scrape_page (page_num st) w;
    let '(st1, w2) :=
      match stamps with
      | _ :: _ =>
          ({| page_num := page_num st;
              total_scraped := total_scraped st + length stamps;
              consecutive_empty := 0 |},
           save stamps w1)
      | [] =>
          ({| page_num := page_num st;
              total_scraped := total_scraped st;
              consecutive_empty := consecutive_empty st + 1 |}, w1)
      end in
    if (3 <=? consecutive_empty st1)%nat then Some (inl st1, w2)
    else
      Some (inr {| page_num := page_num st1 + 1;
                   total_scraped := total_scraped st1;
                   consecutive_empty := consecutive_empty st1 |},
            emit (Sleep delay) w2).

Fixpoint scrape_all_loop (fuel : nat) (delay : Q) (max_pages : option Z)
    (st : Loop) (w : World P) : Outcome Loop P :=
  match fuel with
  | O => OutOfFuel st w
  | S fuel' =>
      match scrape_all_turn delay max_pages st w with
      | None => Starved st w
      | Some (inl st', w') => Stopped st' w'
      | Some (inr st', w') => scrape_all_loop fuel' delay max_pages st' w'
      end
  end.

Definition initial : Loop :=
  {| page_num := 1; total_scraped := 0; consecutive_empty := 0 |}.

(** [scrape_all(delay, max_pages)] up to its first [print] after the
    loop.  Every turn that is not the last makes a request, so the length
    of the script bounds the number of turns. *)
Definition scrape_all (delay : Q) (max_pages : option Z) (w : World P)
  : Outcome Loop P :=
  scrape_all_loop (S (length (script w))) delay max_pages initial w.

End WithPage.
End PlainLoop.

(** ** scraper_api.py *)

Module StampAPIScraper.
Section WithRuntime.
Context `{Py.Runtime}.
Local Open Scope extract_scope.

(** Lines 50-53. *)
Definition get_product_id (result : gmap string Py.json) : Extract string :=
  let product_id :=
    Py.str (Py.or_ (Py.get result "uid" (Py.JStr ""))
                   (Py.get result "id" (Py.JStr ""))) in
  reject_if (Py.is_empty product_id) NoIdentifier ;;
  dup <- is_scraped product_id ;;
  reject_if dup Duplicate ;;
  ret product_id.

(** Lines 55-58. *)
Definition extract_image_url (result : gmap string Py.json)
  : Rejection + Py.json :=
  let image_url :=
    Py.or_ (Py.get result "imageUrl" (Py.JStr ""))
           (Py.get result "thumbnailImageUrl" (Py.JStr "")) in
  if negb (Py.truthy image_url) then inl NoImage
  else
    match caught (Py.in_ placeholder image_url) with
    | inl r => inl r
    | inr true => inl NoImage
    | inr false => inr image_url
    end.

(** Lines 60-67. *)
Definition extract_stamp_number (result : gmap string Py.json)
  : Rejection + string :=
  let sku := Py.get result "sku" (Py.JStr "") in
  if negb (Py.truthy sku) then inl InvalidCatalogNumber
  else
    match caught (Py.str_method sku) with
    | inl r => inl r
    | inr stamp_number_text =>
        if is_valid_stamp_number stamp_number_text
        then inr stamp_number_text
        else inl InvalidCatalogNumber
    end.

(** Lines 69-91. *)
Definition extract_year_country (result : gmap string Py.json)
  : Rejection + string * string :=
  let name := Py.get result "name" (Py.JStr "") in
  if negb (Py.truthy name) then inl NoYear
  else
    match caught (Py.str_method name) with
    | inl r => inl r
    | inr title =>
        let parts := Py.str_split " - " None title in
        match parts with
        | _ :: part1 :: _ =>
            let year_country := Py.str_strip part1 in
            match year_and_country year_country with
            | inl r => inl r
            | inr (year, country) =>
                if Py.is_empty country then inl NoCountry
                else inr (year, country)
            end
        | _ => inl NoYear
        end
    end.

(** Lines 93-101. *)
Definition extract_price (result : gmap string Py.json)
  : Rejection + spec_float :=
  let price :=
    Py.or_ (Py.get result "price" Py.JNull)
           (Py.get result "ss_price" Py.JNull) in
  match price with
  | Py.JNull => inl NoPrice
  | _ =>
      match Py.float price with
      | inl Py.ValueError | inl Py.TypeError => inl NoPrice
      | inl e => inl (ExtractionError e)
      | inr price => inr price
      end
  end.

Definition extract_stamp_data (result : gmap string Py.json)
  : Extract CanonicalRecord :=
  product_id <- get_product_id result ;;
  image_url <- gate (extract_image_url result) ;;
  stamp_number_text <- gate (extract_stamp_number result) ;;
  year_country <- gate (extract_year_country result) ;;
  let '(year, country) := year_country in
  price <- gate (extract_price result) ;;
  mark_scraped product_id ;;
  ret {| product_id := product_id;
         image_url := image_url;
         stamp_number := stamp_number_text;
         year := year;
         country := country;
         price := price;
         category := None;
         condition := None |}.

Local Close Scope extract_scope.

(** The part of [scrape_page] after the response is in hand. *)
Definition read_response (r : Fetch SearchPage) (w : World SearchPage)
  : list CanonicalRecord * World SearchPage :=
  match r with
  | NetworkError => ([], w)
  | Response status_code body =>
      if raises_for_status status_code then ([], w)
      else
        match body with
        | None => ([], w)
        | Some data =>
            let '(stamps, ids) :=
              extract_each extract_stamp_data (results data)
                           (scraped_ids w) in
            (stamps, with_ids ids w)
        end
  end.

Definition scrape_page (page_num : Z) (w : World SearchPage)
  : option (list CanonicalRecord * World SearchPage) :=
  '(r, w1) ← request page_num w;
  match r with
  | Response 429 _ =>
      let w2 := emit (Sleep 30) w1 in
      '(r', w3) ← request page_num w2;
      Some (read_response r' w3)
  | _ => Some (read_response r w1)
  end.

(** [save_to_database(stamps)] then [save_to_json_incremental(stamps)]. *)
Definition save (stamps : list CanonicalRecord) (w : World SearchPage)
  : World SearchPage :=
  emit (SaveToJson stamps) (emit (SaveToDatabase stamps) w).

Definition scrape_all_turn := PlainLoop.scrape_all_turn scrape_page save.
Definition scrape_all_loop := PlainLoop.scrape_all_loop scrape_page save.

Definition scrape_all (delay : Q) (max_pages : option Z)
    (w : World SearchPage) : Outcome Loop SearchPage :=
  PlainLoop.scrape_all scrape_page save delay max_pages w.

End WithRuntime.
End StampAPIScraper.


(** ** scraper.py *)

(** A [li.ss__result] element, through the lookups [extract_stamp_data]
    makes on it.  A tag that [find] returns is given by what is read from
    it: the [src] attribute of the image, the text nodes of the others. *)
Record Listing : Type := {
  data_product_id : option string;
  card_image : option (option string);
  StampNumber : option (list string);
  card_ellipsis : option (option (list string));
  price_withoutTax : option (list string)
}.

(** [tag.get_text(strip=True)]: the text nodes, each stripped, the empty
    ones dropped, joined. *)
Fixpoint get_text_strip (strings : list string) : string :=
  match strings with
  | [] => ""
  | x :: rest =>
      let x' := Py.str_strip x in
      if Py.is_empty x' then get_text_strip rest
      else x' +:+ get_text_strip rest
  end.

Module StampScraper.
Local Open Scope extract_scope.

(** Lines 54-56. *)
Definition get_product_id (listing : Listing) : Extract string :=
  match data_product_id listing with
  | None => reject NoIdentifier
  | Some product_id =>
      reject_if (Py.is_empty product_id) NoIdentifier ;;
      dup <- is_scraped product_id ;;
      reject_if dup Duplicate ;;
      ret product_id
  end.

(** Lines 58-67. *)
Definition extract_image_url (listing : Listing) : Rejection + string :=
  match card_image listing with
  | None => inl NoImage
  | Some src =>
      let image_url := default "" src in
      if Py.str_contains placeholder image_url then inl NoImage
      else inr image_url
  end.

(** Lines 69-78. *)
Definition extract_stamp_number (listing : Listing) : Rejection + string :=
  match StampNumber listing with
  | None => inl InvalidCatalogNumber
  | Some stamp_number_tag =>
      let stamp_number_text := get_text_strip stamp_number_tag in
      if is_valid_stamp_number stamp_number_text
      then inr stamp_number_text
      else inl InvalidCatalogNumber
  end.

(** Lines 80-94. *)
Definition extract_year_country (listing : Listing)
  : Rejection + string * string :=
  match card_ellipsis listing with
  | None | Some None => inl NoYear
  | Some (Some span) => year_and_country (get_text_strip span)
  end.

(** Lines 101-106, on the text of the price tag. *)
Definition parse_price (price_text : string) : Rejection + spec_float :=
  match Py.re_search_price price_text with
  | None => inl NoPrice
  | Some group1 => caught (Py.float_of_str (Py.str_remove "," group1))
  end.

(** Lines 96-106. *)
Definition extract_price (listing : Listing) : Rejection + spec_float :=
  match price_withoutTax listing with
  | None => inl NoPrice
  | Some price_tag => parse_price (get_text_strip price_tag)
  end.

Definition extract_stamp_data (listing : Listing)
  : Extract CanonicalRecord :=
  product_id <- get_product_id listing ;;
  image_url <- gate (extract_image_url listing) ;;
  stamp_number_text <- gate (extract_stamp_number listing) ;;
  year_country <- gate (extract_year_country listing) ;;
  let '(year, country) := year_country in
  price <- gate (extract_price listing) ;;
  mark_scraped product_id ;;
  ret {| product_id := product_id;
         image_url := Py.JStr image_url;
         stamp_number := stamp_number_text;
         year := year;
         country := country;
         price := price;
         category := None;
         condition := None |}.

Local Close Scope extract_scope.

(** [scrape_page]: no status is singled out, [raise_for_status] decides. *)
Definition scrape_page (page_num : Z) (w : World (list Listing))
  : option (list CanonicalRecord * World (list Listing)) :=
  '(r, w1) ← request page_num w;
  match r with
  | NetworkError => Some ([], w1)
  | Response status_code body =>
      if raises_for_status status_code then Some ([], w1)
      else
        match body with
        | None => Some ([], w1)
        | Some listings =>
            let '(stamps, ids) :=
              extract_each extract_stamp_data listings (scraped_ids w1) in
            Some (stamps, with_ids ids w1)
        end
  end.

(** [save_to_database(stamps)] *)
Definition save (stamps : list CanonicalRecord) (w : World (list Listing))
  : World (list Listing) :=
  emit (SaveToDatabase stamps) w.

Definition scrape_all_turn := PlainLoop.scrape_all_turn scrape_page save.
Definition scrape_all_loop := PlainLoop.scrape_all_loop scrape_page save.

Definition scrape_all (delay : Q) (max_pages : option Z)
    (w : World (list Listing)) : Outcome Loop (list Listing) :=
  PlainLoop.scrape_all scrape_page save delay max_pages w.

End StampScraper.

(** ** scraper_api_categories.py, scraper_api_us_conditions.py and
    scraper_api_segmented.py *)

(** The three classes carry the same [extract_stamp_data] but for the key
    they add to the record ([category], [condition], none), and the first
    two the same page loop but for the name of the filter and of the
    method.  Each text is written once here, with the extra key as a
    parameter, and given its name in the module of each class. *)

(** How the two saves of a batch go: both return; [save_to_database]
    raises, and nothing is written; or it returns and
    [save_to_json_incremental] raises, before it writes. *)
Inductive SaveOutcome : Type :=
  | Saved
  | DatabaseRaises
  | JsonRaises.

(** The database and the JSON file of a run, through how the saves of a
    batch go after the saves of the trace so far.  It is asked by the page
    loops that save inside their [try]; [scrape_all] of scraper.py and
    scraper_api.py saves outside of any. *)
Class Stores := save_outcome : list Event -> list CanonicalRecord -> SaveOutcome.

Module Searchspring.
Section WithRuntime.
Context `{Py.Runtime} `{Stores}.
Local Open Scope extract_scope.

Definition get_product_id (result : gmap string Py.json) : Extract string :=
  let product_id :=
    Py.str (Py.or_ (Py.get result "uid" (Py.JStr ""))
                   (Py.get result "id" (Py.JStr ""))) in
  reject_if (Py.is_empty product_id) NoIdentifier ;;
  dup <- is_scraped product_id ;;
  reject_if dup Duplicate ;;
  ret product_id.

Definition extract_image_url (result : gmap string Py.json)
  : Rejection + Py.json :=
  let image_url :=
    Py.or_ (Py.get result "imageUrl" (Py.JStr ""))
           (Py.get result "thumbnailImageUrl" (Py.JStr "")) in
  if negb (Py.truthy image_url) then inl NoImage
  else
    match caught (Py.in_ placeholder image_url) with
    | inl r => inl r
    | inr true => inl NoImage
    | inr false => inr image_url
    end.

Definition extract_stamp_number (result : gmap string Py.json)
  : Rejection + string :=
  let sku := Py.get result "sku" (Py.JStr "") in
  if negb (Py.truthy sku) then inl InvalidCatalogNumber
  else
    match caught (Py.str_method sku) with
    | inl r => inl r
    | inr stamp_number_text =>
        if is_valid_stamp_number stamp_number_text
        then inr stamp_number_text
        else inl InvalidCatalogNumber
    end.

(** The title: [' - ' not in title] is asked first, and the split is
    [title.split(' - ', 1)]. *)
Definition extract_year_country (result : gmap string Py.json)
  : Rejection + string * string :=
  let name := Py.get result "name" (Py.JStr "") in
  if negb (Py.truthy name) then inl NoYear
  else
    match caught (Py.in_ " - " name) with
    | inl r => inl r
    | inr false => inl NoYear
    | inr true =>
        match caught (Py.str_method name) with
        | inl r => inl r
        | inr title =>
            let parts := Py.str_split " - " (Some 1%nat) title in
            match parts with
            | _ :: part1 :: _ =>
                let year_country := Py.str_strip part1 in
                match year_and_country year_country with
                | inl r => inl r
                | inr (year, country) =>
                    if Py.is_empty country then inl NoCountry
                    else inr (year, country)
                end
            | _ => inl NoYear
            end
        end
    end.

(** The price: [result.get('price')] alone, and [float] under the outer
    [try] only. *)
Definition extract_price (result : gmap string Py.json)
  : Rejection + spec_float :=
  match Py.get result "price" Py.JNull with
  | Py.JNull => inl NoPrice
  | price => caught (Py.float price)
  end.

Definition extract_stamp_data (category condition : option string)
    (result : gmap string Py.json) : Extract CanonicalRecord :=
  product_id <- get_product_id result ;;
  image_url <- gate (extract_image_url result) ;;
  stamp_number_text <- gate (extract_stamp_number result) ;;
  year_country <- gate (extract_year_country result) ;;
  let '(year, country) := year_country in
  price <- gate (extract_price result) ;;
  mark_scraped product_id ;;
  ret {| product_id := product_id;
         image_url := image_url;
         stamp_number := stamp_number_text;
         year := year;
         country := country;
         price := price;
         category := category;
         condition := condition |}.

Local Close Scope extract_scope.

(** One turn of the [while True] of [scrape_category] and of
    [scrape_condition]: [inl] when the loop is left, [inr] when it goes
    round again.  A turn makes exactly one request.  The two saves are
    inside the [try]: one that raises ends the turn in the [except]
    clause, after the identifiers of the batch were added and the streak
    was set to 0, and before the total is added to. *)
Definition filtered_turn (category condition : option string) (delay : Q)
    (r : Fetch SearchPage) (st : Loop) (w : World SearchPage)
  : (Loop + Loop) * World SearchPage :=
  (* the [except Exception] clause *)
  let on_exception (st : Loop) (w : World SearchPage) :=
    let w1 := emit (Sleep delay) w in
    let st1 := {| page_num := page_num st + 1;
                  total_scraped := total_scraped st;
                  consecutive_empty := consecutive_empty st + 1 |} in
    if (3 <=? consecutive_empty st1)%nat then (inl st1, w1)
    else (inr st1, w1) in
  match r with
  | NetworkError => on_exception st w
  | Response 429 _ => (inr st, emit (Sleep 30) w)
  | Response 200 None => on_exception st w
  | Response 200 (Some data) =>
      match results data with
      | [] =>
          let st1 := {| page_num := page_num st;
                        total_scraped := total_scraped st;
                        consecutive_empty := consecutive_empty st + 1 |} in
          if (2 <=? consecutive_empty st1)%nat then (inl st1, w)
          else (inr {| page_num := page_num st1 + 1;
                       total_scraped := total_scraped st1;
                       consecutive_empty := consecutive_empty st1 |},
                emit (Sleep delay) w)
      | _ :: _ =>
          let '(stamps, ids) :=
            extract_each (extract_stamp_data category condition)
                         (results data) (scraped_ids w) in
          let w1 := with_ids ids w in
          (* [consecutive_empty = 0] comes before the extraction *)
          let st0 := {| page_num := page_num st;
                        total_scraped := total_scraped st;
                        consecutive_empty := 0 |} in
          (* from the test of the pagination on *)
          let pagination (total : nat) (w2 : World SearchPage) :=
            let st1 := {| page_num := page_num st;
                          total_scraped := total;
                          consecutive_empty := 0 |} in
            let current_page := default (page_num st) (currentPage data) in
            let total_pages := default 0%Z (totalPages data) in
            if (total_pages <=? current_page)%Z then (inl st1, w2)
            else (inr {| page_num := page_num st + 1;
                         total_scraped := total;
                         consecutive_empty := 0 |},
                  emit (Sleep delay) w2) in
          match stamps with
          | _ :: _ =>
              match save_outcome (trace w1) stamps with
              | Saved =>
                  pagination (total_scraped st + length stamps)
                    (emit (SaveToJson stamps)
                          (emit (SaveToDatabase stamps) w1))
              | DatabaseRaises => on_exception st0 w1
              | JsonRaises =>
                  on_exception st0 (emit (SaveToDatabase stamps) w1)
              end
          | [] => pagination (total_scraped st) w1
          end
      end
  | Response _ _ => (inl st, w)
  end.

(** The loop, by recursion on the outcomes of the requests to come. *)
Fixpoint filtered_loop (category condition : option string) (delay : Q)
    (responses : list (Fetch SearchPage)) (st : Loop)
    (ids : gset string) (events : list Event)
  : Outcome Loop SearchPage :=
  let w := {| script := responses; scraped_ids := ids;
              trace := events |} in
  match responses with
  | [] => Starved st w
  | r :: rest =>
      let w1 := {| script := rest; scraped_ids := ids;
                   trace := events ++ [Get (page_num st)] |} in
      match filtered_turn category condition delay r st w1 with
      | (inl st', w') => Stopped st' w'
      | (inr st', w') =>
          filtered_loop category condition delay rest st'
                        (scraped_ids w') (trace w')
      end
  end.

Definition initial : Loop :=
  {| page_num := 1; total_scraped := 0; consecutive_empty := 0 |}.

End WithRuntime.
End Searchspring.

(** The [for] loop of [scrape_all_categories], [scrape_all_conditions] and
    [scrape_all_segmented]: every filter is scraped in turn by [scrape],
    the counts add up, and the loop sleeps for [delay] after a filter:
    after each but the last in the first two methods
    ([if i < len(...)]), after every one in the third.  A run that starves
    inside [scrape] starves here, with the total of the filters done. *)
Fixpoint scrape_each
    (scrape : string -> World SearchPage -> Outcome Loop SearchPage)
    (sleep_after_last : bool) (delay : Q) (filters : list string)
    (total : nat) (w : World SearchPage) : Outcome nat SearchPage :=
  match filters with
  | [] => Stopped total w
  | x :: rest =>
      match scrape x w with
      | Stopped st w1 =>
          let sleeps :=
            match rest with [] => sleep_after_last | _ :: _ => true end in
          scrape_each scrape sleep_after_last delay rest
            (total + total_scraped st)
            (if sleeps then emit (Sleep delay) w1 else w1)
      | Starved _ w1 => Starved total w1
      | OutOfFuel _ w1 => OutOfFuel total w1
      end
  end.

Module StampAPICategoryScraper.
Section WithRuntime.
Context `{Py.Runtime} `{Stores}.

Definition extract_stamp_data (result : gmap string Py.json)
    (category : string) : Extract CanonicalRecord :=
  Searchspring.extract_stamp_data (Some category) None result.

(** [scrape_category(category, delay)] up to its [print] after the loop. *)
Definition scrape_category (category : string) (delay : Q)
    (w : World SearchPage) : Outcome Loop SearchPage :=
  Searchspring.filtered_loop (Some category) None delay (script w)
    Searchspring.initial (scraped_ids w) (trace w).

(** [self.categories] *)
Definition categories : list string :=
  [ "Worldwide>Africa"; "Worldwide>Asia"; "Worldwide>Australia & Oceania";
    "Worldwide>British Colonies"; "Worldwide>Canada"; "Worldwide>Caribbean";
    "Worldwide>Europe"; "Worldwide>Germany"; "Worldwide>Great Britain";
    "Worldwide>Latin America"; "Worldwide>Middle East";
    "Worldwide>Stamp Packets by Country"; "Worldwide>Topical Stamps";
    "Worldwide>Unique Country Collections"; "Worldwide>United Nations" ].

(** [scrape_all_categories(delay)] up to its [print] after the loop. *)
Definition scrape_all_categories (delay : Q) (w : World SearchPage)
  : Outcome nat SearchPage :=
  scrape_each (fun category => scrape_category category delay)
    false delay categories 0 w.

End WithRuntime.
End StampAPICategoryScraper.

Module StampAPIUSConditionScraper.
Section WithRuntime.
Context `{Py.Runtime} `{Stores}.

Definition extract_stamp_data (result : gmap string Py.json)
    (condition : string) : Extract CanonicalRecord :=
  Searchspring.extract_stamp_data None (Some condition) result.

(** [scrape_condition(condition, delay)] up to its [print] after the
    loop. *)
Definition scrape_condition (condition : string) (delay : Q)
    (w : World SearchPage) : Outcome Loop SearchPage :=
  Searchspring.filtered_loop None (Some condition) delay (script w)
    Searchspring.initial (scraped_ids w) (trace w).

(** [self.conditions] *)
Definition conditions : list string :=
  [ "Unused Stamp(s)"; "Used Stamp(s)"; "First Day Covers" ].

(** [scrape_all_conditions(delay)] up to its [print] after the loop. *)
Definition scrape_all_conditions (delay : Q) (w : World SearchPage)
  : Outcome nat SearchPage :=
  scrape_each (fun condition => scrape_condition condition delay)
    false delay conditions 0 w.

End WithRuntime.
End StampAPIUSConditionScraper.

Module StampAPISegmentedScraper.
Section WithRuntime.
Context `{Py.Runtime} `{Stores}.

Definition extract_stamp_data (result : gmap string Py.json)
  : Extract CanonicalRecord :=
  Searchspring.extract_stamp_data None None result.

(** One turn of the [while True] of [scrape_with_query]: [inl] when the
    loop is left, [inr] when it goes round again.  A turn makes exactly one
    request; every exception leaves the loop, that of a save included,
    which comes after the identifiers of the batch were added and before
    the total is added to. *)
Definition scrape_with_query_turn (delay : Q) (r : Fetch SearchPage)
    (st : Loop) (w : World SearchPage)
  : (Loop + Loop) * World SearchPage :=
  match r with
  | NetworkError => (inl st, w)
  | Response 429 _ => (inr st, emit (Sleep 30) w)
  | Response 200 None => (inl st, w)
  | Response 200 (Some data) =>
      match results data with
      | [] => (inl st, w)
      | _ :: _ =>
          let '(stamps, ids) :=
            extract_each extract_stamp_data (results data)
                         (scraped_ids w) in
          let w1 := with_ids ids w in
          (* from the test of the streak on *)
          let streak (st1 : Loop) (w2 : World SearchPage) :=
            let current_page := default (page_num st) (currentPage data) in
            let total_pages := default 0%Z (totalPages data) in
            if (3 <=? consecutive_empty st1)%nat then (inl st1, w2)
            else if (total_pages <=? current_page)%Z then (inl st1, w2)
            else (inr {| page_num := page_num st1 + 1;
                         total_scraped := total_scraped st1;
                         consecutive_empty := consecutive_empty st1 |},
                  emit (Sleep delay) w2) in
          match stamps with
          | _ :: _ =>
              match save_outcome (trace w1) stamps with
              | Saved =>
                  streak {| page_num := page_num st;
                            total_scraped := total_scraped st + length stamps;
                            consecutive_empty := 0 |}
                         (emit (SaveToJson stamps)
                               (emit (SaveToDatabase stamps) w1))
              | DatabaseRaises => (inl st, w1)
              | JsonRaises => (inl st, emit (SaveToDatabase stamps) w1)
              end
          | [] =>
              streak {| page_num := page_num st;
                        total_scraped := total_scraped st;
                        consecutive_empty := consecutive_empty st + 1 |} w1
          end
      end
  | Response _ _ => (inl st, w)
  end.

(** The loop, by recursion on the outcomes of the requests to come;
    [consecutive_empty] is the [consecutive_no_new] of the source. *)
Fixpoint scrape_with_query_loop (delay : Q)
    (responses : list (Fetch SearchPage)) (st : Loop)
    (ids : gset string) (events : list Event)
  : Outcome Loop SearchPage :=
  let w := {| script := responses; scraped_ids := ids;
              trace := events |} in
  match responses with
  | [] => Starved st w
  | r :: rest =>
      let w1 := {| script := rest; scraped_ids := ids;
                   trace := events ++ [Get (page_num st)] |} in
      match scrape_with_query_turn delay r st w1 with
      | (inl st', w') => Stopped st' w'
      | (inr st', w') =>
          scrape_with_query_loop delay rest st' (scraped_ids w') (trace w')
      end
  end.

(** [scrape_with_query(query, delay)] up to its [return]; the query only
    goes into the request. *)
Definition scrape_with_query (query : string) (delay : Q)
    (w : World SearchPage) : Outcome Loop SearchPage :=
  scrape_with_query_loop delay (script w) Searchspring.initial
    (scraped_ids w) (trace w).

(** [segments]: the letters A to Z, then the digits 0 to 9. *)
Definition segments : list string :=
  ((fun i => String (ascii_of_nat i) "") <$> seq 65 26)
  ++ ((fun i => pretty (Z.of_nat i)) <$> seq 0 10).

(** [scrape_all_segmented(delay)] up to its [print] after the loop. *)
Definition scrape_all_segmented (delay : Q) (w : World SearchPage)
  : Outcome nat SearchPage :=
  scrape_each (fun segment => scrape_with_query segment delay)
    true delay segments 0 w.

End WithRuntime.
End StampAPISegmentedScraper.

(** ** The loop of [scrape_all] in scraper_product_pages.py and
    scraper_direct_navigation.py *)

(** The Next button of a product page, [a.next-icon-new], through its
    [class] and [href] attributes ([None]: the attribute is not there),
    and whether [click] raises on it. *)
Record NextButton : Type := {
  button_class : option string;
  button_href : option string;
  click_raises : bool
}.

(** What a run does to the browser and to the stores, in order:
    [driver.get], [click] on the Next button, and
    [save_to_database(stamp)] followed by
    [save_to_json_incremental(stamp)].  The sleeps are left out. *)
Inductive Action : Type :=
  | Goto (url : string)
  | Click
  | Save (stamp : CanonicalRecord).

(** The two methods carry the same loop, but for the page they extract
    from and for the step to the next product.  It is written once, over
    [extract_product_data] and [next_product], and named in the module of
    each class. *)
Module ProductLoop.
Section WithPage.
Context {P : Type}.
Variable extract_product_data : P -> Extract CanonicalRecord.
(** Whether the loop goes on from a page with this button, if it has one,
    and what the step does. *)
Variable next_product : option NextButton -> bool * list Action.

(** The counters of the loop. *)
Record Counts : Type := {
  product_count : nat;
  skipped_count : nat;
  total_scraped : nat
}.

(** [pages]: the page in the browser with its Next button, and those the
    steps to come lead to. *)
Record Browser : Type := {
  pages : list (P * option NextButton);
  scraped_ids : gset string;
  actions : list Action
}.

(** How the loop ended: it left its [while], or the browser had no page
    left to show. *)
Inductive Run : Type :=
  | Left (st : Counts) (b : Browser)
  | NoPage (st : Counts) (b : Browser).

(** [if max_products and total_scraped >= max_products] *)
Definition at_limit (max_products : option Z) (total_scraped : nat) : bool :=
  match max_products with
  | Some m => negb (m =? 0)%Z && (Z.of_nat total_scraped >=? m)%Z
  | None => false
  end.

(** The [while True] of [scrape_all], by recursion on the pages to
    come. *)
Fixpoint scrape_all_loop (max_products : option Z)
    (pages : list (P * option NextButton)) (st : Counts)
    (ids : gset string) (actions : list Action) : Run :=
  if at_limit max_products (total_scraped st)
  then Left st {| pages := pages; scraped_ids := ids; actions := actions |}
  else
    match pages with
    | [] =>
        NoPage st {| pages := []; scraped_ids := ids; actions := actions |}
    | (page, button) :: rest =>
        let '(stamp_data, ids1) := extract_product_data page ids in
        let '(st1, actions1) :=
          match stamp_data with
          | inr stamp =>
              ({| product_count := product_count st + 1;
                  skipped_count := skipped_count st;
                  total_scraped := total_scraped st + 1 |},
               actions ++ [Save stamp])
          | inl _ =>
              ({| product_count := product_count st + 1;
                  skipped_count := skipped_count st + 1;
                  total_scraped := total_scraped st |},
               actions)
          end in
        let '(goes_on, step) := next_product button in
        if goes_on
        then scrape_all_loop max_products rest st1 ids1 (actions1 ++ step)
        else Left st1 {| pages := pages; scraped_ids := ids1;
                         actions := actions1 ++ step |}
    end.

Definition initial : Counts :=
  {| product_count := 0; skipped_count := 0; total_scraped := 0 |}.

End WithPage.
End ProductLoop.

(** ** scraper_product_pages.py *)

(** A product page in the browser, through the lookups
    [extract_product_data] makes on it.  [None] is an element that
    [find_element] does not find; an image is given by its [src] and
    [data-zoombaimage] attributes, a heading or the price by its [text]. *)
Record ProductPage : Type := {
  nextProducts : option (option string);
  zoomImg : option (option string * option string);
  presentation_img : option (option string * option string);
  h1_title : option string;
  h6_title : option string;
  price_text : option string
}.

(** Truth value of an [Optional[str]]. *)
Definition nonempty (x : option string) : bool :=
  match x with
  | Some s => negb (Py.is_empty s)
  | None => false
  end.

Module StampProductScraper.
Local Open Scope extract_scope.

Definition is_valid_stamp_number (number_text : string) : bool :=
  let number_text := Py.str_strip (Py.str_remove "#" number_text) in
  Py.str_isdigit number_text.

(** Lines 70-79: a missing identifier is [None] and is carried on. *)
Definition get_product_id (page : ProductPage) : Extract (option string) :=
  let product_id :=
    match nextProducts page with
    | Some attribute => attribute
    | None => None
    end in
  dup <- (if nonempty product_id
          then is_scraped (default "" product_id) else ret false) ;;
  reject_if dup Duplicate ;;
  ret product_id.

(** [src], or [data-zoombaimage] when [src] is empty. *)
Definition image_of (img : option string * option string) : option string :=
  if nonempty (fst img) then fst img else snd img.

(** Lines 81-102. *)
Definition extract_image_url (page : ProductPage) : Rejection + string :=
  let found :=
    match zoomImg page with
    | Some img => Some (image_of img)
    | None =>
        match presentation_img page with
        | Some img => Some (image_of img)
        | None => None
        end
    end in
  match found with
  | None => inl NoImage
  | Some image_url =>
      if negb (nonempty image_url) then inl NoImage
      else if Py.str_contains placeholder (default "" image_url)
      then inl NoImage
      else inr (default "" image_url)
  end.

(** Lines 104-123. *)
Definition extract_year_country (page : ProductPage)
  : Rejection + string * string :=
  match h1_title page with
  | None => inl NoYear
  | Some text =>
      let title_text := Py.str_strip text in
      if Py.is_empty title_text then inl NoYear
      else
        match year_and_country title_text with
        | inl r => inl r
        | inr (year, country) =>
            if Py.is_empty country then inl NoCountry
            else inr (year, country)
        end
  end.

(** Lines 125-137. *)
Definition extract_stamp_number (page : ProductPage) : Rejection + string :=
  match h6_title page with
  | None => inl InvalidCatalogNumber
  | Some text =>
      let stamp_number_raw := Py.str_strip text in
      if Py.is_empty stamp_number_raw then inl InvalidCatalogNumber
      else if is_valid_stamp_number stamp_number_raw
      then inr stamp_number_raw
      else inl InvalidCatalogNumber
  end.

(** Lines 142-153: every exception of the block, the [ValueError] of
    [float] among them, ends in the bare [except]. *)
Definition extract_price (page : ProductPage) : Rejection + spec_float :=
  match price_text page with
  | None => inl NoPrice
  | Some text =>
      match Py.re_search_price (Py.str_strip text) with
      | None => inl NoPrice
      | Some group1 =>
          match Py.float_of_str (Py.str_remove "," group1) with
          | inl _ => inl NoPrice
          | inr price => inr price
          end
      end
  end.

Definition extract_product_data (page : ProductPage)
  : Extract CanonicalRecord :=
  product_id <- get_product_id page ;;
  image_url <- gate (extract_image_url page) ;;
  year_country <- gate (extract_year_country page) ;;
  let '(year, country) := year_country in
  stamp_number_raw <- gate (extract_stamp_number page) ;;
  let number := Py.str_strip (Py.str_remove "#" stamp_number_raw) in
  let stamp_number := country +:+ " " +:+ number in
  price <- gate (extract_price page) ;;
  (if nonempty product_id
   then mark_scraped (default "" product_id) else ret tt) ;;
  ret {| product_id :=
           if nonempty product_id then default "" product_id
           else country +:+ "_" +:+ number;
         image_url := Py.JStr image_url;
         stamp_number := stamp_number;
         year := year;
         country := country;
         price := price;
         category := None;
         condition := None |}.

(** [click_next_button()]: [False] when the button is not found, has no
    [class], is disabled or leads nowhere, or when the click raises. *)
Definition click_next_button (button : option NextButton)
  : bool * list Action :=
  match button with
  | None => (false, [])
  | Some next_button =>
      match button_class next_button with
      | None => (false, [])
      | Some class =>
          if Py.str_contains "disable" class then (false, [])
          else
            let next_url := button_href next_button in
            if negb (nonempty next_url)
               || String.eqb (default "" next_url) "#"
            then (false, [])
            else (negb (click_raises next_button), [Click])
      end
  end.

(** [self.start_url] *)
Definition start_url : string :=
  "https://www.mysticstamp.com/1-1854-western-australia/".

(** [scrape_all(delay, max_products)] up to its first [print] after the
    loop: the first of [pages] is what the browser shows at
    [start_url]. *)
Definition scrape_all (max_products : option Z)
    (b : ProductLoop.Browser (P := ProductPage)) : ProductLoop.Run :=
  ProductLoop.scrape_all_loop extract_product_data click_next_button
    max_products (ProductLoop.pages b) ProductLoop.initial
    (ProductLoop.scraped_ids b) (ProductLoop.actions b ++ [Goto start_url]).

End StampProductScraper.

(** ** scraper_selenium.py *)

(** A [li.ss__result] element in the browser, through the lookups
    [extract_stamp_data] of scraper_selenium.py makes on it: the
    [data-product-id] of its [article], the [src] of its image, and for
    the catalogue number, the title and the price the [text] of the
    element and its [innerHTML]. *)
Record Card : Type := {
  card_article : option (option string);
  card_img : option (option string);
  card_stamp_number : option (string * option string);
  card_title : option (string * option string);
  card_price : option (string * option string)
}.

(** [text.strip()], and [innerHTML.strip()] when that is empty; [None]
    when the attribute is not there to be stripped. *)
Definition text_or_inner_html (element : string * option string)
  : option string :=
  let text := Py.str_strip (fst element) in
  if negb (Py.is_empty text) then Some text
  else option_map Py.str_strip (snd element).

(** The class [StampScraper] of scraper_selenium.py. *)
Module SeleniumStampScraper.
Local Open Scope extract_scope.

(** Lines 95-99: without the [article], [find_element] raises. *)
Definition get_product_id (listing : Card) : Extract string :=
  match card_article listing with
  | None => reject (ExtractionError Py.NoSuchElementException)
  | Some attribute =>
      let product_id := default "" attribute in
      reject_if (Py.is_empty product_id) NoIdentifier ;;
      dup <- is_scraped product_id ;;
      reject_if dup Duplicate ;;
      ret product_id
  end.

(** Lines 101-110: an image without [src] makes [in] raise. *)
Definition extract_image_url (listing : Card) : Rejection + string :=
  match card_img listing with
  | None => inl NoImage
  | Some None => inl (ExtractionError Py.TypeError)
  | Some (Some image_url) =>
      if Py.str_contains placeholder image_url then inl NoImage
      else inr image_url
  end.

(** Lines 112-129. *)
Definition extract_stamp_number (listing : Card) : Rejection + string :=
  match card_stamp_number listing with
  | None => inl InvalidCatalogNumber
  | Some element =>
      match text_or_inner_html element with
      | None => inl InvalidCatalogNumber
      | Some stamp_number_text =>
          if Py.is_empty stamp_number_text then inl InvalidCatalogNumber
          else if is_valid_stamp_number stamp_number_text
          then inr stamp_number_text
          else inl InvalidCatalogNumber
      end
  end.

(** Lines 131-153. *)
Definition extract_year_country (listing : Card)
  : Rejection + string * string :=
  match card_title listing with
  | None => inl NoYear
  | Some element =>
      match text_or_inner_html element with
      | None => inl NoYear
      | Some title_text =>
          if Py.is_empty title_text then inl NoYear
          else year_and_country title_text
      end
  end.

(** Lines 155-174. *)
Definition extract_price (listing : Card) : Rejection + spec_float :=
  match card_price listing with
  | None => inl NoPrice
  | Some element =>
      match text_or_inner_html element with
      | None => inl NoPrice
      | Some price_text =>
          if Py.is_empty price_text then inl NoPrice
          else
            match Py.re_search_price price_text with
            | None => inl NoPrice
            | Some group1 =>
                caught (Py.float_of_str (Py.str_remove "," group1))
            end
      end
  end.

Definition extract_stamp_data (listing : Card) : Extract CanonicalRecord :=
  product_id <- get_product_id listing ;;
  image_url <- gate (extract_image_url listing) ;;
  stamp_number_text <- gate (extract_stamp_number listing) ;;
  year_country <- gate (extract_year_country listing) ;;
  let '(year, country) := year_country in
  price <- gate (extract_price listing) ;;
  mark_scraped product_id ;;
  ret {| product_id := product_id;
         image_url := Py.JStr image_url;
         stamp_number := stamp_number_text;
         year := year;
         country := country;
         price := price;
         category := None;
         condition := None |}.

(** What the browser shows at one turn of the loop of [scrape_all]: the
    [li.ss__result] elements of the page, [None] when waiting for them
    raises, and whether [click_show_more()] then succeeds. *)
Record View : Type := {
  listings : option (list Card);
  show_more : bool
}.

(** [scrape_current_listings()]: every exception gives the empty list. *)
Definition scrape_current_listings (view : View) (ids : gset string)
  : list CanonicalRecord * gset string :=
  match listings view with
  | None => ([], ids)
  | Some listings => extract_each extract_stamp_data listings ids
  end.

(** The variables of the loop of [scrape_all]. *)
Record Clicks : Type := {
  click_count : nat;
  total_scraped : nat;
  consecutive_no_new : nat
}.

(** [views]: what the browser shows now and after each click to come.
    [trace]: the batches saved, in order; the sleeps are left out. *)
Record Browser : Type := {
  views : list View;
  scraped_ids : gset string;
  trace : list Event
}.

(** How the loop ended: it left its [while], or the browser had nothing
    left to show. *)
Inductive Run : Type :=
  | Left (st : Clicks) (b : Browser)
  | NoView (st : Clicks) (b : Browser).

(** [if max_clicks and click_count >= max_clicks] *)
Definition at_limit (max_clicks : option Z) (click_count : nat) : bool :=
  match max_clicks with
  | Some m => negb (m =? 0)%Z && (Z.of_nat click_count >=? m)%Z
  | None => false
  end.

(** The [while True] of [scrape_all], by recursion on the views to
    come. *)
Fixpoint scrape_all_loop (max_clicks : option Z) (views : list View)
    (st : Clicks) (ids : gset string) (events : list Event) : Run :=
  match views with
  | [] => NoView st {| views := []; scraped_ids := ids; trace := events |}
  | view :: rest =>
      let '(stamps, ids1) := scrape_current_listings view ids in
      let '(st1, events1) :=
        match stamps with
        | _ :: _ =>
            ({| click_count := click_count st;
                total_scraped := total_scraped st + length stamps;
                consecutive_no_new := 0 |},
             events ++ [SaveToDatabase stamps; SaveToJson stamps])
        | [] =>
            ({| click_count := click_count st;
                total_scraped := total_scraped st;
                consecutive_no_new := consecutive_no_new st + 1 |},
             events)
        end in
      let b1 := {| views := views; scraped_ids := ids1;
                   trace := events1 |} in
      if (3 <=? consecutive_no_new st1)%nat then Left st1 b1
      else if at_limit max_clicks (click_count st1) then Left st1 b1
      else if show_more view
      then scrape_all_loop max_clicks rest
             {| click_count := click_count st1 + 1;
                total_scraped := total_scraped st1;
                consecutive_no_new := consecutive_no_new st1 |}
             ids1 events1
      else Left st1 b1
  end.

(** [scrape_all(delay, max_clicks)] up to its first [print] after the
    loop: the first of [views] is what the browser shows at
    [start_url]. *)
Definition scrape_all (max_clicks : option Z) (b : Browser) : Run :=
  scrape_all_loop max_clicks (views b)
    {| click_count := 0; total_scraped := 0; consecutive_no_new := 0 |}
    (scraped_ids b) (trace b).

End SeleniumStampScraper.

(** ** scraper_direct_navigation.py *)

(** A product page in the browser, through the lookups
    [extract_product_data] of scraper_direct_navigation.py makes on it: the
    [src] of every [img] instead of the two images of [ProductPage]. *)
Record DirectPage : Type := {
  direct_nextProducts : option (option string);
  direct_imgs : list (option string);
  direct_h1_title : option string;
  direct_h6_title : option string;
  direct_price_text : option string
}.

(** The class [StampProductScraper] of scraper_direct_navigation.py. *)
Module DirectStampProductScraper.
Local Open Scope extract_scope.

Definition is_valid_stamp_number (number_text : string) : bool :=
  let number_text := Py.str_strip (Py.str_remove "#" number_text) in
  Py.str_isdigit number_text.

(** Lines 98-112: the wait for the title raises when there is none. *)
Definition get_product_id (page : DirectPage) : Extract (option string) :=
  match direct_h1_title page with
  | None => reject (ExtractionError Py.TimeoutException)
  | Some _ =>
      let product_id :=
        match direct_nextProducts page with
        | Some attribute => attribute
        | None => None
        end in
      dup <- (if nonempty product_id
              then is_scraped (default "" product_id) else ret false) ;;
      reject_if dup Duplicate ;;
      ret product_id
  end.

(** The first [src] with 'products' and 'stencil' in it. *)
Fixpoint product_image (imgs : list (option string)) : option string :=
  match imgs with
  | [] => None
  | src :: rest =>
      if nonempty src
         && Py.str_contains "products" (default "" src)
         && Py.str_contains "stencil" (default "" src)
      then src else product_image rest
  end.

(** Lines 114-128. *)
Definition extract_image_url (page : DirectPage) : Rejection + string :=
  let image_url := product_image (direct_imgs page) in
  if negb (nonempty image_url) then inl NoImage
  else if Py.str_contains placeholder (default "" image_url)
  then inl NoImage
  else inr (default "" image_url).

(** Lines 130-149. *)
Definition extract_year_country (page : DirectPage)
  : Rejection + string * string :=
  match direct_h1_title page with
  | None => inl NoYear
  | Some text =>
      let title_text := Py.str_strip text in
      if Py.is_empty title_text then inl NoYear
      else
        match year_and_country title_text with
        | inl r => inl r
        | inr (year, country) =>
            if Py.is_empty country then inl NoCountry
            else inr (year, country)
        end
  end.

(** Lines 151-159. *)
Definition extract_stamp_number (page : DirectPage) : Rejection + string :=
  match direct_h6_title page with
  | None => inl InvalidCatalogNumber
  | Some text =>
      let stamp_number_raw := Py.str_strip text in
      if Py.is_empty stamp_number_raw then inl InvalidCatalogNumber
      else if is_valid_stamp_number stamp_number_raw
      then inr stamp_number_raw
      else inl InvalidCatalogNumber
  end.

(** Lines 163-172. *)
Definition extract_price (page : DirectPage) : Rejection + spec_float :=
  match direct_price_text page with
  | None => inl NoPrice
  | Some text =>
      match Py.re_search_price (Py.str_strip text) with
      | None => inl NoPrice
      | Some group1 =>
          match Py.float_of_str (Py.str_remove "," group1) with
          | inl _ => inl NoPrice
          | inr price => inr price
          end
      end
  end.

Definition extract_product_data (page : DirectPage)
  : Extract CanonicalRecord :=
  product_id <- get_product_id page ;;
  image_url <- gate (extract_image_url page) ;;
  year_country <- gate (extract_year_country page) ;;
  let '(year, country) := year_country in
  stamp_number_raw <- gate (extract_stamp_number page) ;;
  let number := Py.str_strip (Py.str_remove "#" stamp_number_raw) in
  let stamp_number := country +:+ " " +:+ number in
  price <- gate (extract_price page) ;;
  (if nonempty product_id
   then mark_scraped (default "" product_id) else ret tt) ;;
  ret {| product_id :=
           if nonempty product_id then default "" product_id
           else country +:+ "_" +:+ number;
         image_url := Py.JStr image_url;
         stamp_number := stamp_number;
         year := year;
         country := country;
         price := price;
         category := None;
         condition := None |}.

(** [get_next_url()]: [None] when the button is not found, has no
    [class], is disabled, or leads nowhere or off the site. *)
Definition get_next_url (button : option NextButton) : option string :=
  match button with
  | None => None
  | Some next_button =>
      match button_class next_button with
      | None => None
      | Some button_class =>
          if Py.str_contains "disable" button_class then None
          else
            let next_url := button_href next_button in
            if negb (nonempty next_url)
               || String.eqb (default "" next_url) "#"
               || negb (Py.str_contains "mysticstamp.com"
                          (default "" next_url))
            then None
            else next_url
      end
  end.

(** [next_url = self.get_next_url()], [if not next_url: break], and
    [self.driver.get(next_url)]. *)
Definition next_product (button : option NextButton) : bool * list Action :=
  match get_next_url button with
  | Some next_url =>
      if Py.is_empty next_url then (false, [])
      else (true, [Goto next_url])
  | None => (false, [])
  end.

(** [scrape_all(delay, max_products)] up to its first [print] after the
    loop, [init_driver()] included: the first of [pages] is the page the
    user has gone to from the home page. *)
Definition scrape_all (max_products : option Z)
    (b : ProductLoop.Browser (P := DirectPage)) : ProductLoop.Run :=
  ProductLoop.scrape_all_loop extract_product_data next_product
    max_products (ProductLoop.pages b) ProductLoop.initial
    (ProductLoop.scraped_ids b)
    (ProductLoop.actions b ++ [Goto "https://www.mysticstamp.com/"]).

End DirectStampProductScraper.

(** ** The table [stamps] and the JSON file *)

(** [init_database], [save_to_database], [save_to_json_incremental] and
    [export_to_json] have the same text in every class, but for the column
    [category] or [condition] that scraper_api_categories.py and
    scraper_api_us_conditions.py add to the table and to the INSERT.  They
    are written once, over that column.

    The database is the table [stamps] as committed, if it exists.  A row
    is given by its nine columns; SQLite stores the NaN of a [float] as
    NULL and a negative zero as zero, and reads a text back as it was
    written. *)

Inductive FilterColumn : Type := CategoryColumn | ConditionColumn.

Definition column_name (c : FilterColumn) : string :=
  match c with
  | CategoryColumn => "category"
  | ConditionColumn => "condition"
  end.

Record Row : Type := {
  row_id : Z;
  row_product_id : string;
  row_image_url : string;
  row_stamp_number : string;
  row_year : string;
  row_country : string;
  row_price : option spec_float;
  row_filter : option string;
  row_scraped_at : string
}.

(** [filter_column]: the column the table has besides the eight of
    scraper_api.py, if any.  [sequence]: the largest [id] given out so far
    (the AUTOINCREMENT counter). *)
Record Table : Type := {
  filter_column : option FilterColumn;
  rows : list Row;
  sequence : Z
}.

(** What the storage methods raise and do not catch:
    [sqlite3.OperationalError] for a table or a column that is not there,
    the error of [sqlite3] for a parameter that is a list or a dict,
    the [KeyError] of [stamp['category']], and the [AttributeError] of
    [existing_data.extend].  [NotModelled] is no exception: it stands for
    an insert whose image is a number, a boolean or [None], which no
    extractor returns and SQLite would store in a form of its own. *)
Inductive StorageError : Type :=
  | NoSuchTable
  | NoSuchColumn
  | UnsupportedType
  | MissingKey
  | NotAList
  | NotModelled.

(** [CREATE TABLE IF NOT EXISTS stamps (...)]: a table that is there is
    left as it is, whatever its columns. *)
Definition init_database (column : option FilterColumn)
    (db : option Table) : option Table :=
  match db with
  | Some t => Some t
  | None => Some {| filter_column := column; rows := []; sequence := 0 |}
  end.

(** The value stored for a [float]. *)
Definition sql_real (f : spec_float) : option spec_float :=
  match f with
  | S754_nan => None
  | S754_zero _ => Some (S754_zero false)
  | _ => Some f
  end.

(** [stamp['category']] or [stamp['condition']]. *)
Definition filter_of (c : FilterColumn) (stamp : CanonicalRecord)
  : option string :=
  match c with
  | CategoryColumn => category stamp
  | ConditionColumn => condition stamp
  end.

(** Whether the table has the column the statement names. *)
Definition has_column (c : FilterColumn) (t : Table) : bool :=
  match filter_column t, c with
  | Some CategoryColumn, CategoryColumn => true
  | Some ConditionColumn, ConditionColumn => true
  | _, _ => false
  end.

(** The parameters are bound and the row is inserted: an image that is
    a list or a dict cannot be bound; the insert takes the next [id], and
    is dropped when its [product_id] is in the table already (OR IGNORE,
    on the UNIQUE constraint).  The time [CURRENT_TIMESTAMP] has at the
    insert that takes [id] is [now id]. *)
Definition insert_row (now : Z -> string) (filter : option string)
    (stamp : CanonicalRecord) (t : Table) : StorageError + Table :=
  match image_url stamp with
  | Py.JStr image_url =>
      let id := (sequence t + 1)%Z in
      let row :=
        {| row_id := id;
           row_product_id := product_id stamp;
           row_image_url := image_url;
           row_stamp_number := stamp_number stamp;
           row_year := year stamp;
           row_country := country stamp;
           row_price := sql_real (price stamp);
           row_filter := filter;
           row_scraped_at := now id |} in
      inr {| filter_column := filter_column t;
             rows :=
               if existsb
                    (fun r => String.eqb (row_product_id r)
                                         (product_id stamp))
                    (rows t)
               then rows t else rows t ++ [row];
             sequence := id |}
  | Py.JArr _ | Py.JObj _ => inl UnsupportedType
  | _ => inl NotModelled
  end.

(** One [cursor.execute('INSERT OR IGNORE INTO stamps (...) VALUES (...)',
    (...))], where [column] is the seventh column of the statement, if it
    has one: the tuple of parameters is built, the statement is compiled
    against the table, then [insert_row]. *)
Definition insert_or_ignore (column : option FilterColumn)
    (now : Z -> string) (stamp : CanonicalRecord) (t : Table)
  : StorageError + Table :=
  match column with
  | None => insert_row now None stamp t
  | Some c =>
      match filter_of c stamp with
      | None => inl MissingKey
      | Some value =>
          if has_column c t then insert_row now (Some value) stamp t
          else inl NoSuchColumn
      end
  end.

(** The [for stamp in stamps] of [save_to_database]. *)
Fixpoint insert_each (column : option FilterColumn) (now : Z -> string)
    (stamps : list CanonicalRecord) (t : Table) : StorageError + Table :=
  match stamps with
  | [] => inr t
  | stamp :: rest =>
      match insert_or_ignore column now stamp t with
      | inl e => inl e
      | inr t' => insert_each column now rest t'
      end
  end.

(** [save_to_database(stamps)]: nothing is committed when an [execute]
    raises.  Without the table the first [execute] raises, once the tuple
    of its parameters is built. *)
Definition save_to_database (column : option FilterColumn)
    (now : Z -> string) (stamps : list CanonicalRecord)
    (db : option Table) : StorageError + option Table :=
  match stamps with
  | [] => inr db
  | stamp :: _ =>
      match db with
      | None =>
          match column with
          | None => inl NoSuchTable
          | Some c =>
              match filter_of c stamp with
              | None => inl MissingKey
              | Some _ => inl NoSuchTable
              end
          end
      | Some t =>
          match insert_each column now stamps t with
          | inl e => inl e
          | inr t' => inr (Some t')
          end
      end
  end.

(** The file [stamps.json]: not there, there and not JSON
    ([json.JSONDecodeError]), or holding a JSON document. *)
Inductive JsonFile : Type :=
  | Missing
  | Undecodable
  | Document (v : Py.json).

(** The dictionary an extractor returns, as [json.dump] writes it and
    [json.load] reads it back. *)
Definition stamp_to_json (stamp : CanonicalRecord) : Py.json :=
  Py.JObj
    ([("product_id", Py.JStr (product_id stamp));
      ("image_url", image_url stamp);
      ("stamp_number", Py.JStr (stamp_number stamp));
      ("year", Py.JStr (year stamp));
      ("country", Py.JStr (country stamp));
      ("price", Py.JFloat (price stamp))]
     ++ match category stamp with
        | Some c => [("category", Py.JStr c)]
        | None => []
        end
     ++ match condition stamp with
        | Some c => [("condition", Py.JStr c)]
        | None => []
        end).

(** [save_to_json_incremental(stamps)] *)
Definition save_to_json_incremental (stamps : list CanonicalRecord)
    (file : JsonFile) : StorageError + JsonFile :=
  match stamps with
  | [] => inr file
  | _ :: _ =>
      let existing_data :=
        match file with
        | Document v => v
        | Missing | Undecodable => Py.JArr []
        end in
      match existing_data with
      | Py.JArr l => inr (Document (Py.JArr (l ++ (stamp_to_json <$> stamps))))
      | _ => inl NotAList
      end
  end.

(** [dict(zip(columns, row))] for a row of [SELECT * FROM stamps]. *)
Definition row_to_json (column : option FilterColumn) (r : Row) : Py.json :=
  Py.JObj
    ([("id", Py.JInt (row_id r));
      ("product_id", Py.JStr (row_product_id r));
      ("image_url", Py.JStr (row_image_url r));
      ("stamp_number", Py.JStr (row_stamp_number r));
      ("year", Py.JStr (row_year r));
      ("country", Py.JStr (row_country r));
      ("price", match row_price r with
                | Some f => Py.JFloat f
                | None => Py.JNull
                end)]
     ++ match column with
        | Some c => [(column_name c,
                      match row_filter r with
                      | Some s => Py.JStr s
                      | None => Py.JNull
                      end)]
        | None => []
        end
     ++ [("scraped_at", Py.JStr (row_scraped_at r))]).

(** [export_to_json(output_file)]: the file is written over. *)
Definition export_to_json (db : option Table) : StorageError + JsonFile :=
  match db with
  | None => inl NoSuchTable
  | Some t =>
      inr (Document (Py.JArr (row_to_json (filter_column t) <$> rows t)))
  end.

(** The table and the file a run writes to, and what its saves do to
    them, in the order of the trace, up to the first that raises. *)
Record Store : Type := {
  database : option Table;
  json_file : JsonFile
}.

Fixpoint replay (column : option FilterColumn) (now : Z -> string)
    (events : list Event) (s : Store) : StorageError + Store :=
  match events with
  | [] => inr s
  | SaveToDatabase stamps :: rest =>
      match save_to_database column now stamps (database s) with
      | inl e => inl e
      | inr db =>
          replay column now rest
            {| database := db; json_file := json_file s |}
      end
  | SaveToJson stamps :: rest =>
      match save_to_json_incremental stamps (json_file s) with
      | inl e => inl e
      | inr file =>
          replay column now rest
            {| database := database s; json_file := file |}
      end
  | _ :: rest => replay column now rest s
  end.

(** * Definitions for the statements *)

(** A runtime for the examples; none of them prints a float, a list or a
    dict. *)
Definition example_runtime : Py.Runtime := fun _ => "".

(** The stores of the examples: every save returns. *)
Definition example_stores : Stores := fun _ _ => Saved.

(** 12.5 and 1234.5 as binary64 values. *)
Definition float_12_5 : spec_float := S754_finite false 7036874417766400 (-49).
Definition float_1234_5 : spec_float :=
  S754_finite false 5429388417957888 (-42).

(** The search result
    [{id: "42", imageUrl: "https://x/img.jpg", sku: "Norway 1",
      name: "1 - 1855 Norway", price: 12.5}]. *)
Definition raw_norway_1 : gmap string Py.json :=
  {[ "id" := Py.JStr "42";
     "imageUrl" := Py.JStr "https://x/img.jpg";
     "sku" := Py.JStr "Norway 1";
     "name" := Py.JStr "1 - 1855 Norway";
     "price" := Py.JFloat float_12_5 ]}.

(** The record it is normalised to. *)
Definition norway_1 : CanonicalRecord :=
  {| product_id := "42";
     image_url := Py.JStr "https://x/img.jpg";
     stamp_number := "Norway 1";
     year := "1855";
     country := "Norway";
     price := float_12_5;
     category := None;
     condition := None |}.

(** What reading the identifier of a list entry comes to: [product_id] is
    the identifier read, and the three ways the first gate ends. *)
Definition first_gate (product_id : string) : Extract string :=
  fun ids =>
    if Py.is_empty product_id then (inl NoIdentifier, ids)
    else if bool_decide (product_id ∈ ids) then (inl Duplicate, ids)
    else (inr product_id, ids).

(** The shape shared by the list extractors: the identifier gate, four
    gates that leave the identifier set alone, then the one [add]. *)
Definition pipeline {A B C D : Type} (pid : string)
    (g1 : Rejection + A) (g2 : Rejection + B)
    (g3 : Rejection + C) (g4 : Rejection + D)
    (mk : string -> A -> B -> C -> D -> CanonicalRecord)
  : Extract CanonicalRecord :=
  (product_id <- first_gate pid ;;
   a <- gate g1 ;;
   b <- gate g2 ;;
   c <- gate g3 ;;
   d <- gate g4 ;;
   mark_scraped product_id ;;
   ret (mk product_id a b c d))%extract.

(** The identifier the API extractors read, and the record they build from
    what the gates return. *)
Definition api_product_id `{Py.Runtime} (result : gmap string Py.json)
  : string :=
  Py.str (Py.or_ (Py.get result "uid" (Py.JStr ""))
                 (Py.get result "id" (Py.JStr ""))).

Definition api_record (product_id : string) (image_url : Py.json)
    (stamp_number_text : string) (year_country : string * string)
    (price : spec_float) : CanonicalRecord :=
  let '(year, country) := year_country in
  {| product_id := product_id;
     image_url := image_url;
     stamp_number := stamp_number_text;
     year := year;
     country := country;
     price := price;
     category := None;
     condition := None |}.

(** The same for the extractor of scraper.py; an absent attribute is
    rejected as an empty one is. *)
Definition html_product_id (listing : Listing) : string :=
  default "" (data_product_id listing).

Definition html_record (product_id : string) (image_url : string)
    (stamp_number_text : string) (year_country : string * string)
    (price : spec_float) : CanonicalRecord :=
  let '(year, country) := year_country in
  {| product_id := product_id;
     image_url := Py.JStr image_url;
     stamp_number := stamp_number_text;
     year := year;
     country := country;
     price := price;
     category := None;
     condition := None |}.

(** The record of the filtered and segmented API extractors. *)
Definition tagged_record (category condition : option string)
    (product_id : string) (image_url : Py.json)
    (stamp_number_text : string) (year_country : string * string)
    (price : spec_float) : CanonicalRecord :=
  let '(year, country) := year_country in
  {| product_id := product_id;
     image_url := image_url;
     stamp_number := stamp_number_text;
     year := year;
     country := country;
     price := price;
     category := category;
     condition := condition |}.

(** The last of the whitespace-delimited tokens of [s], if any, has a
    character that [str.isdigit] does not accept; or [s] has no token. *)
Definition last_token_not_digits (s : string) : Prop :=
  match last (Py.str_split_ws (Py.str_strip s)) with
  | None => True
  | Some token => Py.forallb_str Py.isdigit_char token = false
  end.

(** U+00B2, SUPERSCRIPT TWO. *)
Definition superscript_two : ascii := ascii_of_N 178.

(** The search result
    [{id: "43", imageUrl: "https://x/img.jpg", sku: "Norway ²",
      name: "1 - 1855 Norway", price: 12.5}]. *)
Definition raw_superscript : gmap string Py.json :=
  {[ "id" := Py.JStr "43";
     "imageUrl" := Py.JStr "https://x/img.jpg";
     "sku" := Py.JStr ("Norway " +:+ String superscript_two "");
     "name" := Py.JStr "1 - 1855 Norway";
     "price" := Py.JFloat float_12_5 ]}.

(** The search result
    [{id: "44", imageUrl: "https://x/img.jpg", sku: "France 12-14",
      name: "12 - 1900 France", price: 3}]. *)
Definition raw_range : gmap string Py.json :=
  {[ "id" := Py.JStr "44";
     "imageUrl" := Py.JStr "https://x/img.jpg";
     "sku" := Py.JStr "France 12-14";
     "name" := Py.JStr "12 - 1900 France";
     "price" := Py.JInt 3 ]}.

(** The listing with the catalogue number "France 12-14". *)
Definition listing_range : Listing :=
  {| data_product_id := Some "44";
     card_image := Some (Some "https://x/img.jpg");
     StampNumber := Some ["France 12-14"];
     card_ellipsis := Some (Some ["1900 France"]);
     price_withoutTax := Some ["$3.00"] |}.

(** A listing of the results page whose title is the year alone:
    [<li data-product-id="7"> <img class="card-image" src="https://x/a.jpg">
     <a class="StampNumber">Norway 1</a>
     <a class="card-ellipsis"><span>1855</span></a>
     <span class="price--withoutTax">$1.00</span> </li>]. *)
Definition listing_year_only : Listing :=
  {| data_product_id := Some "7";
     card_image := Some (Some "https://x/a.jpg");
     StampNumber := Some ["Norway 1"];
     card_ellipsis := Some (Some ["1855"]);
     price_withoutTax := Some ["$1.00"] |}.

(** A product page without the [div.productView-nextProducts] element that
    carries the identifier, and otherwise complete:
    [<img class="zoomImg" src="https://x/a.jpg">
     <h1 class="productView-title">1855 Norway</h1>
     <h6 class="productView-title">#1</h6>
     <span class="price--withoutTax">$1.00</span>]. *)
Definition page_without_identifier : ProductPage :=
  {| nextProducts := None;
     zoomImg := Some (Some "https://x/a.jpg", None);
     presentation_img := None;
     h1_title := Some "1855 Norway";
     h6_title := Some "#1";
     price_text := Some "$1.00" |}.

(** The floats of some other price texts. *)
Definition float_of_decimal_text (digits : N) (decimals : nat) : spec_float :=
  Py.float_of_decimal false digits (- Z.of_nat decimals).

(** The same listing and the same page as the browser scrapers see them. *)
Definition card_year_only : Card :=
  {| card_article := Some (Some "7");
     card_img := Some (Some "https://x/a.jpg");
     card_stamp_number := Some ("Norway 1", None);
     card_title := Some ("1855", None);
     card_price := Some ("$1.00", None) |}.

Definition direct_page_without_identifier : DirectPage :=
  {| direct_nextProducts := None;
     direct_imgs := [None; Some "https://x/products/1/stencil/a.jpg"];
     direct_h1_title := Some "1855 Norway";
     direct_h6_title := Some "#1";
     direct_price_text := Some "$1.00" |}.

(** The search result of Norway 1 without [price] and [ss_price]. *)
Definition raw_without_price : gmap string Py.json :=
  {[ "id" := Py.JStr "42";
     "imageUrl" := Py.JStr "https://x/img.jpg";
     "sku" := Py.JStr "Norway 1";
     "name" := Py.JStr "1 - 1855 Norway" ]}.

(** The listing of Norway 1 without its price tag. *)
Definition listing_without_price : Listing :=
  {| data_product_id := Some "42";
     card_image := Some (Some "https://x/img.jpg");
     StampNumber := Some ["Norway 1"];
     card_ellipsis := Some (Some ["1855 Norway"]);
     price_withoutTax := None |}.

(** The listing of Norway 1 with the price tag
    [<span class="price--withoutTax"> $1,234.50 </span>]. *)
Definition listing_with_price : Listing :=
  {| data_product_id := Some "42";
     card_image := Some (Some "https://x/img.jpg");
     StampNumber := Some ["Norway 1"];
     card_ellipsis := Some (Some ["1855 Norway"]);
     price_withoutTax := Some [" $1,234.50 "] |}.

(** The search result of Norway 1 with a [price] of 0.0 and no
    [ss_price], and the one without [price] and with an [ss_price] of
    12.5. *)
Definition raw_with_zero_price : gmap string Py.json :=
  {[ "id" := Py.JStr "42";
     "imageUrl" := Py.JStr "https://x/img.jpg";
     "sku" := Py.JStr "Norway 1";
     "name" := Py.JStr "1 - 1855 Norway";
     "price" := Py.JFloat (S754_zero false) ]}.

Definition raw_with_ss_price : gmap string Py.json :=
  {[ "id" := Py.JStr "42";
     "imageUrl" := Py.JStr "https://x/img.jpg";
     "sku" := Py.JStr "Norway 1";
     "name" := Py.JStr "1 - 1855 Norway";
     "ss_price" := Py.JFloat float_12_5 ]}.

(** A search response with one raw record, which no extractor accepts,
    announcing page [current] of [total]. *)
Definition page_of_ranges (current total : Z) : SearchPage :=
  {| results := [raw_range];
     currentPage := Some current;
     totalPages := Some total |}.

(** Pages in a row that yield no record: [empty_pages delay n page w w']
    when [scrape_page] returns [[]] on [page], ..., [page + n - 1], from
    the world [w] to the world [w'], with the [sleep(delay)] of the loop
    between two of them. *)
Inductive empty_pages {P : Type}
    (scrape_page : Z -> World P -> option (list CanonicalRecord * World P))
    (delay : Q)
  : nat -> Z -> World P -> World P -> Prop :=
  | empty_pages_one page w w' :
      scrape_page page w = Some ([], w') ->
      empty_pages scrape_page delay 1 page w w'
  | empty_pages_more n page w w1 w' :
      scrape_page page w = Some ([], w1) ->
      empty_pages scrape_page delay n (page + 1) (emit (Sleep delay) w1) w' ->
      empty_pages scrape_page delay (S n) page w w'.

(** A run that is answered by three such responses. *)
Definition three_rejected_batches : World SearchPage :=
  {| script := [Response 200 (Some (page_of_ranges 1 10));
                Response 200 (Some (page_of_ranges 2 10));
                Response 200 (Some (page_of_ranges 3 10))];
     scraped_ids := ∅; trace := [] |}.

(** A run of [scrape_all]: page 1 is throttled once and then brings
    Norway 1 twice and a range; page 2 is throttled twice; page 3 brings
    Norway 1 again; page 4 is a server error. *)
Definition first_page : SearchPage :=
  {| results := [raw_norway_1; raw_range; raw_norway_1];
     currentPage := Some 1%Z; totalPages := Some 3%Z |}.

Definition third_page : SearchPage :=
  {| results := [raw_norway_1];
     currentPage := Some 3%Z; totalPages := Some 3%Z |}.

Definition sample_run : World SearchPage :=
  {| script := [Response 429 None; Response 200 (Some first_page);
                Response 429 None; Response 429 None;
                Response 200 (Some third_page);
                Response 500 None; NetworkError];
     scraped_ids := ∅; trace := [] |}.

(** A search response without raw records. *)
Definition no_results : SearchPage :=
  {| results := []; currentPage := None; totalPages := None |}.

(** [n] times the request for [page] and the backoff. *)
Fixpoint backoffs (n : nat) (page : Z) : list Event :=
  match n with
  | O => []
  | S n' => Get page :: Sleep 30 :: backoffs n' page
  end.

(** ** Definitions for the further properties *)

(** A runtime whose [repr] is never empty, as that of Python. *)
Definition sample_runtime : Py.Runtime := fun _ => "<repr>".

(** What [split] has pending when the text ends or a blank is met. *)
Definition pending (cur : string) : list string :=
  if Py.is_empty cur then [] else [cur].

(** The text before which a token begins: nothing, or text that ends in a
    blank. *)
Definition ends_in_blank (p : string) : Prop :=
  p = "" \/ exists q c, p = q +:+ String c "" /\ Py.isspace c = true.

(** The characters of group 1 of the price pattern before the dot, and the
    characters of a number written with digits and a dot. *)
Definition price_char (c : ascii) : bool := Py.isdecimal c || Ascii.eqb c ",".
Definition numeric_char (c : ascii) : bool := Py.isdecimal c || Ascii.eqb c ".".

(** The state and the world a run ended in, however it ended. *)
Definition final {S P : Type} (o : Outcome S P) : S * World P :=
  match o with
  | Stopped st w | Starved st w | OutOfFuel st w => (st, w)
  end.

(** The records handed to [save_to_database], and those handed to
    [save_to_json_incremental], in order; the pages asked for. *)
Fixpoint saved_to_database (events : list Event) : list CanonicalRecord :=
  match events with
  | [] => []
  | SaveToDatabase stamps :: rest => stamps ++ saved_to_database rest
  | _ :: rest => saved_to_database rest
  end.

Fixpoint saved_to_json (events : list Event) : list CanonicalRecord :=
  match events with
  | [] => []
  | SaveToJson stamps :: rest => stamps ++ saved_to_json rest
  | _ :: rest => saved_to_json rest
  end.

Fixpoint requested (events : list Event) : list Z :=
  match events with
  | [] => []
  | Get page :: rest => page :: requested rest
  | _ :: rest => requested rest
  end.

(** The books of a stretch of a run, from the world [w] to the world [w']:
    the events it added to the trace saved [n] records to the database;
    no two of them have the same identifier, none of these identifiers
    had been seen in [w], and they are what [scraped_ids] has gained;
    the JSON file was given the same records ([json]), or none; and every
    record saved satisfies [Q]. *)
Definition accounted {P : Type} (json : bool) (Q : CanonicalRecord -> Prop)
    (w w' : World P) (n : nat) : Prop :=
  exists events,
    trace w' = trace w ++ events
    /\ NoDup (product_id <$> saved_to_database events)
    /\ (forall x, x ∈ (product_id <$> saved_to_database events) ->
                  x ∉ scraped_ids w)
    /\ scraped_ids w'
       = list_to_set (product_id <$> saved_to_database events)
         ∪ scraped_ids w
    /\ saved_to_json events
       = (if json then saved_to_database events else [])
    /\ length (saved_to_database events) = n
    /\ Forall Q (saved_to_database events).

(** The books of a stretch of a run whose saves may raise, from [w] to
    [w']: the records saved to the database have pairwise distinct
    identifiers, not seen in [w] and seen in [w']; nothing leaves
    [scraped_ids]; the records written to the JSON file are among them, in
    their order, and are [n]; and when [exact] holds, the books are those
    of [accounted]. *)
Definition booked {P : Type} (exact : Prop) (Q : CanonicalRecord -> Prop)
    (w w' : World P) (n : nat) : Prop :=
  exists events,
    trace w' = trace w ++ events
    /\ NoDup (product_id <$> saved_to_database events)
    /\ (forall x, x ∈ (product_id <$> saved_to_database events) ->
                  (x ∉ scraped_ids w) /\ x ∈ scraped_ids w')
    /\ scraped_ids w ⊆ scraped_ids w'
    /\ sublist (saved_to_json events) (saved_to_database events)
    /\ length (saved_to_json events) = n
    /\ Forall Q (saved_to_database events)
    /\ (exact ->
        scraped_ids w'
        = list_to_set (product_id <$> saved_to_database events)
          ∪ scraped_ids w
        /\ saved_to_json events = saved_to_database events).

(** Every save returns. *)
Definition reliable `{Stores} : Prop :=
  forall events stamps, save_outcome events stamps = Saved.

(** What an extractor does to the identifier set: nothing when it
    rejects; when it accepts, the identifier of the record is new and is
    added. *)
Definition keeps_identifiers {R : Type}
    (extract : R -> Extract CanonicalRecord) : Prop :=
  forall x ids,
    match extract x ids with
    | (inl _, ids') => ids' = ids
    | (inr rec, ids') =>
        (product_id rec ∉ ids) /\ ids' = {[product_id rec]} ∪ ids
    end.

(** A record that carries the filter it was scraped under. *)
Definition tagged (filter_category filter_condition : option string)
    (rec : CanonicalRecord) : Prop :=
  category rec = filter_category /\ condition rec = filter_condition.

(** A run of one of the coordinators: the first filter is answered by one
    page with Norway 1, the last page there is, and each of the [n] others
    by a server error. *)
Definition one_stamp_run (n : nat) : World SearchPage :=
  {| script := Response 200 (Some third_page)
               :: replicate n (Response 500 None);
     scraped_ids := ∅; trace := [] |}.

(** The world [scrape_all_categories] leaves [one_stamp_run 14] in, with a
    delay of 1. *)
Definition one_stamp_run_end : World SearchPage :=
  let africa_1 :=
    {| product_id := "42";
       image_url := Py.JStr "https://x/img.jpg";
       stamp_number := "Norway 1";
       year := "1855";
       country := "Norway";
       price := float_12_5;
       category := Some "Worldwide>Africa";
       condition := None |} in
  {| script := [];
     scraped_ids := {["42"]} ∪ ∅;
     trace := [Get 1; SaveToDatabase [africa_1]; SaveToJson [africa_1]]
              ++ concat (replicate 14 [Sleep 1; Get 1]) |}.

(** The stores of a run that starts on the table and the file of [s],
    with the INSERT of [column]: a save does what [save_to_database] and
    [save_to_json_incremental] do on what the saves of the trace have left
    of [s].  A trace whose saves raise on [s] is no trace of such a run. *)
Definition stores_from (column : option FilterColumn) (now : Z -> string)
    (s : Store) : Stores :=
  fun events stamps =>
    match replay column now events s with
    | inl _ => DatabaseRaises
    | inr s' =>
        match save_to_database column now stamps (database s') with
        | inl _ => DatabaseRaises
        | inr _ =>
            match save_to_json_incremental stamps (json_file s') with
            | inl _ => JsonRaises
            | inr _ => Saved
            end
        end
    end.

(** What a stretch of a run adds to the trace has no save in it. *)
Definition saves_nothing {P : Type} (w w' : World P) : Prop :=
  exists events,
    trace w' = trace w ++ events
    /\ saved_to_database events = []
    /\ saved_to_json events = [].

(** The store the category scraper finds when scraper_api.py has made
    stamps.db: [init_database] leaves the table without [category]. *)
Definition shared_store : Store :=
  {| database := init_database (Some CategoryColumn)
                   (init_database None None);
     json_file := Missing |}.

(** Stores on which [save_to_database] always raises, and the world
    [scrape_all_categories] then leaves [one_stamp_run 15] in: the stamp
    is seen, and is not saved.  After the failing save the loop goes on
    to page 2, which the server refuses. *)
Definition failing_stores : Stores := fun _ _ => DatabaseRaises.

Definition one_stamp_run_unsaved : World SearchPage :=
  {| script := [];
     scraped_ids := {["42"]} ∪ ∅;
     trace := [Get 1; Sleep 1; Get 2]
              ++ concat (replicate 14 [Sleep 1; Get 1]) |}.

(** The rows of the table, none when there is no table, and the entries
    of the JSON file, none when it holds no list. *)
Definition rows_of (db : option Table) : list Row :=
  match db with
  | Some t => rows t
  | None => []
  end.

Definition entries (file : JsonFile) : list Py.json :=
  match file with
  | Document (Py.JArr l) => l
  | _ => []
  end.

(** The row the INSERT makes of a stamp, the filter value apart. *)
Definition row_of (now : Z -> string) (id : Z) (filter : option string)
    (stamp : CanonicalRecord) (url : string) : Row :=
  {| row_id := id;
     row_product_id := product_id stamp;
     row_image_url := url;
     row_stamp_number := stamp_number stamp;
     row_year := year stamp;
     row_country := country stamp;
     row_price := sql_real (price stamp);
     row_filter := filter;
     row_scraped_at := now id |}.

(** A record whose image URL is a text, and that text. *)
Definition text_image (rec : CanonicalRecord) : Prop :=
  exists url, image_url rec = Py.JStr url.

Definition url_of (rec : CanonicalRecord) : string :=
  match image_url rec with
  | Py.JStr url => url
  | _ => ""
  end.

(** A table with one row, for Norway 1 at the price of 1.0, and the
    clock of the examples. *)
Definition sample_clock (id : Z) : string := "2024-01-01 00:00:00".

Definition sample_table : Table :=
  {| filter_column := None;
     rows := [ {| row_id := 1;
                  row_product_id := "42";
                  row_image_url := "https://x/old.jpg";
                  row_stamp_number := "Norway 1";
                  row_year := "1855";
                  row_country := "Norway";
                  row_price := Some Py.float_one;
                  row_filter := None;
                  row_scraped_at := "2023-01-01 00:00:00" |} ];
     sequence := 1 |}.

(** A run of scraper.py answered by one page with one listing, Norway 1
    of 1855 at $1.00, and then by nothing. *)
Definition listing_norway_1 : Listing :=
  {| data_product_id := Some "42";
     card_image := Some (Some "https://x/img.jpg");
     StampNumber := Some ["Norway 1"];
     card_ellipsis := Some (Some ["1855 Norway"]);
     price_withoutTax := Some ["$1.00"] |}.

Definition one_listing_run : World (list Listing) :=
  {| script := [Response 200 (Some [listing_norway_1])];
     scraped_ids := ∅; trace := [] |}.

(** A run of scraper_api.py answered by one page with Norway 1 and then
    by nothing. *)
Definition one_result_run : World SearchPage :=
  {| script := [Response 200 (Some third_page)];
     scraped_ids := ∅; trace := [] |}.

(** The two halves of [replay]: what the saves of a run do to the table,
    and what they do to the file. *)
Fixpoint replay_database (column : option FilterColumn) (now : Z -> string)
    (events : list Event) (db : option Table)
  : StorageError + option Table :=
  match events with
  | [] => inr db
  | SaveToDatabase stamps :: rest =>
      match save_to_database column now stamps db with
      | inl e => inl e
      | inr db' => replay_database column now rest db'
      end
  | _ :: rest => replay_database column now rest db
  end.

Fixpoint replay_file (events : list Event) (file : JsonFile)
  : StorageError + JsonFile :=
  match events with
  | [] => inr file
  | SaveToJson stamps :: rest =>
      match save_to_json_incremental stamps file with
      | inl e => inl e
      | inr file' => replay_file rest file'
      end
  | _ :: rest => replay_file rest file
  end.

(** A trace is paced when every sleep lasts [delay] seconds, or the 30
    seconds that follow a throttled response, and when no request follows
    another without a sleep between the two.  [rested]: whether a request
    may come next. *)
Fixpoint paced (delay : Q) (rested : bool) (events : list Event) : Prop :=
  match events with
  | [] => True
  | Get _ :: rest => rested = true /\ paced delay false rest
  | Sleep seconds :: rest =>
      (seconds = delay \/ seconds = 30%Q) /\ paced delay true rest
  | _ :: rest => paced delay rested rest
  end.

Fixpoint rested_after (rested : bool) (events : list Event) : bool :=
  match events with
  | [] => rested
  | Get _ :: rest => rested_after false rest
  | Sleep _ :: rest => rested_after true rest
  | _ :: rest => rested_after rested rest
  end.

(** What a step adds to the trace is paced, from [before] on, and ends
    in a sleep when [rests]. *)
Definition adds_paced {P : Type} (delay : Q) (before rests : bool)
    (w w' : World P) : Prop :=
  exists events,
    trace w' = trace w ++ events
    /\ paced delay before events
    /\ (rests = true -> rested_after false events = true).

(** The pages of a loop are asked for in order: after a page, the same
    page again or the one that follows it. *)
Fixpoint ascending (page : Z) (pages : list Z) : Prop :=
  match pages with
  | [] => True
  | p :: rest => (p = page \/ p = (page + 1)%Z) /\ ascending p rest
  end.

Definition starts_at (page : Z) (pages : list Z) : Prop :=
  match pages with
  | [] => True
  | p :: rest => p = page /\ ascending page rest
  end.

(** The counters and the browser a run of a product loop ends with. *)
Definition run_counts {P : Type} (r : ProductLoop.Run (P := P))
  : ProductLoop.Counts :=
  match r with ProductLoop.Left st _ | ProductLoop.NoPage st _ => st end.

Definition run_browser {P : Type} (r : ProductLoop.Run (P := P))
  : ProductLoop.Browser (P := P) :=
  match r with ProductLoop.Left _ b | ProductLoop.NoPage _ b => b end.

(** The stamps a run has saved, in order. *)
Fixpoint saved_stamps (actions : list Action) : list CanonicalRecord :=
  match actions with
  | [] => []
  | Save stamp :: rest => stamp :: saved_stamps rest
  | _ :: rest => saved_stamps rest
  end.

(** The addresses a run has sent the browser to. *)
Fixpoint visited (actions : list Action) : list string :=
  match actions with
  | [] => []
  | Goto url :: rest => url :: visited rest
  | _ :: rest => visited rest
  end.

(** A product page with an identifier, and a Next button that leads on. *)
Definition product_page_norway_1 : ProductPage :=
  {| nextProducts := Some (Some "42");
     zoomImg := Some (Some "https://x/a.jpg", None);
     presentation_img := None;
     h1_title := Some "1855 Norway";
     h6_title := Some "#1";
     price_text := Some "$1.00" |}.

Definition next_button_on : NextButton :=
  {| button_class := Some "next-icon-new";
     button_href := Some "https://www.mysticstamp.com/2-1855-norway/";
     click_raises := false |}.

(** The counters and the browser a run of scraper_selenium.py ends
    with. *)
Definition show_more_counts (r : SeleniumStampScraper.Run)
  : SeleniumStampScraper.Clicks :=
  match r with
  | SeleniumStampScraper.Left st _ | SeleniumStampScraper.NoView st _ => st
  end.

Definition show_more_browser (r : SeleniumStampScraper.Run)
  : SeleniumStampScraper.Browser :=
  match r with
  | SeleniumStampScraper.Left _ b | SeleniumStampScraper.NoView _ b => b
  end.

(** The identifier set and the trace of a browser, as a world. *)
Definition as_world (ids : gset string) (events : list Event) : World unit :=
  {| script := []; scraped_ids := ids; trace := events |}.

(** A card of the list page: Norway 1 of 1855 at $1.00. *)
Definition card_norway_1 : Card :=
  {| card_article := Some (Some "42");
     card_img := Some (Some "https://x/img.jpg");
     card_stamp_number := Some ("Norway 1", None);
     card_title := Some ("1855 Norway", None);
     card_price := Some ("$1.00", None) |}.

(** * Properties *)

(** ** The extraction monad *)

Lemma bind_inr {A B} (m : Extract A) (k : A -> Extract B) ids a ids' :
  m ids = (inr a, ids') -> bind m k ids = k a ids'.
Proof. intros E. unfold bind. rewrite E. reflexivity. Qed.

Lemma bind_inl {A B} (m : Extract A) (k : A -> Extract B) ids r ids' :
  m ids = (inl r, ids') -> bind m k ids = (inl r, ids').
Proof. intros E. unfold bind. rewrite E. reflexivity. Qed.

Lemma bind_gate {A B} (g : Rejection + A) (k : A -> Extract B) ids :
  bind (gate g) k ids =
  match g with inr a => k a ids | inl r => (inl r, ids) end.
Proof. unfold bind, gate. destruct g; reflexivity. Qed.

Lemma first_gate_spec product_id ids :
  (reject_if (Py.is_empty product_id) NoIdentifier ;;
   dup <- is_scraped product_id ;;
   reject_if dup Duplicate ;;
   ret product_id)%extract ids = first_gate product_id ids.
Proof.
  unfold first_gate, bind, reject_if, is_scraped, reject, ret.
  destruct (Py.is_empty product_id); [reflexivity|].
  destruct (bool_decide (product_id ∈ ids)); reflexivity.
Qed.

Lemma first_gate_inr product_id ids x ids' :
  first_gate product_id ids = (inr x, ids') ->
  x = product_id /\ ids' = ids /\ product_id <> "" /\ product_id ∉ ids.
Proof.
  unfold first_gate.
  destruct product_id as [|c t]; simpl; [discriminate|].
  destruct (bool_decide (String c t ∈ ids)) eqn:E; [discriminate|].
  intros [= <- <-]. apply bool_decide_eq_false in E. auto.
Qed.

Lemma first_gate_ids product_id ids r ids' :
  first_gate product_id ids = (r, ids') -> ids' = ids.
Proof.
  unfold first_gate.
  destruct (Py.is_empty product_id); [congruence|].
  destruct (bool_decide (product_id ∈ ids)); congruence.
Qed.

Lemma first_gate_seen product_id ids :
  product_id <> "" -> product_id ∈ ids ->
  first_gate product_id ids = (inl Duplicate, ids).
Proof.
  intros Hne Hin. unfold first_gate.
  destruct product_id; [congruence|]. simpl.
  rewrite bool_decide_eq_true_2 by assumption. reflexivity.
Qed.

Lemma first_gate_fresh product_id ids :
  product_id <> "" -> product_id ∉ ids ->
  first_gate product_id ids = (inr product_id, ids).
Proof.
  intros Hne Hin. unfold first_gate.
  destruct product_id; [congruence|]. simpl.
  rewrite bool_decide_eq_false_2 by assumption. reflexivity.
Qed.

Section Pipeline.
Context {A B C D : Type}.
Variables (pid : string) (g1 : Rejection + A) (g2 : Rejection + B)
          (g3 : Rejection + C) (g4 : Rejection + D)
          (mk : string -> A -> B -> C -> D -> CanonicalRecord).

Local Abbreviation pipe := (pipeline pid g1 g2 g3 g4 mk).

Lemma pipeline_accepts ids rec ids' :
  pipe ids = (inr rec, ids') ->
  exists a b c d,
    g1 = inr a /\ g2 = inr b /\ g3 = inr c /\ g4 = inr d /\
    rec = mk pid a b c d /\ ids' = {[pid]} ∪ ids /\
    pid <> "" /\ pid ∉ ids.
Proof.
  unfold pipeline. unfold bind at 1.
  destruct (first_gate pid ids) as [[r|x] ids0] eqn:E; [discriminate|].
  apply first_gate_inr in E as (-> & -> & Hne & Hnin).
  rewrite !bind_gate.
  destruct g1 as [|a]; [discriminate|].
  rewrite bind_gate. destruct g2 as [|b]; [discriminate|].
  rewrite bind_gate. destruct g3 as [|c]; [discriminate|].
  rewrite bind_gate. destruct g4 as [|d]; [discriminate|].
  unfold bind, mark_scraped, ret. intros [= <- <-].
  exists a, b, c, d. auto 10.
Qed.

Lemma pipeline_rejects ids r ids' :
  pipe ids = (inl r, ids') -> ids' = ids.
Proof.
  unfold pipeline. unfold bind at 1.
  destruct (first_gate pid ids) as [[r0|x] ids0] eqn:E.
  - intros [= <- <-]. eapply first_gate_ids, E.
  - apply first_gate_inr in E as (-> & -> & Hne & Hnin).
    rewrite !bind_gate.
    destruct g1 as [|a]; [congruence|].
    rewrite bind_gate. destruct g2 as [|b]; [congruence|].
    rewrite bind_gate. destruct g3 as [|c]; [congruence|].
    rewrite bind_gate. destruct g4 as [|d]; [congruence|].
    unfold bind, mark_scraped, ret. discriminate.
Qed.

Lemma pipeline_seen ids :
  pid <> "" -> pid ∈ ids -> pipe ids = (inl Duplicate, ids).
Proof.
  intros Hne Hin. unfold pipeline.
  apply bind_inl. apply first_gate_seen; assumption.
Qed.

Lemma pipeline_fresh ids :
  pid <> "" -> pid ∉ ids ->
  pipe ids =
  match g1, g2, g3, g4 with
  | inr a, inr b, inr c, inr d => (inr (mk pid a b c d), {[pid]} ∪ ids)
  | inl r, _, _, _ => (inl r, ids)
  | _, inl r, _, _ => (inl r, ids)
  | _, _, inl r, _ => (inl r, ids)
  | _, _, _, inl r => (inl r, ids)
  end.
Proof.
  intros Hne Hnin. unfold pipeline.
  erewrite bind_inr by (apply first_gate_fresh; assumption).
  rewrite bind_gate. destruct g1 as [|a]; [reflexivity|].
  rewrite bind_gate. destruct g2 as [|b]; [reflexivity|].
  rewrite bind_gate. destruct g3 as [|c]; [reflexivity|].
  rewrite bind_gate. destruct g4 as [|d]; reflexivity.
Qed.

End Pipeline.

(** Both sides run the same gates in the same order: go through them one
    by one, each either rejecting on both sides or passing on both. *)
Ltac gate_by_gate :=
  repeat (rewrite !bind_gate;
          match goal with
          | |- context [match ?g with inl _ => _ | inr _ => _ end] =>
              destruct g as [?|?]; [reflexivity|]
          end;
          try match goal with p : (_ * _)%type |- _ => destruct p end);
  reflexivity.

(** ** scraper_api.py: the extractor as a pipeline *)

Lemma api_get_product_id `{Py.Runtime} result ids :
  StampAPIScraper.get_product_id result ids =
  first_gate (api_product_id result) ids.
Proof. apply first_gate_spec. Qed.

Lemma api_pipeline `{Py.Runtime} result ids :
  StampAPIScraper.extract_stamp_data result ids =
  pipeline (api_product_id result)
    (StampAPIScraper.extract_image_url result)
    (StampAPIScraper.extract_stamp_number result)
    (StampAPIScraper.extract_year_country result)
    (StampAPIScraper.extract_price result)
    api_record ids.
Proof.
  unfold StampAPIScraper.extract_stamp_data, pipeline.
  unfold bind at 1 7. rewrite api_get_product_id.
  destruct (first_gate (api_product_id result) ids) as [[r|x] ids0];
    [reflexivity|].
  gate_by_gate.
Qed.

(** C1.  The search result
    [{id: "42", imageUrl: "https://x/img.jpg", sku: "Norway 1",
      name: "1 - 1855 Norway", price: 12.5}], when "42" is not among the
    identifiers already scraped, is normalised by [extract_stamp_data] of
    scraper_api.py to the record with product_id "42", stamp_number
    "Norway 1", year "1855", country "Norway" and price 12.5 (and the
    image URL it came with), and "42" joins the identifiers. *)
Theorem norway_1_is_normalized `{Py.Runtime} (ids : gset string) :
  "42" ∉ ids ->
  StampAPIScraper.extract_stamp_data raw_norway_1 ids
  = (inr norway_1, {["42"]} ∪ ids)
  /\ Py.float_value (price norway_1) = Some (25 # 2)%Q.
Proof.
  intros Hfresh. split; [|reflexivity].
  rewrite api_pipeline.
  assert (api_product_id raw_norway_1 = "42") as -> by (vm_compute; reflexivity).
  rewrite pipeline_fresh by (assumption || discriminate).
  assert (StampAPIScraper.extract_image_url raw_norway_1
          = inr (Py.JStr "https://x/img.jpg")) as -> by (vm_compute; reflexivity).
  assert (StampAPIScraper.extract_stamp_number raw_norway_1
          = inr "Norway 1") as -> by (vm_compute; reflexivity).
  assert (StampAPIScraper.extract_year_country raw_norway_1
          = inr ("1855", "Norway")) as -> by (vm_compute; reflexivity).
  assert (StampAPIScraper.extract_price raw_norway_1
          = inr float_12_5) as -> by (vm_compute; reflexivity).
  reflexivity.
Qed.

Lemma norway_1_is_normalized_witness :
  ("42" ∉ (∅ : gset string)) /\
  (@StampAPIScraper.extract_stamp_data example_runtime raw_norway_1 ∅
   = (inr norway_1, {["42"]} ∪ ∅)
   /\ Py.float_value (price norway_1) = Some (25 # 2)%Q).
Proof.
  split; [apply not_elem_of_empty|].
  apply (@norway_1_is_normalized example_runtime ∅), not_elem_of_empty.
Defined.

(** ** scraper.py: the extractor as a pipeline *)

Lemma html_get_product_id listing ids :
  StampScraper.get_product_id listing ids =
  first_gate (html_product_id listing) ids.
Proof.
  unfold StampScraper.get_product_id, html_product_id.
  destruct (data_product_id listing) as [product_id|]; simpl.
  - apply first_gate_spec.
  - reflexivity.
Qed.

Lemma html_pipeline listing ids :
  StampScraper.extract_stamp_data listing ids =
  pipeline (html_product_id listing)
    (StampScraper.extract_image_url listing)
    (StampScraper.extract_stamp_number listing)
    (StampScraper.extract_year_country listing)
    (StampScraper.extract_price listing)
    html_record ids.
Proof.
  unfold StampScraper.extract_stamp_data, pipeline.
  unfold bind at 1 7. rewrite html_get_product_id.
  destruct (first_gate (html_product_id listing) ids) as [[r|x] ids0];
    [reflexivity|].
  gate_by_gate.
Qed.

(** ** The filtered and segmented API scrapers: the extractor as a
    pipeline *)

Lemma searchspring_pipeline `{Py.Runtime} category condition result ids :
  Searchspring.extract_stamp_data category condition result ids =
  pipeline (api_product_id result)
    (Searchspring.extract_image_url result)
    (Searchspring.extract_stamp_number result)
    (Searchspring.extract_year_country result)
    (Searchspring.extract_price result)
    (tagged_record category condition) ids.
Proof.
  unfold Searchspring.extract_stamp_data, pipeline.
  unfold bind at 1 7.
  replace (Searchspring.get_product_id result ids)
    with (first_gate (api_product_id result) ids)
    by (symmetry; apply first_gate_spec).
  destruct (first_gate (api_product_id result) ids) as [[r|x] ids0];
    [reflexivity|].
  gate_by_gate.
Qed.

(** ** The identifier set *)

Lemma pipeline_ids {A B C D} pid (g1 : Rejection + A) (g2 : Rejection + B)
    (g3 : Rejection + C) (g4 : Rejection + D) mk ids :
  match pipeline pid g1 g2 g3 g4 mk ids with
  | (inl _, ids') => ids' = ids
  | (inr rec, ids') =>
      (exists a b c d, rec = mk pid a b c d) /\
      (pid ∉ ids) /\ ids' = {[pid]} ∪ ids
  end.
Proof.
  destruct (pipeline pid g1 g2 g3 g4 mk ids) as [[r|rec] ids'] eqn:E.
  - eapply pipeline_rejects, E.
  - apply pipeline_accepts in E
      as (a & b & c & d & _ & _ & _ & _ & -> & -> & _ & Hnin).
    eauto 10.
Qed.

Lemma api_record_id pid a b c d : product_id (api_record pid a b c d) = pid.
Proof. destruct c. reflexivity. Qed.

Lemma html_record_id pid a b c d : product_id (html_record pid a b c d) = pid.
Proof. destruct c. reflexivity. Qed.

Lemma tagged_record_id t1 t2 pid a b c d :
  product_id (tagged_record t1 t2 pid a b c d) = pid.
Proof. destruct c. reflexivity. Qed.

(** C10.  For every raw record and every identifier set, in scraper_api.py
    and in scraper.py alike: when [extract_stamp_data] rejects the record,
    whatever the reason, the identifier set is left as it was; when it
    accepts it, the identifier of the record was not in the set and the new
    set is the old one with that one identifier added. *)
Theorem seen_set_changes_only_on_success `{Py.Runtime}
    (result : gmap string Py.json) (listing : Listing) (ids : gset string) :
  match StampAPIScraper.extract_stamp_data result ids with
  | (inl _, ids') => ids' = ids
  | (inr rec, ids') =>
      product_id rec = api_product_id result /\
      (product_id rec ∉ ids) /\ ids' = {[product_id rec]} ∪ ids
  end
  /\
  match StampScraper.extract_stamp_data listing ids with
  | (inl _, ids') => ids' = ids
  | (inr rec, ids') =>
      data_product_id listing = Some (product_id rec) /\
      (product_id rec ∉ ids) /\ ids' = {[product_id rec]} ∪ ids
  end.
Proof.
  split.
  - rewrite api_pipeline.
    match goal with |- context [pipeline ?p ?a ?b ?c ?d ?m ?i] =>
      pose proof (pipeline_ids p a b c d m i) as P;
      destruct (pipeline p a b c d m i) as [[r|rec] ids'] end.
    + exact P.
    + destruct P as ((a & b & c & d & ->) & Hnin & ->).
      rewrite api_record_id. auto.
  - rewrite html_pipeline.
    match goal with |- context [pipeline ?p ?a ?b ?c ?d ?m ?i] =>
      destruct (pipeline p a b c d m i) as [[r|rec] ids'] eqn:E end.
    + eapply pipeline_rejects, E.
    + apply pipeline_accepts in E
        as (a & b & c & d & _ & _ & _ & _ & -> & -> & Hne & Hnin).
      rewrite html_record_id. repeat split; try assumption.
      unfold html_product_id in *.
      destruct (data_product_id listing); [reflexivity|].
      simpl in Hne. congruence.
Qed.

(** C6.  For every search result that [extract_stamp_data] of
    scraper_api.py accepts against an identifier set, the same call on the
    same result against the set as the first call left it is rejected as a
    duplicate, and leaves the set as it is. *)
Theorem second_normalization_is_duplicate `{Py.Runtime}
    (result : gmap string Py.json) (ids ids' : gset string)
    (rec : CanonicalRecord) :
  StampAPIScraper.extract_stamp_data result ids = (inr rec, ids') ->
  StampAPIScraper.extract_stamp_data result ids' = (inl Duplicate, ids').
Proof.
  rewrite !api_pipeline. intros E.
  apply pipeline_accepts in E
    as (a & b & c & d & _ & _ & _ & _ & _ & -> & Hne & _).
  apply pipeline_seen; [assumption|]. set_solver.
Qed.

Lemma second_normalization_is_duplicate_witness :
  @StampAPIScraper.extract_stamp_data example_runtime raw_norway_1 ∅
  = (inr norway_1, {["42"]} ∪ ∅)
  /\ @StampAPIScraper.extract_stamp_data example_runtime raw_norway_1
       ({["42"]} ∪ ∅)
     = (inl Duplicate, {["42"]} ∪ ∅).
Proof.
  assert (@StampAPIScraper.extract_stamp_data example_runtime raw_norway_1 ∅
          = (inr norway_1, {["42"]} ∪ ∅)) as E
    by (vm_compute; reflexivity).
  split; [exact E|].
  exact (@second_normalization_is_duplicate example_runtime
           raw_norway_1 ∅ ({["42"]} ∪ ∅) norway_1 E).
Defined.

(** The same holds of the extractor of scraper.py and of the extractors of
    the filtered and segmented API scrapers. *)
Lemma html_renormalization_is_duplicate listing ids ids' rec :
  StampScraper.extract_stamp_data listing ids = (inr rec, ids') ->
  StampScraper.extract_stamp_data listing ids' = (inl Duplicate, ids').
Proof.
  rewrite !html_pipeline. intros E.
  apply pipeline_accepts in E
    as (a & b & c & d & _ & _ & _ & _ & _ & -> & Hne & _).
  apply pipeline_seen; [assumption|]. set_solver.
Qed.

Lemma searchspring_renormalization_is_duplicate `{Py.Runtime}
    category condition result ids ids' rec :
  Searchspring.extract_stamp_data category condition result ids
  = (inr rec, ids') ->
  Searchspring.extract_stamp_data category condition result ids'
  = (inl Duplicate, ids').
Proof.
  rewrite !searchspring_pipeline. intros E.
  apply pipeline_accepts in E
    as (a & b & c & d & _ & _ & _ & _ & _ & -> & Hne & _).
  apply pipeline_seen; [assumption|]. set_solver.
Qed.

(** ** The catalogue number *)

Lemma last_token_not_digits_invalid s :
  last_token_not_digits s -> is_valid_stamp_number s = false.
Proof.
  unfold last_token_not_digits, is_valid_stamp_number.
  destruct (last (Py.str_split_ws (Py.str_strip s))) as [token|];
    [|reflexivity].
  intros E. unfold Py.str_isdigit. rewrite E. apply andb_false_r.
Qed.

(** C2, as stated, fails: the catalogue number "Norway ²" ends in a
    token that is no decimal digit, and [extract_stamp_data] of
    scraper_api.py accepts the record that carries it. *)
Lemma superscript_catalog_number_is_accepted :
  last (Py.str_split_ws (Py.str_strip ("Norway " +:+ String superscript_two "")))
  = Some (String superscript_two "")
  /\ Py.forallb_str Py.isdecimal (String superscript_two "") = false
  /\ @StampAPIScraper.extract_stamp_data example_runtime raw_superscript ∅
     = (inr {| product_id := "43";
               image_url := Py.JStr "https://x/img.jpg";
               stamp_number := "Norway " +:+ String superscript_two "";
               year := "1855";
               country := "Norway";
               price := float_12_5;
               category := None;
               condition := None |}, {["43"]} ∪ ∅).
Proof. repeat split; vm_compute; reflexivity. Qed.

(** A rejection by the second gate after the identifier gate: no record,
    the identifier set as it was, and that rejection whenever the two
    gates before it are passed. *)
Lemma pipeline_second_gate {A B C D} pid (g1 : Rejection + A)
    (g2 : Rejection + B) (g3 : Rejection + C) (g4 : Rejection + D)
    mk ids r :
  g2 = inl r ->
  accepted (pipeline pid g1 g2 g3 g4 mk ids).1 = None
  /\ (pipeline pid g1 g2 g3 g4 mk ids).2 = ids
  /\ forall a,
       first_gate pid ids = (inr pid, ids) ->
       g1 = inr a ->
       pipeline pid g1 g2 g3 g4 mk ids = (inl r, ids).
Proof.
  intros E2.
  destruct (pipeline pid g1 g2 g3 g4 mk ids) as [[r'|rec] ids'] eqn:E.
  - split; [reflexivity|]. split; [eapply pipeline_rejects, E|].
    intros a E0 E1.
    apply first_gate_inr in E0 as (_ & _ & Hne & Hnin).
    rewrite <- E, pipeline_fresh by assumption.
    rewrite E1, E2. reflexivity.
  - apply pipeline_accepts in E
      as (a & b & c & d & _ & Eb & _). congruence.
Qed.

Lemma api_rejected_at_catalog `{Py.Runtime} result ids :
  StampAPIScraper.extract_stamp_number result = inl InvalidCatalogNumber ->
  accepted (StampAPIScraper.extract_stamp_data result ids).1 = None
  /\ (StampAPIScraper.extract_stamp_data result ids).2 = ids
  /\ forall product_id image_url,
       StampAPIScraper.get_product_id result ids = (inr product_id, ids) ->
       StampAPIScraper.extract_image_url result = inr image_url ->
       StampAPIScraper.extract_stamp_data result ids
       = (inl InvalidCatalogNumber, ids).
Proof.
  intros E.
  destruct (pipeline_second_gate (api_product_id result)
    (StampAPIScraper.extract_image_url result)
    (StampAPIScraper.extract_stamp_number result)
    (StampAPIScraper.extract_year_country result)
    (StampAPIScraper.extract_price result) api_record ids _ E)
    as (P1 & P2 & P3).
  rewrite <- api_pipeline in P1, P2.
  split; [exact P1|]. split; [exact P2|].
  intros pid img E0 E1. rewrite api_get_product_id in E0.
  pose proof (first_gate_inr _ _ _ _ E0) as (-> & _).
  rewrite api_pipeline. eapply P3; eassumption.
Qed.

Lemma html_rejected_at_catalog listing ids :
  StampScraper.extract_stamp_number listing = inl InvalidCatalogNumber ->
  accepted (StampScraper.extract_stamp_data listing ids).1 = None
  /\ (StampScraper.extract_stamp_data listing ids).2 = ids
  /\ forall product_id image_url,
       StampScraper.get_product_id listing ids = (inr product_id, ids) ->
       StampScraper.extract_image_url listing = inr image_url ->
       StampScraper.extract_stamp_data listing ids
       = (inl InvalidCatalogNumber, ids).
Proof.
  intros E.
  destruct (pipeline_second_gate (html_product_id listing)
    (StampScraper.extract_image_url listing)
    (StampScraper.extract_stamp_number listing)
    (StampScraper.extract_year_country listing)
    (StampScraper.extract_price listing) html_record ids _ E)
    as (P1 & P2 & P3).
  rewrite <- html_pipeline in P1, P2.
  split; [exact P1|]. split; [exact P2|].
  intros pid img E0 E1. rewrite html_get_product_id in E0.
  pose proof (first_gate_inr _ _ _ _ E0) as (-> & _).
  rewrite html_pipeline. eapply P3; eassumption.
Qed.

(** C2, amended.  Take a search result whose [sku] is the text [s] (or is
    absent, [s] then being empty) and a listing whose catalogue number reads
    [t], where the last whitespace-delimited token of [s] and of [t] has a
    character that [str.isdigit] rejects, or there is no token at all.  Then,
    in scraper_api.py and in scraper.py alike, the catalogue-number gate
    answers InvalidCatalogNumber; [extract_stamp_data] produces no record
    and leaves the identifier set as it was; and it rejects with
    InvalidCatalogNumber whenever the record passes the identifier and the
    image gates. *)
Theorem invalid_catalog_number_is_rejected `{Py.Runtime}
    (result : gmap string Py.json) (s : string)
    (listing : Listing) (tag : list string) (ids : gset string) :
  Py.get result "sku" (Py.JStr "") = Py.JStr s ->
  last_token_not_digits s ->
  StampNumber listing = Some tag ->
  last_token_not_digits (get_text_strip tag) ->
  (StampAPIScraper.extract_stamp_number result = inl InvalidCatalogNumber
   /\ accepted (StampAPIScraper.extract_stamp_data result ids).1 = None
   /\ (StampAPIScraper.extract_stamp_data result ids).2 = ids
   /\ forall product_id image_url,
        StampAPIScraper.get_product_id result ids = (inr product_id, ids) ->
        StampAPIScraper.extract_image_url result = inr image_url ->
        StampAPIScraper.extract_stamp_data result ids
        = (inl InvalidCatalogNumber, ids))
  /\
  (StampScraper.extract_stamp_number listing = inl InvalidCatalogNumber
   /\ accepted (StampScraper.extract_stamp_data listing ids).1 = None
   /\ (StampScraper.extract_stamp_data listing ids).2 = ids
   /\ forall product_id image_url,
        StampScraper.get_product_id listing ids = (inr product_id, ids) ->
        StampScraper.extract_image_url listing = inr image_url ->
        StampScraper.extract_stamp_data listing ids
        = (inl InvalidCatalogNumber, ids)).
Proof.
  intros Hsku Hs Htag Ht.
  assert (StampAPIScraper.extract_stamp_number result
          = inl InvalidCatalogNumber) as Eapi.
  { unfold StampAPIScraper.extract_stamp_number. rewrite Hsku. simpl.
    destruct (Py.is_empty s); [reflexivity|]. simpl.
    rewrite last_token_not_digits_invalid by assumption. reflexivity. }
  assert (StampScraper.extract_stamp_number listing
          = inl InvalidCatalogNumber) as Ehtml.
  { unfold StampScraper.extract_stamp_number. rewrite Htag.
    rewrite last_token_not_digits_invalid by assumption. reflexivity. }
  split.
  - split; [exact Eapi|]. apply api_rejected_at_catalog, Eapi.
  - split; [exact Ehtml|]. apply html_rejected_at_catalog, Ehtml.
Qed.

Lemma invalid_catalog_number_is_rejected_witness :
  @StampAPIScraper.extract_stamp_data example_runtime raw_range ∅
  = (inl InvalidCatalogNumber, ∅)
  /\ StampScraper.extract_stamp_data listing_range ∅
     = (inl InvalidCatalogNumber, ∅).
Proof.
  destruct (@invalid_catalog_number_is_rejected example_runtime
              raw_range "France 12-14" listing_range ["France 12-14"] ∅)
    as [(_ & _ & _ & Hapi) (_ & _ & _ & Hhtml)];
    [reflexivity | vm_compute; reflexivity
    | reflexivity | vm_compute; reflexivity |].
  split.
  - apply (Hapi "44" (Py.JStr "https://x/img.jpg")); vm_compute; reflexivity.
  - apply (Hhtml "44" "https://x/img.jpg"); vm_compute; reflexivity.
Defined.

(** The three catalogue numbers the property names. *)
Lemma named_catalog_numbers_are_invalid :
  is_valid_stamp_number "France 12-14" = false
  /\ is_valid_stamp_number "Norway 3/4" = false
  /\ is_valid_stamp_number "" = false
  /\ is_valid_stamp_number "Norway 1" = true.
Proof. repeat split; vm_compute; reflexivity. Qed.

(** ** The country *)

(** C3.  [extract_stamp_data] of scraper.py, given a listing whose title
    is the year alone, returns a record, and its country is the empty
    string: the test [if not country] of the other extractors is not
    there. *)
Theorem html_listing_with_empty_country_is_accepted :
  StampScraper.extract_year_country listing_year_only = inr ("1855", "")
  /\ StampScraper.extract_stamp_data listing_year_only ∅
     = (inr {| product_id := "7";
               image_url := Py.JStr "https://x/a.jpg";
               stamp_number := "Norway 1";
               year := "1855";
               country := "";
               price := Py.float_one;
               category := None;
               condition := None |}, {["7"]} ∪ ∅).
Proof. split; vm_compute; reflexivity. Qed.

(** The extractors that do test the country never return an empty one. *)
Lemma api_country_is_not_empty `{Py.Runtime} result ids rec ids' :
  StampAPIScraper.extract_stamp_data result ids = (inr rec, ids') ->
  country rec <> "".
Proof.
  rewrite api_pipeline. intros E.
  apply pipeline_accepts in E
    as (a & b & [y c] & d & _ & _ & Ec & _ & -> & _).
  simpl. unfold StampAPIScraper.extract_year_country in Ec.
  repeat case_match; simplify_eq.
  intros ->. discriminate.
Qed.

Lemma searchspring_country_is_not_empty `{Py.Runtime}
    category condition result ids rec ids' :
  Searchspring.extract_stamp_data category condition result ids
  = (inr rec, ids') ->
  country rec <> "".
Proof.
  rewrite searchspring_pipeline. intros E.
  apply pipeline_accepts in E
    as (a & b & [y c] & d & _ & _ & Ec & _ & -> & _).
  simpl. unfold Searchspring.extract_year_country in Ec.
  repeat case_match; simplify_eq.
  intros ->. discriminate.
Qed.

(** A title with an empty country, in the search API: rejected at the
    title gate as NoCountry. *)
Lemma api_empty_country_is_rejected :
  StampAPIScraper.extract_year_country {[ "name" := Py.JStr "1 - 1855" ]}
  = inl NoCountry
  /\ Searchspring.extract_year_country {[ "name" := Py.JStr "1 - 1855 " ]}
     = inl NoCountry.
Proof. split; vm_compute; reflexivity. Qed.

(** The extractor of scraper_selenium.py leaves the test out as well. *)
Lemma selenium_listing_with_empty_country :
  SeleniumStampScraper.extract_year_country card_year_only
  = inr ("1855", "")
  /\ accepted (SeleniumStampScraper.extract_stamp_data card_year_only ∅).1
     = Some {| product_id := "7";
               image_url := Py.JStr "https://x/a.jpg";
               stamp_number := "Norway 1";
               year := "1855";
               country := "";
               price := Py.float_one;
               category := None;
               condition := None |}.
Proof. split; vm_compute; reflexivity. Qed.

(** ** The title delimiter *)

(** C4.  On the title "1 - 1855 East - Germany", [extract_stamp_data] of
    scraper_api.py splits at both delimiters and reads the country from the
    second of three parts, "East"; the extractor shared by the category,
    condition and segmented scrapers splits once and reads
    "East - Germany". *)
Theorem api_title_is_split_at_every_delimiter :
  Py.str_split " - " None "1 - 1855 East - Germany"
  = ["1"; "1855 East"; "Germany"]
  /\ StampAPIScraper.extract_year_country
       {[ "name" := Py.JStr "1 - 1855 East - Germany" ]}
     = inr ("1855", "East")
  /\ Py.str_split " - " (Some 1%nat) "1 - 1855 East - Germany"
     = ["1"; "1855 East - Germany"]
  /\ Searchspring.extract_year_country
       {[ "name" := Py.JStr "1 - 1855 East - Germany" ]}
     = inr ("1855", "East - Germany").
Proof. repeat split; vm_compute; reflexivity. Qed.

(** A split with [maxsplit = 1] gives the string itself, or two parts
    with the delimiter between them: the second part is all that follows
    the delimiter that was found. *)
Lemma append_empty_r s : s +:+ "" = s.
Proof.
  induction s as [|c s IH]; [reflexivity|].
  change (String c (s +:+ "") = String c s). now f_equal.
Qed.

Lemma append_assoc a b c : (a +:+ b) +:+ c = a +:+ (b +:+ c).
Proof.
  induction a as [|x a IH]; [reflexivity|].
  change (String x ((a +:+ b) +:+ c) = String x (a +:+ (b +:+ c))).
  now f_equal.
Qed.

Lemma prefix_drop a b :
  String.prefix a b = true -> b = a +:+ Py.str_drop (String.length a) b.
Proof.
  revert b. induction a as [|x a IH]; intros b; [reflexivity|].
  destruct b as [|y b]; cbn [String.prefix]; [discriminate|].
  destruct (ascii_dec x y) as [->|]; [|discriminate].
  intros E.
  change (String y b
          = String y (a +:+ Py.str_drop (String.length a) b)).
  f_equal. apply IH, E.
Qed.

Lemma split_no_more sep k cur s :
  Py.split_from sep (Some 0%nat) k cur s = [cur +:+ Py.str_drop k s].
Proof.
  revert k cur. induction s as [|c s IH]; intros k cur.
  - destruct k; simpl; now rewrite append_empty_r.
  - destruct k as [|k]; simpl.
    + rewrite (IH 0%nat). simpl. now rewrite append_assoc.
    + apply IH.
Qed.

Lemma split_once_from sep cur s :
  sep <> "" ->
  Py.split_from sep (Some 1%nat) 0 cur s = [cur +:+ s]
  \/ exists a b,
       Py.split_from sep (Some 1%nat) 0 cur s = [a; b]
       /\ cur +:+ s = a +:+ sep +:+ b.
Proof.
  intros Hsep. revert cur. induction s as [|c s IH]; intros cur.
  - left. simpl. now rewrite append_empty_r.
  - cbn [Py.split_from]. cbn [andb].
    destruct (String.prefix sep (String c s)) eqn:E.
    + right. exists cur, (Py.str_drop (String.length sep - 1) s).
      cbn [fmap option_fmap option_map Nat.pred].
      rewrite split_no_more. split; [reflexivity|].
      f_equal. rewrite (prefix_drop _ _ E) at 1. f_equal.
      destruct sep as [|x sep]; [congruence|].
      simpl. now rewrite Nat.sub_0_r.
    + destruct (IH (cur +:+ String c "")) as [->|(a & b & -> & Eab)].
      * left. now rewrite append_assoc.
      * right. exists a, b. split; [reflexivity|].
        now rewrite <- Eab, append_assoc.
Qed.

Lemma split_once_parts s :
  Py.str_split " - " (Some 1%nat) s = [s]
  \/ exists a b,
       Py.str_split " - " (Some 1%nat) s = [a; b]
       /\ s = a +:+ " - " +:+ b.
Proof.
  unfold Py.str_split.
  destruct (split_once_from " - " "" s) as [E|E]; [discriminate|auto..].
Qed.

(** ** The identifier *)

(** C5, as stated, fails: [extract_product_data] of
    scraper_product_pages.py, on a page without identifier, returns a
    record, under the identifier "Norway_1". *)
Lemma product_page_without_identifier_is_accepted :
  nextProducts page_without_identifier = None
  /\ StampProductScraper.extract_product_data page_without_identifier ∅
     = (inr {| product_id := "Norway_1";
               image_url := Py.JStr "https://x/a.jpg";
               stamp_number := "Norway 1";
               year := "1855";
               country := "Norway";
               price := Py.float_one;
               category := None;
               condition := None |}, ∅).
Proof. split; vm_compute; reflexivity. Qed.

Lemma api_product_id_missing `{Py.Runtime} (result : gmap string Py.json) :
  result !! "uid" = None -> result !! "id" = None ->
  api_product_id result = "".
Proof.
  intros E1 E2. unfold api_product_id, Py.get. rewrite E1, E2. reflexivity.
Qed.

Lemma pipeline_no_identifier {A B C D} (g1 : Rejection + A)
    (g2 : Rejection + B) (g3 : Rejection + C) (g4 : Rejection + D) mk ids :
  pipeline "" g1 g2 g3 g4 mk ids = (inl NoIdentifier, ids).
Proof. reflexivity. Qed.

(** What [extract_product_data] does when the page has no identifier. *)
Lemma extract_product_data_without_identifier page ids :
  nonempty (match nextProducts page with
            | Some attribute => attribute
            | None => None
            end) = false ->
  StampProductScraper.extract_product_data page ids =
  match StampProductScraper.extract_image_url page,
        StampProductScraper.extract_year_country page,
        StampProductScraper.extract_stamp_number page,
        StampProductScraper.extract_price page with
  | inr image_url, inr (year, country), inr stamp_number_raw, inr price =>
      let number := Py.str_strip (Py.str_remove "#" stamp_number_raw) in
      (inr {| product_id := country +:+ "_" +:+ number;
              image_url := Py.JStr image_url;
              stamp_number := country +:+ " " +:+ number;
              year := year;
              country := country;
              price := price;
              category := None;
              condition := None |}, ids)
  | inl r, _, _, _ => (inl r, ids)
  | _, inl r, _, _ => (inl r, ids)
  | _, _, inl r, _ => (inl r, ids)
  | _, _, _, inl r => (inl r, ids)
  end.
Proof.
  intros E.
  unfold StampProductScraper.extract_product_data,
    StampProductScraper.get_product_id.
  rewrite E. unfold bind at 1 2. unfold ret at 1. unfold reject_if at 1.
  unfold bind at 1. unfold ret at 1 2.
  rewrite bind_gate.
  destruct (StampProductScraper.extract_image_url page); [reflexivity|].
  rewrite bind_gate.
  destruct (StampProductScraper.extract_year_country page) as [|[y c]];
    [reflexivity|].
  rewrite bind_gate.
  destruct (StampProductScraper.extract_stamp_number page); [reflexivity|].
  rewrite bind_gate.
  destruct (StampProductScraper.extract_price page); [reflexivity|].
  unfold bind, ret. rewrite E. reflexivity.
Qed.

(** C5, amended.  In the list extractors (scraper_api.py, the category,
    condition and segmented API scrapers, scraper.py) a record whose
    identifier field is missing is rejected with NoIdentifier and the
    identifier set is left as it was.  In the product-page extractor of
    scraper_product_pages.py a missing identifier is no ground for
    rejection: the identifier gate lets the page through, the identifier
    set is never touched, and a page that passes the other gates is
    returned under the identifier made of its country and its number. *)
Theorem missing_identifier `{Py.Runtime}
    (result : gmap string Py.json) (listing : Listing) (page : ProductPage)
    (category condition : option string) (ids : gset string) :
  result !! "uid" = None ->
  result !! "id" = None ->
  data_product_id listing = None ->
  nextProducts page = None ->
  StampAPIScraper.extract_stamp_data result ids = (inl NoIdentifier, ids)
  /\ Searchspring.extract_stamp_data category condition result ids
     = (inl NoIdentifier, ids)
  /\ StampScraper.extract_stamp_data listing ids = (inl NoIdentifier, ids)
  /\ StampProductScraper.get_product_id page ids = (inr None, ids)
  /\ (StampProductScraper.extract_product_data page ids).2 = ids
  /\ (StampProductScraper.extract_product_data page ids).1
     <> inl NoIdentifier
  /\ (StampProductScraper.extract_product_data page ids).1 <> inl Duplicate
  /\ forall image_url year country stamp_number_raw price,
       StampProductScraper.extract_image_url page = inr image_url ->
       StampProductScraper.extract_year_country page = inr (year, country) ->
       StampProductScraper.extract_stamp_number page = inr stamp_number_raw ->
       StampProductScraper.extract_price page = inr price ->
       exists rec,
         StampProductScraper.extract_product_data page ids = (inr rec, ids)
         /\ product_id rec
            = country +:+ "_"
              +:+ Py.str_strip (Py.str_remove "#" stamp_number_raw).
Proof.
  intros Euid Eid Ehtml Epage.
  split; [|split; [|split]].
  - rewrite api_pipeline, api_product_id_missing by assumption.
    apply pipeline_no_identifier.
  - rewrite searchspring_pipeline, api_product_id_missing by assumption.
    apply pipeline_no_identifier.
  - rewrite html_pipeline. unfold html_product_id. rewrite Ehtml.
    apply pipeline_no_identifier.
  - assert (nonempty (match nextProducts page with
                      | Some attribute => attribute
                      | None => None
                      end) = false) as E by (rewrite Epage; reflexivity).
    split; [|rewrite (extract_product_data_without_identifier page ids E)].
    { unfold StampProductScraper.get_product_id. rewrite Epage.
      reflexivity. }
    assert (forall r, StampProductScraper.extract_image_url page = inl r ->
                      r <> NoIdentifier /\ r <> Duplicate) as G1.
    { intros r. unfold StampProductScraper.extract_image_url.
      repeat case_match; intros; simplify_eq; split; discriminate. }
    assert (forall r, StampProductScraper.extract_year_country page = inl r ->
                      r <> NoIdentifier /\ r <> Duplicate) as G2.
    { intros r. unfold StampProductScraper.extract_year_country,
        year_and_country.
      repeat case_match; intros; simplify_eq; split; discriminate. }
    assert (forall r, StampProductScraper.extract_stamp_number page = inl r ->
                      r <> NoIdentifier /\ r <> Duplicate) as G3.
    { intros r. unfold StampProductScraper.extract_stamp_number.
      repeat case_match; intros; simplify_eq; split; discriminate. }
    assert (forall r, StampProductScraper.extract_price page = inl r ->
                      r <> NoIdentifier /\ r <> Duplicate) as G4.
    { intros r. unfold StampProductScraper.extract_price.
      repeat case_match; intros; simplify_eq; split; discriminate. }
    destruct (StampProductScraper.extract_image_url page) as [r1|img].
    { destruct (G1 r1 eq_refl).
      repeat split; simpl; try congruence; intros; discriminate. }
    destruct (StampProductScraper.extract_year_country page) as [r2|[y c]].
    { destruct (G2 r2 eq_refl).
      repeat split; simpl; try congruence; intros; discriminate. }
    destruct (StampProductScraper.extract_stamp_number page) as [r3|sn].
    { destruct (G3 r3 eq_refl).
      repeat split; simpl; try congruence; intros; discriminate. }
    destruct (StampProductScraper.extract_price page) as [r4|pr].
    { destruct (G4 r4 eq_refl).
      repeat split; simpl; try congruence; intros; discriminate. }
    repeat split; simpl; try discriminate.
    intros ? ? ? ? ? [= <-] [= <- <-] [= <-] [= <-].
    eexists. split; reflexivity.
Qed.

(** The two browser scrapers: the list extractor of scraper_selenium.py
    rejects an article without identifier; the product-page extractor of
    scraper_direct_navigation.py makes an identifier up, as that of
    scraper_product_pages.py does. *)
Lemma selenium_missing_identifier listing ids :
  card_article listing = Some None ->
  SeleniumStampScraper.extract_stamp_data listing ids
  = (inl NoIdentifier, ids).
Proof.
  intros E. unfold SeleniumStampScraper.extract_stamp_data,
    SeleniumStampScraper.get_product_id.
  rewrite E. reflexivity.
Qed.

Lemma direct_navigation_without_identifier :
  DirectStampProductScraper.extract_product_data
    direct_page_without_identifier ∅
  = (inr {| product_id := "Norway_1";
            image_url := Py.JStr "https://x/products/1/stencil/a.jpg";
            stamp_number := "Norway 1";
            year := "1855";
            country := "Norway";
            price := Py.float_one;
            category := None;
            condition := None |}, ∅).
Proof. vm_compute; reflexivity. Qed.

Lemma missing_identifier_witness :
  @StampAPIScraper.extract_stamp_data example_runtime
     {[ "sku" := Py.JStr "Norway 1" ]} ∅ = (inl NoIdentifier, ∅)
  /\ (StampProductScraper.extract_product_data page_without_identifier ∅).1
     <> inl NoIdentifier.
Proof.
  destruct (@missing_identifier example_runtime
              {[ "sku" := Py.JStr "Norway 1" ]}
              {| data_product_id := None; card_image := None;
                 StampNumber := None; card_ellipsis := None;
                 price_withoutTax := None |}
              page_without_identifier None None ∅)
    as (Hapi & _ & _ & _ & _ & Hpage & _);
    [reflexivity | reflexivity | reflexivity | reflexivity |].
  split; [exact Hapi | exact Hpage].
Defined.

(** ** The price *)

Lemma pipeline_fourth_gate {A B C D} pid (g1 : Rejection + A)
    (g2 : Rejection + B) (g3 : Rejection + C) (g4 : Rejection + D)
    mk ids r :
  g4 = inl r ->
  accepted (pipeline pid g1 g2 g3 g4 mk ids).1 = None
  /\ (pipeline pid g1 g2 g3 g4 mk ids).2 = ids
  /\ forall a b c,
       first_gate pid ids = (inr pid, ids) ->
       g1 = inr a -> g2 = inr b -> g3 = inr c ->
       pipeline pid g1 g2 g3 g4 mk ids = (inl r, ids).
Proof.
  intros E4.
  destruct (pipeline pid g1 g2 g3 g4 mk ids) as [[r'|rec] ids'] eqn:E.
  - split; [reflexivity|]. split; [eapply pipeline_rejects, E|].
    intros a b c E0 E1 E2 E3.
    apply first_gate_inr in E0 as (_ & _ & Hne & Hnin).
    rewrite <- E, pipeline_fresh by assumption.
    rewrite E1, E2, E3, E4. reflexivity.
  - apply pipeline_accepts in E
      as (a & b & c & d & _ & _ & _ & Ed & _). congruence.
Qed.


(** The price gate, when it is passed: the record carries the price. *)
Lemma pipeline_fourth_gate_passed {A B C D} pid (g1 : Rejection + A)
    (g2 : Rejection + B) (g3 : Rejection + C) (g4 : Rejection + D)
    mk ids a b c d :
  first_gate pid ids = (inr pid, ids) ->
  g1 = inr a -> g2 = inr b -> g3 = inr c -> g4 = inr d ->
  pipeline pid g1 g2 g3 g4 mk ids = (inr (mk pid a b c d), {[pid]} ∪ ids).
Proof.
  intros E0 E1 E2 E3 E4.
  apply first_gate_inr in E0 as (_ & _ & Hne & Hnin).
  rewrite pipeline_fresh by assumption.
  rewrite E1, E2, E3, E4. reflexivity.
Qed.



(** Other price texts: the float is the one nearest to the decimal that is
    written; a text without a dollar sign followed by a digit or a comma
    has no price; commas alone are caught as a [ValueError] of [float]. *)
Lemma other_price_texts :
  StampScraper.parse_price "$0.99" = inr (float_of_decimal_text 99 2)
  /\ StampScraper.parse_price "$12" = inr (float_of_decimal_text 12 0)
  /\ StampScraper.parse_price "$1,000,000.00"
     = inr (float_of_decimal_text 1000000 0)
  /\ StampScraper.parse_price "Now: $5." = inr (float_of_decimal_text 5 0)
  /\ StampScraper.parse_price "12.50" = inl NoPrice
  /\ StampScraper.parse_price "$.5" = inl NoPrice
  /\ StampScraper.parse_price "$," = inl (ExtractionError Py.ValueError).
Proof. repeat split; vm_compute; reflexivity. Qed.

(** ** The empty streak *)


(** The sample run, turn by turn: one record saved, then three pages in a
    row without a new record, and the loop is left before the last
    response is asked for. *)
Lemma scrape_all_sample_run :
  @StampAPIScraper.scrape_all example_runtime 1 None sample_run
  = Stopped {| page_num := 4; total_scraped := 1; consecutive_empty := 3 |}
            {| script := [NetworkError];
               scraped_ids := {["42"]} ∪ ∅;
               trace := [Get 1; Sleep 30; Get 1;
                         SaveToDatabase [norway_1]; SaveToJson [norway_1];
                         Sleep 1; Get 2; Sleep 30; Get 2;
                         Sleep 1; Get 3;
                         Sleep 1; Get 4] |}.
Proof. vm_compute; reflexivity. Qed.

(** The loop of [scrape_all], whatever the page scraper. *)
Section PlainLoopFacts.
Context {P : Type}.
Variable scrape_page :
  Z -> World P -> option (list CanonicalRecord * World P).
Variable save : list CanonicalRecord -> World P -> World P.

Local Abbreviation turn := (PlainLoop.scrape_all_turn scrape_page save).
Local Abbreviation loop := (PlainLoop.scrape_all_loop scrape_page save).

(** One turn on a page that yields no record. *)
Lemma scrape_all_turn_empty delay st w w1 :
  scrape_page (page_num st) w = Some ([], w1) ->
  turn delay None st w =
  let st1 := {| page_num := page_num st;
                total_scraped := total_scraped st;
                consecutive_empty := consecutive_empty st + 1 |} in
  if (3 <=? consecutive_empty st + 1)%nat then Some (inl st1, w1)
  else Some (inr {| page_num := page_num st + 1;
                    total_scraped := total_scraped st;
                    consecutive_empty := consecutive_empty st + 1 |},
             emit (Sleep delay) w1).
Proof.
  intros E. unfold PlainLoop.scrape_all_turn. simpl.
  rewrite E. simpl. reflexivity.
Qed.

(** One turn on a page that yields records. *)
Lemma scrape_all_turn_some delay st w w1 stamp stamps :
  scrape_page (page_num st) w = Some (stamp :: stamps, w1) ->
  turn delay None st w =
  Some (inr {| page_num := page_num st + 1;
               total_scraped := total_scraped st + length (stamp :: stamps);
               consecutive_empty := 0 |},
        emit (Sleep delay) (save (stamp :: stamps) w1)).
Proof.
  intros E. unfold PlainLoop.scrape_all_turn. simpl.
  rewrite E. simpl. reflexivity.
Qed.

Lemma scrape_all_turn_starved delay st w :
  scrape_page (page_num st) w = None ->
  turn delay None st w = None.
Proof.
  intros E. unfold PlainLoop.scrape_all_turn. simpl.
  rewrite E. reflexivity.
Qed.

(** With no page limit the loop stops only on its streak, and then the
    streak is 3. *)
Lemma scrape_all_stops_on_streak fuel delay st w st' w' :
  (consecutive_empty st < 3)%nat ->
  loop fuel delay None st w = Stopped st' w' ->
  consecutive_empty st' = 3%nat.
Proof.
  revert st w. induction fuel as [|fuel IH]; intros st w Hc;
    cbn [PlainLoop.scrape_all_loop]; [discriminate|].
  destruct (scrape_page (page_num st) w)
    as [[[|stamp stamps] w2]|] eqn:Ep.
  - rewrite (scrape_all_turn_empty delay st w w2 Ep). cbv zeta.
    destruct (3 <=? consecutive_empty st + 1)%nat eqn:E3.
    + intros [= <- <-]. simpl. apply Nat.leb_le in E3. lia.
    + apply IH. simpl. apply Nat.leb_gt in E3. lia.
  - rewrite (scrape_all_turn_some delay st w w2 stamp stamps Ep).
    apply IH. simpl. lia.
  - rewrite (scrape_all_turn_starved delay st w Ep). discriminate.
Qed.

(** The loop stops at the page that brings the streak to 3, with the total
    it had. *)
Lemma scrape_all_stops_after_empty_pages
    delay n page total streak w w' fuel :
  empty_pages scrape_page delay n page w w' ->
  (streak + n = 3)%nat ->
  (n <= fuel)%nat ->
  loop fuel delay None
    {| page_num := page; total_scraped := total;
       consecutive_empty := streak |} w
  = Stopped {| page_num := page + Z.of_nat n - 1; total_scraped := total;
               consecutive_empty := 3 |} w'.
Proof.
  intros Hrun. revert streak fuel.
  induction Hrun as [page w w' Ep|n page w w1 w' Ep Hrun IH];
    intros streak fuel Hs Hf.
  - destruct fuel as [|fuel]; [lia|].
    cbn [PlainLoop.scrape_all_loop].
    rewrite (scrape_all_turn_empty delay
               {| page_num := page; total_scraped := total;
                  consecutive_empty := streak |} w w' Ep).
    cbv zeta. cbn [page_num total_scraped consecutive_empty].
    replace (streak + 1)%nat with 3%nat by lia.
    replace (page + Z.of_nat 1 - 1)%Z with page by lia.
    reflexivity.
  - destruct fuel as [|fuel]; [lia|].
    cbn [PlainLoop.scrape_all_loop].
    rewrite (scrape_all_turn_empty delay
               {| page_num := page; total_scraped := total;
                  consecutive_empty := streak |} w w1 Ep).
    cbv zeta. cbn [page_num total_scraped consecutive_empty].
    assert (n <> 0)%nat as Hn by (inversion Hrun; lia).
    destruct (3 <=? streak + 1)%nat eqn:E3;
      [apply Nat.leb_le in E3; lia|].
    rewrite (IH (streak + 1)%nat fuel) by lia.
    replace (page + 1 + Z.of_nat n - 1)%Z
      with (page + Z.of_nat (S n) - 1)%Z by lia.
    reflexivity.
Qed.

(** When a page costs at least one response and saving costs none, the
    model of [scrape_all] does not run out of turns: the loop is left, or
    it waits for a response the script does not have. *)
Hypothesis scrape_page_consumes : forall page w stamps w1,
  scrape_page page w = Some (stamps, w1) ->
  (length (script w1) < length (script w))%nat.
Hypothesis save_script : forall stamps w, script (save stamps w) = script w.

Lemma scrape_all_turn_consumes delay max_pages st w st' w' :
  turn delay max_pages st w = Some (inr st', w') ->
  (length (script w') < length (script w))%nat.
Proof.
  unfold PlainLoop.scrape_all_turn.
  destruct (PlainLoop.over_limit max_pages (page_num st));
    [discriminate|].
  destruct (scrape_page (page_num st) w)
    as [[stamps w1]|] eqn:Ep; [|discriminate].
  apply scrape_page_consumes in Ep. cbn [mbind option_bind].
  destruct stamps as [|stamp stamps].
  - destruct (3 <=? _)%nat; [discriminate|]. intros [= _ <-]. exact Ep.
  - destruct (3 <=? _)%nat; [discriminate|]. intros [= _ <-].
    cbn [emit script]. rewrite save_script. exact Ep.
Qed.

Lemma scrape_all_loop_has_fuel fuel delay max_pages st w :
  (length (script w) < fuel)%nat ->
  forall st' w', loop fuel delay max_pages st w <> OutOfFuel st' w'.
Proof.
  revert st w. induction fuel as [|fuel IH]; intros st w Hlen st' w';
    [lia|].
  cbn [PlainLoop.scrape_all_loop].
  destruct (turn delay max_pages st w) as [[[stl|str] w1]|] eqn:E;
    try discriminate.
  apply IH. apply scrape_all_turn_consumes in E. lia.
Qed.

Lemma scrape_all_is_total delay max_pages w :
  (exists st' w',
     PlainLoop.scrape_all scrape_page save delay max_pages w
     = Stopped st' w')
  \/ (exists st' w',
        PlainLoop.scrape_all scrape_page save delay max_pages w
        = Starved st' w').
Proof.
  unfold PlainLoop.scrape_all.
  pose proof (scrape_all_loop_has_fuel (S (length (script w))) delay
                max_pages PlainLoop.initial w (Nat.lt_succ_diag_r _)) as F.
  destruct (loop (S (length (script w))) delay max_pages
              PlainLoop.initial w) as [st' w'|st' w'|st' w'];
    [left|right|exfalso]; eauto.
  eapply F. reflexivity.
Qed.

Lemma empty_pages_consume delay n page w w' :
  empty_pages scrape_page delay n page w w' ->
  (n + length (script w') <= length (script w))%nat.
Proof.
  induction 1 as [page w w' Ep|n page w w1 w' Ep Hrun IH].
  - apply scrape_page_consumes in Ep. lia.
  - apply scrape_page_consumes in Ep. simpl in IH. lia.
Qed.

(** [scrape_all] from its first page: three pages in a row without an
    accepted record, and it stops there with nothing scraped. *)
Lemma scrape_all_stops_at_three_empty_pages delay w w' :
  empty_pages scrape_page delay 3 1 w w' ->
  PlainLoop.scrape_all scrape_page save delay None w
  = Stopped {| page_num := 3; total_scraped := 0;
               consecutive_empty := 3 |} w'.
Proof.
  intros Hrun. unfold PlainLoop.scrape_all, PlainLoop.initial.
  pose proof (empty_pages_consume delay 3 1 w w' Hrun).
  rewrite (scrape_all_stops_after_empty_pages delay 3 1 0 0 w w')
    by (assumption || lia).
  reflexivity.
Qed.

End PlainLoopFacts.

(** A response with raw records all of which are rejected is a page that
    yields no record. *)
Lemma scrape_page_all_rejected `{Py.Runtime} page w status data rest :
  script w = Response status (Some data) :: rest ->
  status <> 429%Z ->
  raises_for_status status = false ->
  (extract_each StampAPIScraper.extract_stamp_data (results data)
                (scraped_ids w)).1 = [] ->
  exists w1, StampAPIScraper.scrape_page page w = Some ([], w1).
Proof.
  intros Es Hs Hr He.
  unfold StampAPIScraper.scrape_page, request. rewrite Es. simpl.
  assert (forall T (a b : T),
            match status with 429%Z => a | _ => b end = b) as Hm.
  { intros T a b. destruct status as [|p|p]; try reflexivity.
    repeat (destruct p as [p|p|]; try reflexivity). congruence. }
  rewrite Hm. unfold StampAPIScraper.read_response. rewrite Hr. simpl.
  destruct (extract_each StampAPIScraper.extract_stamp_data (results data)
              (scraped_ids w)) as [stamps ids] eqn:E.
  simpl in He. subst stamps. eauto.
Qed.

Lemma read_response_script `{Py.Runtime} r w :
  script (StampAPIScraper.read_response r w).2 = script w.
Proof.
  unfold StampAPIScraper.read_response.
  destruct r as [|status [data|]]; try reflexivity.
  - destruct (raises_for_status status); [reflexivity|].
    destruct (extract_each StampAPIScraper.extract_stamp_data
                (results data) (scraped_ids w)); reflexivity.
  - destruct (raises_for_status status); reflexivity.
Qed.

Lemma api_scrape_page_consumes `{Py.Runtime} page w stamps w1 :
  StampAPIScraper.scrape_page page w = Some (stamps, w1) ->
  (length (script w1) < length (script w))%nat.
Proof.
  unfold StampAPIScraper.scrape_page, request.
  destruct (script w) as [|r rest] eqn:Es; [discriminate|].
  cbn [mbind option_bind].
  set (w0 := {| script := rest; scraped_ids := scraped_ids w;
                trace := trace w ++ [Get page] |}).
  assert (forall r0, Some (StampAPIScraper.read_response r0 w0)
                     = Some (stamps, w1) ->
                     (length (script w1) < S (length rest))%nat) as Hread.
  { intros r0 [= E]. pose proof (read_response_script r0 w0) as R.
    rewrite E in R. simpl in R. rewrite R. simpl. lia. }
  destruct r as [|status body]; [apply Hread|].
  destruct status as [|p|p]; try apply Hread.
  repeat (destruct p as [p|p|]; try apply Hread).
  cbn [emit script scraped_ids trace].
  destruct rest as [|r' rest']; [discriminate|].
  cbn [mbind option_bind].
  intros [= E].
  match type of E with StampAPIScraper.read_response _ ?w3 = _ =>
    pose proof (read_response_script r' w3) as R end.
  rewrite E in R. simpl in R. rewrite R. simpl. lia.
Qed.

Lemma html_scrape_page_consumes page w stamps w1 :
  StampScraper.scrape_page page w = Some (stamps, w1) ->
  (length (script w1) < length (script w))%nat.
Proof.
  unfold StampScraper.scrape_page, request.
  destruct (script w) as [|r rest] eqn:Es; [discriminate|].
  cbn [mbind option_bind].
  destruct r as [|status [listings|]].
  - intros [= _ <-]. simpl. lia.
  - destruct (raises_for_status status).
    + intros [= _ <-]. simpl. lia.
    + destruct (extract_each _ _ _). intros [= _ <-]. simpl. lia.
  - destruct (raises_for_status status); intros [= _ <-]; simpl; lia.
Qed.

(** [scrape_all] of scraper_api.py and of scraper.py either leaves its loop
    or waits for a response the script does not have. *)
Lemma api_scrape_all_is_total `{Py.Runtime} delay max_pages w :
  (exists st' w', StampAPIScraper.scrape_all delay max_pages w
                  = Stopped st' w')
  \/ (exists st' w', StampAPIScraper.scrape_all delay max_pages w
                     = Starved st' w').
Proof.
  apply scrape_all_is_total.
  - apply api_scrape_page_consumes.
  - reflexivity.
Qed.

Lemma html_scrape_all_is_total delay max_pages w :
  (exists st' w', StampScraper.scrape_all delay max_pages w
                  = Stopped st' w')
  \/ (exists st' w', StampScraper.scrape_all delay max_pages w
                     = Starved st' w').
Proof.
  apply scrape_all_is_total.
  - apply html_scrape_page_consumes.
  - reflexivity.
Qed.

(** Three pages in a row without an accepted record stop [scrape_all] of
    scraper_api.py and of scraper.py alike. *)
Lemma api_scrape_all_stops_at_three_empty_pages `{Py.Runtime} delay w w' :
  empty_pages StampAPIScraper.scrape_page delay 3 1 w w' ->
  StampAPIScraper.scrape_all delay None w
  = Stopped {| page_num := 3; total_scraped := 0;
               consecutive_empty := 3 |} w'.
Proof.
  apply scrape_all_stops_at_three_empty_pages.
  apply api_scrape_page_consumes.
Qed.

Lemma html_scrape_all_stops_at_three_empty_pages delay w w' :
  empty_pages StampScraper.scrape_page delay 3 1 w w' ->
  StampScraper.scrape_all delay None w
  = Stopped {| page_num := 3; total_scraped := 0;
               consecutive_empty := 3 |} w'.
Proof.
  apply scrape_all_stops_at_three_empty_pages.
  apply html_scrape_page_consumes.
Qed.

(** The filtered loop on a batch without raw records. *)
Lemma filtered_loop_empty_batch `{Py.Runtime} `{Stores}
    category condition delay data rest st ids events :
  results data = [] ->
  Searchspring.filtered_loop category condition delay
    (Response 200 (Some data) :: rest) st ids events
  = if (2 <=? consecutive_empty st + 1)%nat
    then Stopped {| page_num := page_num st;
                    total_scraped := total_scraped st;
                    consecutive_empty := consecutive_empty st + 1 |}
                 {| script := rest; scraped_ids := ids;
                    trace := events ++ [Get (page_num st)] |}
    else Searchspring.filtered_loop category condition delay rest
           {| page_num := page_num st + 1;
              total_scraped := total_scraped st;
              consecutive_empty := consecutive_empty st + 1 |}
           ids ((events ++ [Get (page_num st)]) ++ [Sleep delay]).
Proof.
  intros E. cbn [Searchspring.filtered_loop].
  unfold Searchspring.filtered_turn. rewrite E.
  cbn [page_num total_scraped consecutive_empty].
  destruct (2 <=? consecutive_empty st + 1)%nat; reflexivity.
Qed.

(** The filtered loop on a batch with raw records none of which is
    accepted, when more pages are announced. *)
Lemma filtered_loop_rejected_batch `{Py.Runtime} `{Stores}
    category condition delay data current total rest st ids events :
  results data <> [] ->
  extract_each (Searchspring.extract_stamp_data category condition)
               (results data) ids = ([], ids) ->
  currentPage data = Some current ->
  totalPages data = Some total ->
  (current < total)%Z ->
  Searchspring.filtered_loop category condition delay
    (Response 200 (Some data) :: rest) st ids events
  = Searchspring.filtered_loop category condition delay rest
      {| page_num := page_num st + 1;
         total_scraped := total_scraped st;
         consecutive_empty := 0 |}
      ids ((events ++ [Get (page_num st)]) ++ [Sleep delay]).
Proof.
  intros Hne Hrej Ec Et Hlt. cbn [Searchspring.filtered_loop].
  unfold Searchspring.filtered_turn.
  destruct (results data) as [|result results] eqn:E; [congruence|].
  cbn [scraped_ids]. rewrite Hrej, Ec, Et. unfold default, from_option, id.
  destruct (total <=? current)%Z eqn:El; [apply Z.leb_le in El; lia|].
  reflexivity.
Qed.

Lemma filtered_loop_rejected_batches `{Py.Runtime} `{Stores}
    category condition delay data current total n st ids events :
  results data <> [] ->
  extract_each (Searchspring.extract_stamp_data category condition)
               (results data) ids = ([], ids) ->
  currentPage data = Some current ->
  totalPages data = Some total ->
  (current < total)%Z ->
  exists events',
    Searchspring.filtered_loop category condition delay
      (replicate n (Response 200 (Some data))) st ids events
    = Starved {| page_num := page_num st + Z.of_nat n;
                 total_scraped := total_scraped st;
                 consecutive_empty :=
                   match n with
                   | O => consecutive_empty st
                   | S _ => 0
                   end |}
              {| script := []; scraped_ids := ids; trace := events' |}.
Proof.
  intros Hne Hrej Ec Et Hlt. revert st events.
  induction n as [|n IH]; intros st events.
  - exists events. destruct st as [p t c].
    cbn [replicate Searchspring.filtered_loop page_num total_scraped
         consecutive_empty].
    replace (p + Z.of_nat 0)%Z with p by lia. reflexivity.
  - cbn [replicate].
    rewrite (filtered_loop_rejected_batch category condition delay data
               current total) by assumption.
    destruct (IH {| page_num := page_num st + 1;
                    total_scraped := total_scraped st;
                    consecutive_empty := 0 |}
                 ((events ++ [Get (page_num st)]) ++ [Sleep delay]))
      as [events' ->].
    exists events'. cbn [page_num total_scraped consecutive_empty].
    replace (page_num st + 1 + Z.of_nat n)%Z
      with (page_num st + Z.of_nat (S n))%Z by lia.
    destruct n; reflexivity.
Qed.

(** The filtered loop on a request that raises: the [except] clause
    counts it in the same streak, and leaves the loop at 3. *)
Lemma filtered_loop_network_error `{Py.Runtime} `{Stores}
    category condition delay rest st ids events :
  Searchspring.filtered_loop category condition delay
    (NetworkError :: rest) st ids events
  = if (3 <=? consecutive_empty st + 1)%nat
    then Stopped {| page_num := page_num st + 1;
                    total_scraped := total_scraped st;
                    consecutive_empty := consecutive_empty st + 1 |}
                 {| script := rest; scraped_ids := ids;
                    trace := events ++ [Get (page_num st); Sleep delay] |}
    else Searchspring.filtered_loop category condition delay rest
           {| page_num := page_num st + 1;
              total_scraped := total_scraped st;
              consecutive_empty := consecutive_empty st + 1 |}
           ids (events ++ [Get (page_num st); Sleep delay]).
Proof.
  cbn [Searchspring.filtered_loop]. unfold Searchspring.filtered_turn.
  cbn [page_num total_scraped consecutive_empty].
  destruct (3 <=? consecutive_empty st + 1)%nat;
    unfold emit; cbn [script scraped_ids trace]; rewrite <- !app_assoc;
    reflexivity.
Qed.

(** The filtered loop on a batch with accepted records whose save to the
    database raises: the identifiers are in the seen set, nothing is
    saved, the total is as it was, and the [except] clause goes on to the
    next page with a streak of 1. *)
Lemma filtered_loop_unsaved_batch `{Py.Runtime} `{Stores}
    category condition delay data stamp stamps ids' rest st ids events :
  results data <> [] ->
  extract_each (Searchspring.extract_stamp_data category condition)
               (results data) ids = (stamp :: stamps, ids') ->
  save_outcome (events ++ [Get (page_num st)]) (stamp :: stamps)
  = DatabaseRaises ->
  Searchspring.filtered_loop category condition delay
    (Response 200 (Some data) :: rest) st ids events
  = Searchspring.filtered_loop category condition delay rest
      {| page_num := page_num st + 1;
         total_scraped := total_scraped st;
         consecutive_empty := 1 |}
      ids' (events ++ [Get (page_num st); Sleep delay]).
Proof.
  intros Hne Hext Hsave. cbn [Searchspring.filtered_loop].
  unfold Searchspring.filtered_turn.
  destruct (results data) as [|result others] eqn:E; [congruence|].
  cbn [scraped_ids]. rewrite Hext.
  cbn [with_ids trace script scraped_ids]. rewrite Hsave.
  cbn [page_num total_scraped consecutive_empty Nat.add Nat.leb].
  unfold emit, with_ids. cbn [script scraped_ids trace].
  rewrite <- !app_assoc. reflexivity.
Qed.



(** ** Throttling *)

(** C9, as stated, fails in the category strategy: three throttled
    responses in a row to the request for page 1, and [scrape_category] has
    made that request three times, slept 30 three times, counts no empty
    batch and is about to make the request again. *)
Lemma category_retries_while_throttled :
  @StampAPICategoryScraper.scrape_category example_runtime example_stores
    "Worldwide>Africa" 1
    {| script := [Response 429 None; Response 429 None; Response 429 None];
       scraped_ids := ∅; trace := [] |}
  = Starved {| page_num := 1; total_scraped := 0; consecutive_empty := 0 |}
            {| script := []; scraped_ids := ∅;
               trace := [Get 1; Sleep 30; Get 1; Sleep 30;
                         Get 1; Sleep 30] |}.
Proof. vm_compute; reflexivity. Qed.

Lemma segmented_loop_throttled `{Py.Runtime} `{Stores}
    delay body n rest st ids events :
  StampAPISegmentedScraper.scrape_with_query_loop delay
    (replicate n (Response 429 body) ++ rest) st ids events
  = StampAPISegmentedScraper.scrape_with_query_loop delay rest st ids
      (events ++ backoffs n (page_num st)).
Proof.
  revert events. induction n as [|n IH]; intros events.
  - simpl. rewrite app_nil_r. reflexivity.
  - cbn [replicate app StampAPISegmentedScraper.scrape_with_query_loop].
    unfold StampAPISegmentedScraper.scrape_with_query_turn.
    cbn [emit script scraped_ids trace].
    rewrite IH. cbn [backoffs]. rewrite <- !app_assoc. reflexivity.
Qed.

Lemma filtered_loop_throttled `{Py.Runtime} `{Stores}
    category condition delay body n rest st ids events :
  Searchspring.filtered_loop category condition delay
    (replicate n (Response 429 body) ++ rest) st ids events
  = Searchspring.filtered_loop category condition delay rest st ids
      (events ++ backoffs n (page_num st)).
Proof.
  revert events. induction n as [|n IH]; intros events.
  - simpl. rewrite app_nil_r. reflexivity.
  - cbn [replicate app Searchspring.filtered_loop].
    unfold Searchspring.filtered_turn.
    cbn [emit script scraped_ids trace].
    rewrite IH. cbn [backoffs]. rewrite <- !app_assoc. reflexivity.
Qed.

(** C9, amended.  In the plain API strategy of scraper_api.py a throttled
    response is followed by one sleep of 30 and one more request for the
    same page, and the page is read from the answer to that one; when it is
    throttled too, the page yields no record, no further request is made
    for it, and the turn of the loop counts it in the empty streak.  In the
    category, condition and segmented strategies every throttled response
    is followed by a sleep of 30 and the same request again, as many times
    as the throttling lasts, and the loop variables, the empty streak among
    them, stay as they are.  In the HTML strategy of scraper.py a throttled
    response is a page without records, with neither sleep nor retry. *)
Theorem throttled_fetch `{Py.Runtime} `{Stores} (delay : Q) (page : Z)
    (w : World SearchPage) (body body' : option SearchPage)
    (retry : Fetch SearchPage) (rest : list (Fetch SearchPage))
    (st : Loop)
    (category condition : option string) (n : nat) (ids : gset string)
    (events : list Event)
    (html : World (list Listing)) (listings : option (list Listing))
    (others : list (Fetch (list Listing))) :
  script w = Response 429 body :: retry :: rest ->
  page_num st = page ->
  (consecutive_empty st < 2)%nat ->
  script html = Response 429 listings :: others ->
  (let retried :=
     {| script := rest; scraped_ids := scraped_ids w;
        trace := trace w ++ [Get page; Sleep 30; Get page] |} in
   StampAPIScraper.scrape_page page w
   = Some (StampAPIScraper.read_response retry retried)
   /\ StampAPIScraper.read_response (Response 429 body') retried
      = ([], retried)
   /\ (retry = Response 429 body' ->
       StampAPIScraper.scrape_all_turn delay None st w
       = Some (inr {| page_num := page + 1;
                      total_scraped := total_scraped st;
                      consecutive_empty := consecutive_empty st + 1 |},
               emit (Sleep delay) retried)))
  /\
  Searchspring.filtered_loop category condition delay
    (replicate n (Response 429 body) ++ rest) st ids events
  = Searchspring.filtered_loop category condition delay rest st ids
      (events ++ backoffs n (page_num st))
  /\
  StampAPISegmentedScraper.scrape_with_query_loop delay
    (replicate n (Response 429 body) ++ rest) st ids events
  = StampAPISegmentedScraper.scrape_with_query_loop delay rest st ids
      (events ++ backoffs n (page_num st))
  /\
  StampScraper.scrape_page page html
  = Some ([], {| script := others; scraped_ids := scraped_ids html;
                 trace := trace html ++ [Get page] |}).
Proof.
  intros Es Hp Hc Eh.
  assert (StampAPIScraper.scrape_page page w
          = Some (StampAPIScraper.read_response retry
                    {| script := rest; scraped_ids := scraped_ids w;
                       trace := trace w ++ [Get page; Sleep 30; Get page] |}))
    as Epage.
  { unfold StampAPIScraper.scrape_page, request. rewrite Es.
    cbn [mbind option_bind emit script scraped_ids trace].
    rewrite <- !app_assoc. reflexivity. }
  split; [|split; [|split]].
  - cbv zeta. split; [exact Epage|]. split; [reflexivity|].
    intros ->. subst page. unfold StampAPIScraper.scrape_all_turn.
    rewrite (scrape_all_turn_empty StampAPIScraper.scrape_page
               StampAPIScraper.save delay st w _ Epage).
    cbv zeta.
    destruct (3 <=? consecutive_empty st + 1)%nat eqn:E3;
      [apply Nat.leb_le in E3; lia|].
    reflexivity.
  - apply filtered_loop_throttled.
  - apply segmented_loop_throttled.
  - unfold StampScraper.scrape_page, request. rewrite Eh. reflexivity.
Qed.

Lemma throttled_fetch_witness :
  @StampAPIScraper.scrape_page example_runtime 1
    {| script := [Response 429 None; Response 429 None;
                  Response 200 (Some (page_of_ranges 2 10))];
       scraped_ids := ∅; trace := [] |}
  = Some ([], {| script := [Response 200 (Some (page_of_ranges 2 10))];
                 scraped_ids := ∅;
                 trace := [Get 1; Sleep 30; Get 1] |}).
Proof.
  destruct (@throttled_fetch example_runtime example_stores 1 1
              {| script := [Response 429 None; Response 429 None;
                            Response 200 (Some (page_of_ranges 2 10))];
                 scraped_ids := ∅; trace := [] |}
              None None (Response 429 None)
              [Response 200 (Some (page_of_ranges 2 10))]
              PlainLoop.initial None None 2 ∅ []
              {| script := [Response 429 None]; scraped_ids := ∅;
                 trace := [] |} None [])
    as ((Hpage & _) & _);
    [reflexivity | reflexivity | simpl; lia | reflexivity |].
  exact Hpage.
Defined.

(** * Further properties *)

(** ** Text: whitespace, tokens and strip *)

Lemma append_cons c a b : String c a +:+ b = String c (a +:+ b).
Proof. reflexivity. Qed.

Lemma append_snoc a c s : (a +:+ String c "") +:+ s = a +:+ String c s.
Proof. rewrite append_assoc. reflexivity. Qed.

Lemma digit_is_no_space c : Py.isdigit_char c = true -> Py.isspace c = false.
Proof.
  destruct c as [[] [] [] [] [] [] [] []]; vm_compute; congruence.
Qed.

Lemma forallb_str_app p a b :
  Py.forallb_str p (a +:+ b) = Py.forallb_str p a && Py.forallb_str p b.
Proof.
  induction a as [|c a IH]; [reflexivity|].
  rewrite append_cons. simpl. rewrite IH. apply andb_assoc.
Qed.


Lemma split_ws_blank cur c s :
  Py.isspace c = true ->
  Py.split_ws_from cur (String c s) = pending cur ++ Py.split_ws_from "" s.
Proof.
  intros E. cbn [Py.split_ws_from]. rewrite E. unfold pending.
  destruct (Py.is_empty cur); reflexivity.
Qed.

Lemma split_ws_blanks cur t :
  Py.forallb_str Py.isspace t = true ->
  Py.split_ws_from cur t = pending cur.
Proof.
  revert cur. induction t as [|c t IH]; intros cur; [reflexivity|].
  cbn [Py.forallb_str]. intros [Ec Et]%andb_prop.
  rewrite split_ws_blank, (IH "") by assumption.
  apply app_nil_r.
Qed.

Lemma split_ws_word cur d s :
  Py.forallb_str (fun c => negb (Py.isspace c)) d = true ->
  Py.split_ws_from cur (d +:+ s) = Py.split_ws_from (cur +:+ d) s.
Proof.
  revert cur. induction d as [|c d IH]; intros cur.
  - intros _. rewrite append_empty_r. reflexivity.
  - cbn [Py.forallb_str]. intros [Ec Ed]%andb_prop.
    rewrite append_cons. cbn [Py.split_ws_from].
    apply negb_true_iff in Ec. rewrite Ec, IH by assumption.
    rewrite append_snoc. reflexivity.
Qed.

Lemma split_ws_after_blank cur q c s :
  Py.isspace c = true ->
  Py.split_ws_from cur ((q +:+ String c "") +:+ s)
  = Py.split_ws_from cur (q +:+ String c "") ++ Py.split_ws_from "" s.
Proof.
  intros Ec. revert cur. induction q as [|x q IH]; intros cur.
  - change (("" +:+ String c "") +:+ s) with (String c s).
    change ("" +:+ String c "") with (String c "").
    rewrite !split_ws_blank by assumption. simpl.
    rewrite app_nil_r. reflexivity.
  - rewrite !append_cons. cbn [Py.split_ws_from].
    destruct (Py.isspace x).
    + destruct (Py.is_empty cur); rewrite IH; reflexivity.
    + apply IH.
Qed.

Lemma split_ws_none cur s :
  Py.split_ws_from cur s = [] ->
  cur = "" /\ Py.forallb_str Py.isspace s = true.
Proof.
  revert cur. induction s as [|c s IH]; intros cur.
  - simpl. destruct cur; [auto|discriminate].
  - cbn [Py.split_ws_from Py.forallb_str].
    destruct (Py.isspace c) eqn:Ec.
    + destruct cur; simpl; [|discriminate].
      intros E. apply IH in E as [_ ->]. auto.
    + intros E. apply IH in E as [E _]. destruct cur; discriminate.
Qed.

Lemma lstrip_tokens s :
  Py.split_ws_from "" (Py.lstrip_with Py.isspace s) = Py.split_ws_from "" s.
Proof.
  induction s as [|c s IH]; [reflexivity|].
  cbn [Py.lstrip_with]. destruct (Py.isspace c) eqn:Ec; [|reflexivity].
  rewrite IH, split_ws_blank by assumption. reflexivity.
Qed.

Lemma rstrip_empty s :
  Py.rstrip_with Py.isspace s = "" -> Py.forallb_str Py.isspace s = true.
Proof.
  induction s as [|c s IH]; [reflexivity|].
  cbn [Py.rstrip_with Py.forallb_str].
  destruct (Py.isspace c); simpl; [|discriminate].
  destruct (Py.rstrip_with Py.isspace s); simpl; [auto|discriminate].
Qed.

Lemma rstrip_tokens cur s :
  Py.split_ws_from cur (Py.rstrip_with Py.isspace s) = Py.split_ws_from cur s.
Proof.
  revert cur. induction s as [|c s IH]; intros cur; [reflexivity|].
  cbn [Py.rstrip_with].
  destruct (Py.isspace c && Py.is_empty (Py.rstrip_with Py.isspace s))
    eqn:E.
  - apply andb_prop in E as [Ec Er].
    assert (Py.rstrip_with Py.isspace s = "") as Er'
      by (destruct (Py.rstrip_with Py.isspace s); [reflexivity|discriminate]).
    rewrite split_ws_blank, (split_ws_blanks "") by auto using rstrip_empty.
    simpl. unfold pending. rewrite app_nil_r. reflexivity.
  - cbn [Py.split_ws_from]. rewrite !IH. reflexivity.
Qed.

(** [s.strip().split()] is [s.split()]. *)
Lemma strip_tokens s :
  Py.str_split_ws (Py.str_strip s) = Py.str_split_ws s.
Proof.
  unfold Py.str_split_ws, Py.str_strip.
  rewrite rstrip_tokens. apply lstrip_tokens.
Qed.


Lemma last_token_found cur s d :
  last (Py.split_ws_from cur s) = Some d ->
  exists p t,
    cur +:+ s = p +:+ d +:+ t
    /\ Py.forallb_str Py.isspace t = true
    /\ ((p = "" /\ exists r, d = cur +:+ r)
        \/ exists q c, p = cur +:+ q +:+ String c ""
                       /\ Py.isspace c = true).
Proof.
  revert cur. induction s as [|c s IH]; intros cur.
  - simpl. destruct cur as [|x cur]; [discriminate|]. simpl.
    intros [= <-]. exists "", "". rewrite !append_empty_r.
    repeat split. left. split; [reflexivity|]. exists "".
    now rewrite append_empty_r.
  - destruct (Py.isspace c) eqn:Ec.
    + rewrite split_ws_blank by assumption.
      destruct (Py.split_ws_from "" s) as [|y l] eqn:Es.
      * rewrite app_nil_r. unfold pending.
        destruct cur as [|x cur]; [discriminate|]. simpl.
        intros [= <-]. apply split_ws_none in Es as [_ Es].
        exists "", (String c s). repeat split.
        -- simpl. now rewrite Ec, Es.
        -- left. split; [reflexivity|]. exists "".
           now rewrite append_empty_r.
      * rewrite last_app. rewrite <- Es.
        destruct (last (Py.split_ws_from "" s)) as [d'|] eqn:El.
        2:{ rewrite Es in El. now apply last_None in El. }
        intros [= ->]. apply IH in El as (p & t & E & Ht & Hp).
        change ("" +:+ s) with s in E.
        exists (cur +:+ String c p), t. split.
        { rewrite E, !append_assoc. reflexivity. }
        split; [assumption|]. right.
        destruct Hp as [[-> _]|(q & c' & -> & Ec')].
        -- exists "", c. auto.
        -- exists (String c q), c'. auto.
    + cbn [Py.split_ws_from]. rewrite Ec. intros El.
      apply IH in El as (p & t & E & Ht & Hp).
      exists p, t. split; [now rewrite <- E, append_snoc|].
      split; [assumption|].
      destruct Hp as [[-> (r & ->)]|(q & c' & -> & Ec')].
      * left. split; [reflexivity|]. exists (String c r).
        now rewrite append_snoc.
      * right. exists (String c q), c'. split; [|assumption].
        now rewrite append_snoc.
Qed.

Lemma last_token_of s p d t :
  s = p +:+ d +:+ t ->
  Py.str_isdigit d = true ->
  Py.forallb_str Py.isspace t = true ->
  ends_in_blank p ->
  last (Py.str_split_ws s) = Some d.
Proof.
  intros -> Hd Ht Hp. unfold Py.str_isdigit in Hd.
  apply andb_prop in Hd as [Hne Hd].
  assert (Py.forallb_str (fun c => negb (Py.isspace c)) d = true) as Hw.
  { clear Hne. induction d as [|c d IH]; [reflexivity|].
    simpl in *. apply andb_prop in Hd as [Hc Hd].
    rewrite (digit_is_no_space c Hc). simpl. auto. }
  assert (Py.split_ws_from "" (d +:+ t) = [d]) as Ed.
  { rewrite split_ws_word, split_ws_blanks by assumption.
    unfold pending. simpl. destruct d; [discriminate|reflexivity]. }
  unfold Py.str_split_ws.
  destruct Hp as [->|(q & c & -> & Ec)].
  - change ("" +:+ d +:+ t) with (d +:+ t). rewrite Ed. reflexivity.
  - rewrite split_ws_after_blank, Ed by assumption.
    rewrite last_app. reflexivity.
Qed.

(** X1.  [is_valid_stamp_number] accepts a text exactly when the last of its
    words, the words being what whitespace separates, is a word on which
    [str.isdigit] holds: the text is [p ++ d ++ t] where [d] is such a
    word, [t] is whitespace only, and [p] is empty or ends in a whitespace
    character. *)
Theorem valid_stamp_number_ends_in_a_number (s : string) :
  is_valid_stamp_number s = true <->
  exists p d t,
    s = p +:+ d +:+ t
    /\ Py.str_isdigit d = true
    /\ Py.forallb_str Py.isspace t = true
    /\ (p = "" \/ exists q c, p = q +:+ String c "" /\ Py.isspace c = true).
Proof.
  unfold is_valid_stamp_number. rewrite strip_tokens. split.
  - destruct (last (Py.str_split_ws s)) as [d|] eqn:El; [|discriminate].
    intros Hd. apply last_token_found in El as (p & t & E & Ht & Hp).
    exists p, d, t. simpl in E. repeat split; try assumption.
    destruct Hp as [[-> _]|(q & c & -> & Ec)]; [auto|].
    right. exists q, c. auto.
  - intros (p & d & t & E & Hd & Ht & Hp).
    erewrite last_token_of by eassumption. exact Hd.
Qed.

(** ** The price text *)


Lemma span_run p a rest :
  Py.forallb_str p a = true ->
  match rest with String c _ => p c = false | EmptyString => True end ->
  Py.span p (a +:+ rest) = (a, rest).
Proof.
  intros Ha Hr. induction a as [|c a IH].
  - destruct rest as [|c r]; [reflexivity|]. simpl. now rewrite Hr.
  - simpl in Ha. apply andb_prop in Ha as [Hc Ha].
    rewrite append_cons. simpl. rewrite Hc, IH by assumption. reflexivity.
Qed.

Lemma no_dollar_before pre s :
  Py.str_contains "$" pre = false ->
  Py.re_search_price (pre +:+ s) = Py.re_search_price s.
Proof.
  induction pre as [|c pre IH]; [reflexivity|].
  cbn [Py.str_contains]. intros [E1 E2]%orb_false_elim.
  rewrite append_cons. cbn [Py.re_search_price].
  assert (Py.price_group_at (String c (pre +:+ s)) = None) as ->.
  { unfold Py.price_group_at.
    destruct c as [[] [] [] [] [] [] [] []]; try reflexivity.
    simpl in E1. destruct pre; discriminate. }
  auto.
Qed.

Lemma price_group_with_fraction a b suf :
  a <> "" ->
  Py.forallb_str price_char a = true ->
  Py.forallb_str Py.isdecimal b = true ->
  match suf with String c _ => Py.isdecimal c = false | "" => True end ->
  Py.price_group_at ("$" +:+ a +:+ "." +:+ b +:+ suf)
  = Some (a +:+ "." +:+ b).
Proof.
  intros Hne Ha Hb Hs. unfold Py.price_group_at.
  change ("$" +:+ a +:+ "." +:+ b +:+ suf)
    with (String "$" (a +:+ String "." (b +:+ suf))).
  cbv iota beta.
  change (fun c => Py.isdecimal c || Ascii.eqb c ",") with price_char.
  rewrite (span_run price_char a (String "." (b +:+ suf)))
    by (assumption || reflexivity).
  destruct a as [|x a]; [congruence|]. cbn [Py.is_empty].
  rewrite (span_run Py.isdecimal b suf) by assumption.
  reflexivity.
Qed.

Lemma price_group_whole a suf :
  a <> "" ->
  Py.forallb_str price_char a = true ->
  match suf with
  | String c _ => price_char c = false /\ c <> "."%char
  | "" => True
  end ->
  Py.price_group_at ("$" +:+ a +:+ suf) = Some a.
Proof.
  intros Hne Ha Hs. unfold Py.price_group_at.
  change ("$" +:+ a +:+ suf) with (String "$" (a +:+ suf)).
  cbv iota beta.
  change (fun c => Py.isdecimal c || Ascii.eqb c ",") with price_char.
  rewrite (span_run price_char a suf).
  2: assumption.
  2: { destruct suf; [exact I|]. apply Hs. }
  destruct a as [|x a]; [congruence|]. cbn [Py.is_empty].
  destruct suf as [|c suf].
  - simpl. now rewrite append_empty_r.
  - destruct Hs as [Hc Hd].
    assert (Py.isdecimal c = false) as Hc'.
    { unfold price_char in Hc. now apply orb_false_elim in Hc. }
    assert (match String c suf with
            | String "." r => (".", r)
            | _ => ("", String c suf)
            end = ("", String c suf)) as ->.
    { destruct c as [[] [] [] [] [] [] [] []]; try reflexivity. congruence. }
    simpl. rewrite Hc'. now rewrite append_empty_r.
Qed.

(** Removing the commas of a run of digits and commas leaves digits. *)
Lemma remove_commas a :
  Py.forallb_str price_char a = true ->
  Py.forallb_str Py.isdecimal (Py.str_remove "," a) = true.
Proof.
  induction a as [|c a IH]; [reflexivity|].
  cbn [Py.forallb_str Py.str_remove]. intros [Hc Ha]%andb_prop.
  destruct (Ascii.eqb "," c) eqn:E; [auto|].
  cbn [Py.forallb_str]. rewrite IH by assumption.
  unfold price_char in Hc. apply orb_prop in Hc as [->|Hc]; [reflexivity|].
  rewrite Ascii.eqb_sym in E. congruence.
Qed.

Lemma remove_commas_app a b :
  Py.str_remove "," (a +:+ b) = Py.str_remove "," a +:+ Py.str_remove "," b.
Proof.
  induction a as [|c a IH]; [reflexivity|].
  rewrite append_cons. cbn [Py.str_remove].
  destruct (Ascii.eqb "," c); [exact IH|].
  rewrite append_cons. now f_equal.
Qed.

Lemma remove_commas_digits b :
  Py.forallb_str Py.isdecimal b = true -> Py.str_remove "," b = b.
Proof.
  induction b as [|c b IH]; [reflexivity|].
  cbn [Py.forallb_str Py.str_remove]. intros [Hc Hb]%andb_prop.
  assert (Ascii.eqb "," c = false) as ->
    by (destruct c as [[] [] [] [] [] [] [] []]; try reflexivity;
        discriminate).
  now rewrite IH.
Qed.

(** *** [float] of digits, a dot and digits *)


Lemma numeric_char_facts c :
  numeric_char c = true ->
  Py.isspace_float c = false
  /\ c <> "-"%char /\ c <> "+"%char
  /\ Py.lower c <> "i"%char /\ Py.lower c <> "n"%char.
Proof.
  destruct c as [[] [] [] [] [] [] [] []]; vm_compute;
    intros; repeat split; congruence.
Qed.

Lemma lstrip_plain s :
  match s with String c _ => Py.isspace_float c = false | "" => True end ->
  Py.lstrip_with Py.isspace_float s = s.
Proof. destruct s as [|c s]; [reflexivity|]. simpl. now intros ->. Qed.

Lemma rstrip_plain s :
  Py.forallb_str numeric_char s = true ->
  Py.rstrip_with Py.isspace_float s = s.
Proof.
  induction s as [|c s IH]; [reflexivity|].
  simpl. intros [Hc Hs]%andb_prop. rewrite IH by assumption.
  destruct (numeric_char_facts c Hc) as (-> & _). reflexivity.
Qed.

Lemma digits_tail_run d rest :
  Py.forallb_str Py.isdecimal d = true ->
  match rest with
  | String c _ => Py.isdecimal c = false /\ c <> "_"%char
  | "" => True
  end ->
  Py.digits_tail (d +:+ rest) = (d, rest).
Proof.
  intros Hd Hr. induction d as [|c d IH].
  - destruct rest as [|c r]; [reflexivity|]. destruct Hr as [Hc Hu].
    simpl. rewrite Hc.
    destruct (Ascii.eqb c "_") eqn:E; [|reflexivity].
    apply Ascii.eqb_eq in E. congruence.
  - simpl in Hd. apply andb_prop in Hd as [Hc Hd].
    rewrite append_cons. simpl. rewrite Hc, IH by assumption. reflexivity.
Qed.

Lemma digitpart_run d rest :
  d <> "" ->
  Py.forallb_str Py.isdecimal d = true ->
  match rest with
  | String c _ => Py.isdecimal c = false /\ c <> "_"%char
  | "" => True
  end ->
  Py.digitpart (d +:+ rest) = Some (d, rest).
Proof.
  intros Hne Hd Hr. destruct d as [|c d]; [congruence|].
  simpl in Hd. apply andb_prop in Hd as [Hc Hd].
  rewrite append_cons. unfold Py.digitpart. rewrite Hc.
  rewrite digits_tail_run by assumption. reflexivity.
Qed.

Lemma not_a_name u :
  match u with String c _ => numeric_char c = true | "" => True end ->
  String.eqb (Py.str_lower u) "inf" || String.eqb (Py.str_lower u) "infinity"
  = false
  /\ String.eqb (Py.str_lower u) "nan" = false.
Proof.
  destruct u as [|c u]; [split; reflexivity|].
  intros Hc. destruct (numeric_char_facts c Hc) as (_ & _ & _ & Hi & Hn).
  cbn [Py.str_lower String.eqb].
  destruct (Ascii.eqb_spec (Py.lower c) "i"); [congruence|].
  destruct (Ascii.eqb_spec (Py.lower c) "n"); [congruence|].
  split; reflexivity.
Qed.

Lemma read_sign_plain u :
  match u with String c _ => numeric_char c = true | "" => True end ->
  Py.read_sign u = (false, u).
Proof.
  destruct u as [|c u]; [reflexivity|].
  intros Hc. destruct (numeric_char_facts c Hc) as (_ & Hm & Hp & _).
  unfold Py.read_sign.
  destruct c as [[] [] [] [] [] [] [] []]; try reflexivity; congruence.
Qed.

(** [read_number] on digits, a dot and digits. *)
Lemma read_number_fraction i f :
  Py.forallb_str Py.isdecimal i = true ->
  Py.forallb_str Py.isdecimal f = true ->
  Py.read_number (i +:+ "." +:+ f)
  = if Py.is_empty (i +:+ f) then None else Some (i, f, "").
Proof.
  intros Hi Hf.
  assert (Py.digitpart f = if Py.is_empty f then None else Some (f, "")) as Ef.
  { destruct f as [|c f]; [reflexivity|].
    pose proof (digitpart_run (String c f) "" ltac:(discriminate) Hf I) as E.
    rewrite append_empty_r in E. exact E. }
  destruct i as [|c i].
  - change ("" +:+ "." +:+ f) with (String "." f).
    change ("" +:+ f) with f.
    unfold Py.read_number. rewrite Ef. destruct f; reflexivity.
  - assert (Py.digitpart (String c i +:+ "." +:+ f)
            = Some (String c i, String "." f)) as Ed.
    { apply digitpart_run; [discriminate|assumption|].
      split; [reflexivity|discriminate]. }
    unfold Py.read_number.
    rewrite append_cons in *.
    simpl in Hi. apply andb_prop in Hi as [Hc Hi].
    assert (c <> "."%char) as Hdot
      by (intros ->; discriminate).
    assert (forall (X Y : option (string * string * string)),
              match String c (i +:+ "." +:+ f) with
              | String "." s' => X
              | _ => Y
              end = Y) as ->.
    { intros X Y.
      destruct c as [[] [] [] [] [] [] [] []]; try reflexivity; congruence. }
    rewrite Ed, Ef. destruct f; reflexivity.
Qed.

Lemma read_number_integer i :
  Py.forallb_str Py.isdecimal i = true ->
  Py.read_number i = if Py.is_empty i then None else Some (i, "", "").
Proof.
  intros Hi. destruct i as [|c i]; [reflexivity|].
  pose proof (digitpart_run (String c i) "" ltac:(discriminate) Hi I) as E.
  rewrite append_empty_r in E.
  simpl in Hi. apply andb_prop in Hi as [Hc Hi].
  assert (c <> "."%char) as Hdot by (intros ->; discriminate).
  unfold Py.read_number.
  assert (forall (X Y : option (string * string * string)),
            match String c i with
            | String "." s' => X
            | _ => Y
            end = Y) as ->.
  { intros X Y.
    destruct c as [[] [] [] [] [] [] [] []]; try reflexivity; congruence. }
  rewrite E. reflexivity.
Qed.

Lemma numeric_digits d :
  Py.forallb_str Py.isdecimal d = true ->
  Py.forallb_str numeric_char d = true.
Proof.
  induction d as [|c d IH]; [reflexivity|].
  simpl. intros [Hc Hd]%andb_prop. unfold numeric_char at 1.
  rewrite Hc. simpl. auto.
Qed.

Lemma numeric_head s :
  Py.forallb_str numeric_char s = true ->
  match s with String c _ => numeric_char c = true | "" => True end.
Proof. destruct s; [auto|]. simpl. now intros [? ?]%andb_prop. Qed.

Lemma float_of_fraction i f :
  Py.forallb_str Py.isdecimal i = true ->
  Py.forallb_str Py.isdecimal f = true ->
  Py.float_of_str (i +:+ "." +:+ f)
  = if Py.is_empty (i +:+ f) then inl Py.ValueError
    else inr (Py.float_of_decimal false (Py.N_of_digits (i +:+ f))
                (- Z.of_nat (String.length f))).
Proof.
  intros Hi Hf.
  assert (Py.forallb_str numeric_char (i +:+ "." +:+ f) = true) as Hn.
  { rewrite !forallb_str_app, (numeric_digits i), (numeric_digits f)
      by assumption. reflexivity. }
  pose proof (numeric_head _ Hn) as Hh.
  unfold Py.float_of_str.
  rewrite lstrip_plain.
  2:{ destruct (i +:+ "." +:+ f) as [|c s]; [exact I|].
      now destruct (numeric_char_facts c Hh). }
  rewrite rstrip_plain, read_sign_plain by assumption.
  destruct (not_a_name _ Hh) as [-> ->].
  rewrite read_number_fraction by assumption.
  destruct (Py.is_empty (i +:+ f)); reflexivity.
Qed.

Lemma float_of_integer i :
  Py.forallb_str Py.isdecimal i = true ->
  Py.float_of_str i
  = if Py.is_empty i then inl Py.ValueError
    else inr (Py.float_of_decimal false (Py.N_of_digits i) 0).
Proof.
  intros Hi.
  pose proof (numeric_digits _ Hi) as Hn.
  pose proof (numeric_head _ Hn) as Hh.
  unfold Py.float_of_str.
  rewrite lstrip_plain.
  2:{ destruct i as [|c s]; [exact I|].
      now destruct (numeric_char_facts c Hh). }
  rewrite rstrip_plain, read_sign_plain by assumption.
  destruct (not_a_name _ Hh) as [-> ->].
  rewrite read_number_integer by assumption.
  destruct i; [reflexivity|]. simpl. rewrite append_empty_r. reflexivity.
Qed.

Lemma price_with_fraction (pre a b suf : string) :
  Py.str_contains "$" pre = false ->
  a <> "" ->
  Py.forallb_str (fun c => Py.isdecimal c || Ascii.eqb c ",") a = true ->
  Py.forallb_str Py.isdecimal b = true ->
  match suf with String c _ => Py.isdecimal c = false | "" => True end ->
  let digits := Py.str_remove "," a +:+ b in
  StampScraper.parse_price (pre +:+ "$" +:+ a +:+ "." +:+ b +:+ suf)
  = if Py.is_empty digits then inl (ExtractionError Py.ValueError)
    else inr (Py.float_of_decimal false (Py.N_of_digits digits)
                (- Z.of_nat (String.length b))).
Proof.
  intros Hpre Hne Ha Hb Hs digits. unfold StampScraper.parse_price.
  rewrite no_dollar_before by assumption.
  assert (Py.re_search_price ("$" +:+ a +:+ "." +:+ b +:+ suf)
          = Some (a +:+ "." +:+ b)) as ->.
  { change ("$" +:+ a +:+ "." +:+ b +:+ suf)
      with (String "$" (a +:+ "." +:+ b +:+ suf)).
    cbn [Py.re_search_price].
    change (String "$" (a +:+ "." +:+ b +:+ suf))
      with ("$" +:+ a +:+ "." +:+ b +:+ suf).
    now rewrite price_group_with_fraction. }
  rewrite !remove_commas_app, (remove_commas_digits b) by assumption.
  change (Py.str_remove "," ".") with ".".
  rewrite float_of_fraction by (auto using remove_commas).
  fold digits. destruct (Py.is_empty digits); reflexivity.
Qed.

Lemma price_whole (pre a suf : string) :
  Py.str_contains "$" pre = false ->
  a <> "" ->
  Py.forallb_str (fun c => Py.isdecimal c || Ascii.eqb c ",") a = true ->
  match suf with
  | String c _ => price_char c = false /\ c <> "."%char
  | "" => True
  end ->
  let digits := Py.str_remove "," a in
  StampScraper.parse_price (pre +:+ "$" +:+ a +:+ suf)
  = if Py.is_empty digits then inl (ExtractionError Py.ValueError)
    else inr (Py.float_of_decimal false (Py.N_of_digits digits) 0).
Proof.
  intros Hpre Hne Ha Hs digits. unfold StampScraper.parse_price.
  rewrite no_dollar_before by assumption.
  assert (Py.re_search_price ("$" +:+ a +:+ suf) = Some a) as ->.
  { change ("$" +:+ a +:+ suf) with (String "$" (a +:+ suf)).
    cbn [Py.re_search_price].
    change (String "$" (a +:+ suf)) with ("$" +:+ a +:+ suf).
    now rewrite price_group_whole. }
  rewrite float_of_integer by (auto using remove_commas).
  fold digits. destruct (Py.is_empty digits); reflexivity.
Qed.

(** X2.  The price of scraper.py is read off the first dollar sign of the
    text.  When no dollar sign comes before it, and it is followed by a
    non-empty run [a] of digits and commas, then by nothing or by a dot and
    a run [b] of digits, and what follows does not continue the number,
    the price is the binary64 value nearest to the decimal number whose
    digits are those of [a] and [b] and which has as many decimals as [b]
    has digits; when [a] is commas only and [b] is empty, [float] raises
    [ValueError]. *)
Theorem price_text_is_read_as_decimal (pre a suf : string)
    (fraction : option string) :
  Py.str_contains "$" pre = false ->
  a <> "" ->
  Py.forallb_str (fun c => Py.isdecimal c || Ascii.eqb c ",") a = true ->
  Py.forallb_str Py.isdecimal (default "" fraction) = true ->
  match suf with
  | String c _ =>
      Py.isdecimal c = false
      /\ (fraction = None -> c <> ","%char /\ c <> "."%char)
  | "" => True
  end ->
  let b := default "" fraction in
  let digits := Py.str_remove "," a +:+ b in
  StampScraper.parse_price
    (pre +:+ "$" +:+ a
     +:+ match fraction with Some b => "." +:+ b | None => "" end +:+ suf)
  = if Py.is_empty digits then inl (ExtractionError Py.ValueError)
    else inr (Py.float_of_decimal false (Py.N_of_digits digits)
                (- Z.of_nat (String.length b))).
Proof.
  intros Hpre Hne Ha Hb Hs. destruct fraction as [b|]; cbv zeta.
  - change (default "" (Some b)) with b in *.
    change (("." +:+ b) +:+ suf) with ("." +:+ b +:+ suf).
    apply price_with_fraction; try assumption.
    destruct suf; [exact I|apply Hs].
  - change (default "" None) with "" in *.
    change ("" +:+ suf) with suf. rewrite append_empty_r.
    apply price_whole; try assumption.
    destruct suf as [|c suf]; [exact I|].
    destruct Hs as [Hc Hn]. destruct (Hn eq_refl) as [H1 H2].
    split; [|exact H2]. unfold price_char. rewrite Hc. simpl.
    now apply Ascii.eqb_neq.
Qed.

Lemma price_text_is_read_as_decimal_witness :
  StampScraper.parse_price "Price: $1,234.50 USD" = inr float_1234_5
  /\ StampScraper.parse_price "$12 each"
     = inr (Py.float_of_decimal false 12 0).
Proof.
  split.
  - pose proof (price_text_is_read_as_decimal "Price: " "1,234" " USD"
                  (Some "50")) as E.
    assert (Py.isdecimal " " = false
            /\ (Some "50" = @None string ->
                " "%char <> ","%char /\ " "%char <> "."%char)) as Hs
      by (split; [reflexivity|discriminate]).
    specialize (E eq_refl ltac:(discriminate) eq_refl eq_refl Hs).
    vm_compute in E. vm_compute. exact E.
  - pose proof (price_text_is_read_as_decimal "" "12" " each" None) as E.
    assert (Py.isdecimal " " = false
            /\ (@None string = None ->
                " "%char <> ","%char /\ " "%char <> "."%char)) as Hs
      by (split; [reflexivity|intros _; split; discriminate]).
    specialize (E eq_refl ltac:(discriminate) eq_refl eq_refl Hs).
    vm_compute in E. vm_compute. exact E.
Defined.

(** ** [strip] *)

Lemma rstrip_idem p s :
  Py.rstrip_with p (Py.rstrip_with p s) = Py.rstrip_with p s.
Proof.
  induction s as [|c s IH]; [reflexivity|].
  cbn [Py.rstrip_with].
  destruct (p c && Py.is_empty (Py.rstrip_with p s)) eqn:E; [reflexivity|].
  cbn [Py.rstrip_with]. rewrite IH, E. reflexivity.
Qed.

Lemma lstrip_head p s :
  match Py.lstrip_with p s with
  | String c _ => p c = false
  | EmptyString => True
  end.
Proof.
  induction s as [|c s IH]; [exact I|].
  cbn [Py.lstrip_with]. destruct (p c) eqn:E; [exact IH|exact E].
Qed.

Lemma lstrip_fixed p s :
  match s with String c _ => p c = false | EmptyString => True end ->
  Py.lstrip_with p s = s.
Proof. destruct s as [|c s]; [reflexivity|]. simpl. now intros ->. Qed.

Lemma rstrip_head p s :
  match s with String c _ => p c = false | EmptyString => True end ->
  match Py.rstrip_with p s with
  | String c _ => p c = false
  | EmptyString => True
  end.
Proof.
  destruct s as [|c s]; [auto|]. intros E. cbn [Py.rstrip_with].
  rewrite E. exact E.
Qed.

Lemma strip_idem s : Py.str_strip (Py.str_strip s) = Py.str_strip s.
Proof.
  unfold Py.str_strip.
  rewrite (lstrip_fixed Py.isspace
             (Py.rstrip_with Py.isspace (Py.lstrip_with Py.isspace s))).
  - apply rstrip_idem.
  - apply rstrip_head, lstrip_head.
Qed.

Lemma year_and_country_inr text year country :
  year_and_country text = inr (year, country) ->
  String.length year = 4%nat
  /\ Py.forallb_str Py.isdecimal year = true
  /\ year = Py.str_take 4 text
  /\ country = Py.str_strip (Py.str_drop 4 text).
Proof.
  unfold year_and_country, Py.re_match_year.
  destruct (_ && _) eqn:E; [|discriminate].
  apply andb_prop in E as [E1 E2]. apply Nat.eqb_eq in E1.
  intros [= <- <-]. auto.
Qed.

(** ** pretty *)

Lemma pretty_N_go_length x s :
  (String.length s <= String.length (pretty_N_go x s))%nat.
Proof.
  revert s. induction (N.lt_wf_0 x) as [x _ IH]; intros s.
  assert (x = 0 \/ 0 < x)%N as [->|Hx] by lia;
    [now rewrite pretty_N_go_0|].
  rewrite pretty_N_go_step by assumption.
  etransitivity; [|eapply IH, N.div_lt; [assumption|reflexivity]].
  simpl. lia.
Qed.

Lemma pretty_Z_nonempty (z : Z) : pretty z <> "".
Proof.
  assert (forall p : positive, pretty p <> "") as Hp.
  { intros p. unfold pretty, pretty_positive, pretty, pretty_N.
    rewrite decide_False by discriminate.
    rewrite pretty_N_go_step by reflexivity.
    intros E.
    pose proof (pretty_N_go_length (N.pos p `div` 10)
                  (String (pretty_N_char (N.pos p `mod` 10)) "")) as L.
    rewrite E in L. simpl in L. lia. }
  destruct z as [|p|p]; [discriminate|apply Hp|discriminate].
Qed.

(** [str(v)] is empty for the empty string alone, when [repr] never is. *)
Lemma str_empty `{Py.Runtime} v :
  (forall v, Py.repr v <> "") ->
  Py.str v = "" <-> v = Py.JStr "".
Proof.
  intros Hrepr. split; [|intros ->; reflexivity].
  destruct v as [|[]|z|f|s|l|l]; simpl; try discriminate;
    try (intros E; now apply Hrepr in E).
  - intros E. now apply pretty_Z_nonempty in E.
  - now intros ->.
Qed.

Lemma truthy_str_nonempty `{Py.Runtime} v :
  (forall v, Py.repr v <> "") ->
  Py.truthy v = true -> Py.str v <> "".
Proof.
  intros Hrepr Hv E. apply str_empty in E; [|assumption].
  subst v. discriminate.
Qed.

Lemma api_product_id_empty `{Py.Runtime} result :
  (forall v, Py.repr v <> "") ->
  api_product_id result = "" <->
  Py.truthy (Py.get result "uid" (Py.JStr "")) = false
  /\ Py.get result "id" (Py.JStr "") = Py.JStr "".
Proof.
  intros Hrepr. unfold api_product_id, Py.or_.
  destruct (Py.truthy (Py.get result "uid" (Py.JStr ""))) eqn:E.
  - split; [|intros [? _]; discriminate].
    intros E'. now apply truthy_str_nonempty in E'.
  - rewrite str_empty by assumption. tauto.
Qed.

(** ** gates never answer for another gate *)

Lemma api_image_gate result r :
  StampAPIScraper.extract_image_url result = inl r ->
  r = NoImage \/ r = ExtractionError Py.TypeError.
Proof.
  unfold StampAPIScraper.extract_image_url, caught, Py.in_.
  repeat case_match; intros; simplify_eq; auto.
Qed.

Lemma api_number_gate result r :
  StampAPIScraper.extract_stamp_number result = inl r ->
  r = InvalidCatalogNumber \/ r = ExtractionError Py.AttributeError.
Proof.
  unfold StampAPIScraper.extract_stamp_number, caught, Py.str_method.
  repeat case_match; intros; simplify_eq; auto.
Qed.

Lemma api_title_gate result r :
  StampAPIScraper.extract_year_country result = inl r ->
  r = NoYear \/ r = NoCountry \/ r = ExtractionError Py.AttributeError.
Proof.
  unfold StampAPIScraper.extract_year_country, caught, Py.str_method,
    year_and_country.
  repeat case_match; intros; simplify_eq; auto.
Qed.

Lemma api_price_gate result r :
  StampAPIScraper.extract_price result = inl r ->
  r = NoPrice \/ r = ExtractionError Py.OverflowError.
Proof.
  unfold StampAPIScraper.extract_price.
  destruct (Py.or_ _ _) as [|b|z|f|s|l|l] eqn:E; simpl.
  - intros [= <-]. auto.
  - discriminate.
  - unfold Py.float_of_int. repeat case_match; intros; simplify_eq; auto.
  - discriminate.
  - unfold Py.float_of_str.
    repeat case_match; intros; simplify_eq; auto.
  - intros [= <-]. auto.
  - intros [= <-]. auto.
Qed.

(** X3.  Every record [extract_stamp_data] of scraper_api.py returns is well
    formed: its identifier is the non-empty text of [uid], or of [id]; its
    image is the truthy value of [imageUrl], or of [thumbnailImageUrl], and
    does not hold the placeholder; its catalogue number is the [sku] and
    passes [is_valid_stamp_number]; its year is four digits; its country is
    non-empty and stripped; it carries no category and no condition. *)
Theorem api_record_is_well_formed `{Py.Runtime}
    (result : gmap string Py.json) (ids ids' : gset string)
    (rec : CanonicalRecord) :
  StampAPIScraper.extract_stamp_data result ids = (inr rec, ids') ->
  product_id rec = api_product_id result
  /\ product_id rec <> ""
  /\ image_url rec = Py.or_ (Py.get result "imageUrl" (Py.JStr ""))
                            (Py.get result "thumbnailImageUrl" (Py.JStr ""))
  /\ Py.truthy (image_url rec) = true
  /\ Py.in_ placeholder (image_url rec) = inr false
  /\ Py.get result "sku" (Py.JStr "") = Py.JStr (stamp_number rec)
  /\ is_valid_stamp_number (stamp_number rec) = true
  /\ String.length (year rec) = 4%nat
  /\ Py.forallb_str Py.isdecimal (year rec) = true
  /\ country rec <> ""
  /\ Py.str_strip (country rec) = country rec
  /\ category rec = None /\ condition rec = None.
Proof.
  rewrite api_pipeline. intros E.
  apply pipeline_accepts in E
    as (img & sn & [y c] & pr & E1 & E2 & E3 & E4 & -> & _ & Hne & _).
  cbn [api_record product_id image_url stamp_number year country category
       condition].
  split; [reflexivity|]. split; [assumption|].
  assert (img = Py.or_ (Py.get result "imageUrl" (Py.JStr ""))
                       (Py.get result "thumbnailImageUrl" (Py.JStr ""))
          /\ Py.truthy img = true
          /\ Py.in_ placeholder img = inr false) as (Ei & Et & Ep).
  { unfold StampAPIScraper.extract_image_url in E1.
    destruct (Py.truthy (Py.or_ _ _)) eqn:Et; [|discriminate].
    cbn [negb] in E1.
    destruct (Py.in_ placeholder (Py.or_ _ _)) as [e|[]] eqn:Ein;
      try discriminate.
    simpl in E1. injection E1 as <-. auto. }
  split; [exact Ei|]. split; [exact Et|]. split; [exact Ep|].
  assert (Py.get result "sku" (Py.JStr "") = Py.JStr sn
          /\ is_valid_stamp_number sn = true) as (Es & Ev).
  { unfold StampAPIScraper.extract_stamp_number in E2.
    destruct (Py.truthy (Py.get result "sku" (Py.JStr ""))); [|discriminate].
    cbn [negb] in E2.
    destruct (Py.get result "sku" (Py.JStr "")); try discriminate.
    simpl in E2. destruct (is_valid_stamp_number s) eqn:Ev; [|discriminate].
    injection E2 as <-. auto. }
  split; [exact Es|]. split; [exact Ev|].
  unfold StampAPIScraper.extract_year_country in E3.
  destruct (Py.truthy (Py.get result "name" (Py.JStr ""))); [|discriminate].
  cbn [negb] in E3.
  destruct (caught (Py.str_method (Py.get result "name" (Py.JStr ""))))
    as [|title]; [discriminate|].
  destruct (Py.str_split " - " None title) as [|p0 [|p1 ps]];
    try discriminate.
  destruct (year_and_country (Py.str_strip p1)) as [|[y' c']] eqn:Ey;
    [discriminate|].
  destruct (Py.is_empty c') eqn:Ec; [discriminate|].
  injection E3 as <- <-.
  apply year_and_country_inr in Ey as (L & D & _ & ->).
  split; [exact L|]. split; [exact D|]. split.
  { intros E. rewrite E in Ec. discriminate. }
  split; [apply strip_idem|]. auto.
Qed.

Lemma api_record_is_well_formed_witness :
  product_id norway_1 <> "" /\ country norway_1 <> ""
  /\ is_valid_stamp_number (stamp_number norway_1) = true.
Proof.
  destruct (@api_record_is_well_formed example_runtime raw_norway_1 ∅
              ({["42"]} ∪ ∅) norway_1)
    as (_ & H1 & _ & _ & _ & _ & H2 & _ & _ & H3 & _);
    [vm_compute; reflexivity|].
  exact (conj H1 (conj H3 H2)).
Defined.

(** X4.  In scraper_api.py a result is dropped for want of an identifier
    exactly when its [uid] is absent or falsy and its [id] is absent or the
    empty string; a [null] in [id] is no such case, for [str(None)] is the
    identifier it gets.  This holds provided [repr] never gives the empty
    text, as in Python. *)
Theorem identifier_is_missing_iff `{Py.Runtime}
    (result : gmap string Py.json) (ids : gset string) :
  (forall v, Py.repr v <> "") ->
  (StampAPIScraper.extract_stamp_data result ids = (inl NoIdentifier, ids)
   <-> Py.truthy (Py.get result "uid" (Py.JStr "")) = false
       /\ Py.get result "id" (Py.JStr "") = Py.JStr "")
  /\ (Py.truthy (Py.get result "uid" (Py.JStr "")) = false ->
      result !! "id" = Some Py.JNull ->
      api_product_id result = "None"
      /\ (StampAPIScraper.extract_stamp_data result ids).1
         <> inl NoIdentifier).
Proof.
  intros Hrepr.
  assert (StampAPIScraper.extract_stamp_data result ids
          = (inl NoIdentifier, ids)
          <-> api_product_id result = "") as Hgate.
  { rewrite api_pipeline. split.
    - intros E.
      destruct (decide (api_product_id result = "")) as [|Hne];
        [assumption|exfalso].
      destruct (decide (api_product_id result ∈ ids)) as [Hin|Hnin].
      + rewrite pipeline_seen in E by assumption. discriminate.
      + rewrite pipeline_fresh in E by assumption.
        destruct (StampAPIScraper.extract_image_url result) as [r|?] eqn:E1.
        { apply api_image_gate in E1 as [->| ->]; discriminate. }
        destruct (StampAPIScraper.extract_stamp_number result)
          as [r|?] eqn:E2.
        { apply api_number_gate in E2 as [->| ->]; discriminate. }
        destruct (StampAPIScraper.extract_year_country result)
          as [r|?] eqn:E3.
        { apply api_title_gate in E3 as [->|[->| ->]]; discriminate. }
        destruct (StampAPIScraper.extract_price result) as [r|?] eqn:E4.
        { apply api_price_gate in E4 as [->| ->]; discriminate. }
        discriminate.
    - intros ->. reflexivity. }
  split.
  - rewrite Hgate. apply api_product_id_empty, Hrepr.
  - intros Huid Eid.
    assert (api_product_id result = "None") as E.
    { unfold api_product_id, Py.or_. rewrite Huid.
      unfold Py.get at 1. rewrite Eid. reflexivity. }
    split; [exact E|].
    intros E'.
    assert (StampAPIScraper.extract_stamp_data result ids
            = (inl NoIdentifier, ids)) as E''.
    { destruct (StampAPIScraper.extract_stamp_data result ids)
        as [r ids'] eqn:Ex.
      simpl in E'. subst r. f_equal.
      rewrite api_pipeline in Ex. eapply pipeline_rejects, Ex. }
    apply Hgate in E''. congruence.
Qed.

Lemma identifier_is_missing_iff_witness :
  @StampAPIScraper.extract_stamp_data sample_runtime
    {[ "uid" := Py.JInt 0; "id" := Py.JStr "" ]} ∅ = (inl NoIdentifier, ∅)
  /\ @api_product_id sample_runtime {[ "id" := Py.JNull ]} = "None".
Proof.
  split.
  - apply (@identifier_is_missing_iff sample_runtime
             {[ "uid" := Py.JInt 0; "id" := Py.JStr "" ]} ∅);
      [discriminate|]. split; reflexivity.
  - apply (@identifier_is_missing_iff sample_runtime
             {[ "id" := Py.JNull ]} ∅); [discriminate|reflexivity..].
Defined.

(** X5.  A falsy [price], such as 0 or 0.0, is treated by scraper_api.py as
    no price at all: the result is priced as if the key were not there, by
    [ss_price] if it has one, and is dropped otherwise.  The extractor of
    the category, condition and segmented scrapers takes the same price as
    it stands, and returns 0.0. *)
Theorem falsy_price_falls_through
    (result : gmap string Py.json) (p : Py.json) :
  result !! "price" = Some p ->
  Py.truthy p = false ->
  StampAPIScraper.extract_price result
  = StampAPIScraper.extract_price (delete "price" result)
  /\ (result !! "ss_price" = None ->
      StampAPIScraper.extract_price result = inl NoPrice)
  /\ (p = Py.JInt 0 ->
      Searchspring.extract_price result = inr (S754_zero false))
  /\ (forall s, p = Py.JFloat (S754_zero s) ->
      Searchspring.extract_price result = inr (S754_zero s)).
Proof.
  intros Ep Hp.
  assert (forall d, Py.get (delete "price" result) "price" d = d) as Ed.
  { intros d. unfold Py.get. now rewrite lookup_delete_eq. }
  assert (forall d, Py.get (delete "price" result) "ss_price" d
                    = Py.get result "ss_price" d) as Es.
  { intros d. unfold Py.get. now rewrite lookup_delete_ne. }
  assert (Py.get result "price" Py.JNull = p) as Eg.
  { unfold Py.get. now rewrite Ep. }
  split; [|split; [|split]].
  - unfold StampAPIScraper.extract_price.
    rewrite Ed, Es, Eg. unfold Py.or_. rewrite Hp. reflexivity.
  - intros Ess. unfold StampAPIScraper.extract_price.
    rewrite Eg. unfold Py.or_. rewrite Hp.
    unfold Py.get. rewrite Ess. reflexivity.
  - intros ->. unfold Searchspring.extract_price. rewrite Eg. reflexivity.
  - intros s ->. unfold Searchspring.extract_price. rewrite Eg. reflexivity.
Qed.

Lemma falsy_price_falls_through_witness :
  StampAPIScraper.extract_price {[ "price" := Py.JInt 0 ]} = inl NoPrice
  /\ Searchspring.extract_price {[ "price" := Py.JInt 0 ]}
     = inr (S754_zero false).
Proof.
  destruct (falsy_price_falls_through {[ "price" := Py.JInt 0 ]} (Py.JInt 0))
    as (_ & H1 & H2 & _); [reflexivity|reflexivity|].
  split; [apply H1|apply H2]; reflexivity.
Defined.

Set Warnings "-clear-no-such-hyp".

(** ** The books of a run *)

Lemma saved_to_database_app a b :
  saved_to_database (a ++ b) = saved_to_database a ++ saved_to_database b.
Proof.
  induction a as [|[] a IH]; simpl; rewrite ?IH, ?app_assoc; reflexivity.
Qed.

Lemma saved_to_json_app a b :
  saved_to_json (a ++ b) = saved_to_json a ++ saved_to_json b.
Proof.
  induction a as [|[] a IH]; simpl; rewrite ?IH, ?app_assoc; reflexivity.
Qed.

Lemma requested_app a b : requested (a ++ b) = requested a ++ requested b.
Proof.
  induction a as [|[] a IH]; simpl; rewrite ?IH; reflexivity.
Qed.

Section Accounted.
Context {P : Type} (json : bool) (Q : CanonicalRecord -> Prop).

Lemma accounted_refl (w : World P) : accounted json Q w w 0.
Proof.
  exists []. rewrite app_nil_r. simpl.
  repeat split; try constructor; try set_solver.
  destruct json; reflexivity.
Qed.

(** A stretch that saves nothing and leaves the identifiers alone. *)
Lemma accounted_quiet (w w' : World P) events :
  trace w' = trace w ++ events ->
  saved_to_database events = [] ->
  saved_to_json events = [] ->
  scraped_ids w' = scraped_ids w ->
  accounted json Q w w' 0.
Proof.
  intros Et Ed Ej Ei. exists events. rewrite Ed, Ej, Ei. simpl.
  repeat split; try constructor; try set_solver.
  destruct json; reflexivity.
Qed.

Lemma accounted_trans (w w1 w2 : World P) n1 n2 :
  accounted json Q w w1 n1 ->
  accounted json Q w1 w2 n2 ->
  accounted json Q w w2 (n1 + n2).
Proof.
  intros (e1 & T1 & N1 & F1 & I1 & J1 & L1 & Q1)
         (e2 & T2 & N2 & F2 & I2 & J2 & L2 & Q2).
  exists (e1 ++ e2).
  rewrite saved_to_database_app, saved_to_json_app, fmap_app.
  split; [rewrite T2, T1; apply eq_sym, app_assoc|].
  split.
  { apply NoDup_app. split; [assumption|]. split; [|assumption].
    intros x H1 H2. apply F2 in H2. rewrite I1 in H2. set_solver. }
  split.
  { intros x [H1|H2]%elem_of_app; [auto|].
    apply F2 in H2. rewrite I1 in H2. set_solver. }
  split; [rewrite I2, I1; set_solver|].
  split; [rewrite J1, J2; destruct json; reflexivity|].
  split; [rewrite length_app; lia|].
  apply Forall_app. auto.
Qed.

(** A page of fresh records, saved at once. *)
Lemma accounted_batch (w w1 w2 : World P) stamps quiet :
  trace w1 = trace w ++ quiet ->
  saved_to_database quiet = [] ->
  saved_to_json quiet = [] ->
  NoDup (product_id <$> stamps) ->
  (forall x, x ∈ (product_id <$> stamps) -> x ∉ scraped_ids w) ->
  scraped_ids w1 = list_to_set (product_id <$> stamps) ∪ scraped_ids w ->
  Forall Q stamps ->
  trace w2 = trace w1
             ++ SaveToDatabase stamps
                :: (if json then [SaveToJson stamps] else []) ->
  scraped_ids w2 = scraped_ids w1 ->
  accounted json Q w w2 (length stamps).
Proof.
  intros T1 D1 J1 N F I HQ T2 I2.
  exists (quiet ++ SaveToDatabase stamps
                   :: (if json then [SaveToJson stamps] else [])).
  rewrite saved_to_database_app, saved_to_json_app, D1, J1.
  assert (saved_to_database
            (SaveToDatabase stamps
             :: (if json then [SaveToJson stamps] else [])) = stamps) as ->.
  { destruct json; simpl; now rewrite app_nil_r. }
  assert (saved_to_json
            (SaveToDatabase stamps
             :: (if json then [SaveToJson stamps] else []))
          = if json then stamps else []) as ->.
  { destruct json; simpl; now rewrite ?app_nil_r. }
  simpl. repeat split; try assumption.
  - rewrite T2, T1. apply eq_sym, app_assoc.
  - rewrite I2. exact I.
Qed.

End Accounted.

(** ** The extractors and the identifier set *)

Lemma api_keeps_identifiers `{Py.Runtime} :
  keeps_identifiers StampAPIScraper.extract_stamp_data.
Proof.
  intros result ids. rewrite api_pipeline.
  match goal with |- context [pipeline ?p ?a ?b ?c ?d ?m ?i] =>
    pose proof (pipeline_ids p a b c d m i) as E;
    destruct (pipeline p a b c d m i) as [[r|rec] ids'] end; [exact E|].
  destruct E as ((a & b & c & d & ->) & Hnin & ->).
  rewrite api_record_id. auto.
Qed.

Lemma html_keeps_identifiers :
  keeps_identifiers StampScraper.extract_stamp_data.
Proof.
  intros listing ids. rewrite html_pipeline.
  match goal with |- context [pipeline ?p ?a ?b ?c ?d ?m ?i] =>
    pose proof (pipeline_ids p a b c d m i) as E;
    destruct (pipeline p a b c d m i) as [[r|rec] ids'] end; [exact E|].
  destruct E as ((a & b & c & d & ->) & Hnin & ->).
  rewrite html_record_id. auto.
Qed.

Lemma searchspring_keeps_identifiers `{Py.Runtime} category condition :
  keeps_identifiers (Searchspring.extract_stamp_data category condition).
Proof.
  intros result ids. rewrite searchspring_pipeline.
  match goal with |- context [pipeline ?p ?a ?b ?c ?d ?m ?i] =>
    pose proof (pipeline_ids p a b c d m i) as E;
    destruct (pipeline p a b c d m i) as [[r|rec] ids'] end; [exact E|].
  destruct E as ((a & b & c & d & ->) & Hnin & ->).
  rewrite tagged_record_id. auto.
Qed.

Lemma searchspring_tags `{Py.Runtime} category condition result ids rec ids' :
  Searchspring.extract_stamp_data category condition result ids
  = (inr rec, ids') ->
  tagged category condition rec.
Proof.
  rewrite searchspring_pipeline. intros E.
  apply pipeline_accepts in E as (a & b & [y c] & d & _ & _ & _ & _ & -> & _).
  split; reflexivity.
Qed.

(** A batch: the records returned have pairwise distinct identifiers, new
    to the set, and the set gains exactly these. *)
Lemma extract_each_fresh {R} (extract : R -> Extract CanonicalRecord)
    (Q : CanonicalRecord -> Prop) xs ids out ids' :
  keeps_identifiers extract ->
  (forall x ids rec ids', extract x ids = (inr rec, ids') -> Q rec) ->
  extract_each extract xs ids = (out, ids') ->
  NoDup (product_id <$> out)
  /\ (forall x, x ∈ (product_id <$> out) -> x ∉ ids)
  /\ ids' = list_to_set (product_id <$> out) ∪ ids
  /\ Forall Q out.
Proof.
  intros Hk HQ. revert ids out ids'.
  induction xs as [|x xs IH]; intros ids out ids'.
  - intros [= <- <-]. simpl. repeat split; try constructor; set_solver.
  - cbn [extract_each]. pose proof (Hk x ids) as K.
    destruct (extract x ids) as [[r|rec] ids1] eqn:Ex.
    + subst ids1.
      destruct (extract_each extract xs ids) as [out2 ids2] eqn:E2.
      intros [= <- <-]. apply IH, E2.
    + destruct K as [Hnin ->].
      destruct (extract_each extract xs ({[product_id rec]} ∪ ids))
        as [out2 ids2] eqn:E2.
      intros [= <- <-]. apply IH in E2 as (N & F & -> & HQ2).
      cbn [fmap list_fmap]. repeat split.
      * constructor; [|assumption]. intros Hin. apply F in Hin. set_solver.
      * intros y [->|Hy]%elem_of_cons; [assumption|].
        apply F in Hy. set_solver.
      * set_solver.
      * constructor; [eapply HQ, Ex|assumption].
Qed.

(** ** The books of a run whose saves may raise *)

Section Booked.
Context {P : Type} (exact : Prop) (Q : CanonicalRecord -> Prop).

Lemma booked_of_accounted (w w' : World P) n :
  accounted true Q w w' n -> booked exact Q w w' n.
Proof.
  intros (events & T & N & F & I & J & L & A).
  exists events. rewrite J, I.
  split; [exact T|]. split; [exact N|]. split.
  { intros x Hx. split; [now apply F|].
    apply elem_of_union_l, elem_of_list_to_set, Hx. }
  split; [apply union_subseteq_r|].
  split; [reflexivity|]. split; [exact L|]. split; [exact A|].
  intros _. split; reflexivity.
Qed.

Lemma booked_refl (w : World P) : booked exact Q w w 0.
Proof. apply booked_of_accounted, accounted_refl. Qed.

Lemma booked_trans (w w1 w2 : World P) n1 n2 :
  booked exact Q w w1 n1 ->
  booked exact Q w1 w2 n2 ->
  booked exact Q w w2 (n1 + n2).
Proof.
  intros (e1 & T1 & N1 & F1 & S1 & J1 & L1 & Q1 & X1)
         (e2 & T2 & N2 & F2 & S2 & J2 & L2 & Q2 & X2).
  exists (e1 ++ e2).
  rewrite saved_to_database_app, saved_to_json_app, fmap_app.
  split; [rewrite T2, T1; apply eq_sym, app_assoc|].
  split.
  { apply NoDup_app. split; [assumption|]. split; [|assumption].
    intros x H1 H2. apply F1 in H1 as [_ H1]. apply F2 in H2 as [H2 _].
    contradiction. }
  split.
  { intros x [H1|H2]%elem_of_app.
    - apply F1 in H1 as [H1 H1']. split; [assumption|set_solver].
    - apply F2 in H2 as [H2 H2']. split; [set_solver|assumption]. }
  split; [set_solver|].
  split; [now apply sublist_app|].
  split; [rewrite length_app; lia|].
  split; [apply Forall_app; auto|].
  intros Hx. destruct (X1 Hx) as [I1 E1]. destruct (X2 Hx) as [I2 E2].
  split; [rewrite I2, I1; set_solver|now rewrite E1, E2].
Qed.

Lemma booked_weaken (Q' : CanonicalRecord -> Prop) (w w' : World P) n :
  (forall rec, Q rec -> Q' rec) ->
  booked exact Q w w' n -> booked exact Q' w w' n.
Proof.
  intros HQ (events & T & N & F & S & J & L & A & X).
  exists events. repeat split; try assumption; try (now apply F);
    try (now apply X).
  eapply Forall_impl; eassumption.
Qed.

End Booked.

(** ** The books of [scrape_all] *)

Section PlainLoopBooks.
Context {P : Type}.
Variable scrape_page :
  Z -> World P -> option (list CanonicalRecord * World P).
Variable save : list CanonicalRecord -> World P -> World P.
Variable json : bool.
Variable good : CanonicalRecord -> Prop.

(** A page adds requests and sleeps to the trace, and returns records
    that are new. *)
Hypothesis scrape_page_fresh : forall page w stamps w1,
  scrape_page page w = Some (stamps, w1) ->
  exists quiet,
    trace w1 = trace w ++ quiet
    /\ saved_to_database quiet = [] /\ saved_to_json quiet = []
    /\ NoDup (product_id <$> stamps)
    /\ (forall x, x ∈ (product_id <$> stamps) -> x ∉ scraped_ids w)
    /\ scraped_ids w1 = list_to_set (product_id <$> stamps) ∪ scraped_ids w
    /\ Forall good stamps.
Hypothesis save_trace : forall stamps w,
  trace (save stamps w)
  = trace w ++ SaveToDatabase stamps
               :: (if json then [SaveToJson stamps] else []).
Hypothesis save_ids : forall stamps w,
  scraped_ids (save stamps w) = scraped_ids w.

Local Abbreviation turn := (PlainLoop.scrape_all_turn scrape_page save).
Local Abbreviation loop := (PlainLoop.scrape_all_loop scrape_page save).
Local Abbreviation books := (accounted json good).

Lemma scrape_all_turn_books delay max_pages st w r w' :
  turn delay max_pages st w = Some (r, w') ->
  exists n,
    books w w' n
    /\ total_scraped (match r with inl st' | inr st' => st' end)
       = (total_scraped st + n)%nat.
Proof.
  unfold PlainLoop.scrape_all_turn.
  destruct (PlainLoop.over_limit max_pages (page_num st)).
  { intros [= <- <-]. exists 0%nat. split; [apply accounted_refl|lia]. }
  destruct (scrape_page (page_num st) w) as [[stamps w1]|] eqn:Ep;
    [|discriminate].
  cbn [mbind option_bind].
  apply scrape_page_fresh in Ep as (quiet & T & D & J & N & F & I & A).
  destruct stamps as [|stamp stamps].
  - assert (books w w1 0) as B.
    { eapply accounted_quiet; try eassumption. rewrite I. set_solver. }
    cbn [consecutive_empty].
    destruct (3 <=? consecutive_empty st + 1)%nat.
    + intros [= <- <-]. exists 0%nat. split; [exact B|simpl; lia].
    + intros [= <- <-]. exists 0%nat. split; [|simpl; lia].
      replace 0%nat with (0 + 0)%nat by reflexivity.
      eapply accounted_trans; [exact B|].
      eapply (accounted_quiet _ _ _ _ [Sleep delay]); reflexivity.
  - assert (books w (save (stamp :: stamps) w1) (length (stamp :: stamps)))
      as B.
    { eapply accounted_batch; try eassumption; auto. }
    cbn [consecutive_empty]. cbn [Nat.leb].
    intros [= <- <-]. exists (length (stamp :: stamps)).
    split; [|reflexivity].
    replace (length (stamp :: stamps))
      with (length (stamp :: stamps) + 0)%nat by lia.
    eapply accounted_trans; [exact B|].
    eapply (accounted_quiet _ _ _ _ [Sleep delay]); reflexivity.
Qed.

Lemma scrape_all_loop_books fuel delay max_pages st w :
  let '(st', w') := final (loop fuel delay max_pages st w) in
  exists n,
    books w w' n /\ total_scraped st' = (total_scraped st + n)%nat.
Proof.
  revert st w. induction fuel as [|fuel IH]; intros st w;
    cbn [PlainLoop.scrape_all_loop].
  { exists 0%nat. split; [apply accounted_refl|simpl; lia]. }
  destruct (turn delay max_pages st w) as [[[stl|str] w1]|] eqn:E.
  - apply scrape_all_turn_books in E as (n & B & T). simpl. eauto.
  - apply scrape_all_turn_books in E as (n & B & T). simpl in T.
    specialize (IH str w1).
    destruct (final (loop fuel delay max_pages str w1)) as [st' w'].
    destruct IH as (n' & B' & T').
    exists (n + n')%nat. split; [eapply accounted_trans; eassumption|lia].
  - exists 0%nat. split; [apply accounted_refl|simpl; lia].
Qed.

End PlainLoopBooks.

(** The page scrapers of scraper_api.py and scraper.py. *)
Lemma api_read_response_fresh `{Py.Runtime} r w stamps w1 :
  StampAPIScraper.read_response r w = (stamps, w1) ->
  trace w1 = trace w
  /\ NoDup (product_id <$> stamps)
  /\ (forall x, x ∈ (product_id <$> stamps) -> x ∉ scraped_ids w)
  /\ scraped_ids w1 = list_to_set (product_id <$> stamps) ∪ scraped_ids w.
Proof.
  assert (forall w0 : World SearchPage,
            ([], w0) = (stamps, w1) ->
            w0 = w ->
            trace w1 = trace w
            /\ NoDup (product_id <$> stamps)
            /\ (forall x, x ∈ (product_id <$> stamps) -> x ∉ scraped_ids w)
            /\ scraped_ids w1
               = list_to_set (product_id <$> stamps) ∪ scraped_ids w) as Z.
  { intros w0 [= <- <-] ->. simpl.
    repeat split; [constructor|set_solver..]. }
  unfold StampAPIScraper.read_response.
  destruct r as [|status [data|]].
  - intros E. eapply Z; eauto.
  - destruct (raises_for_status status); [intros E; eapply Z; eauto|].
    destruct (extract_each StampAPIScraper.extract_stamp_data
                (results data) (scraped_ids w)) as [out ids'] eqn:E.
    intros [= <- <-].
    eapply (extract_each_fresh _ (fun _ => True)) in E
      as (N & F & -> & _); [|apply api_keeps_identifiers|auto].
    simpl. auto.
  - destruct (raises_for_status status); intros E; eapply Z; eauto.
Qed.

Lemma api_scrape_page_fresh `{Py.Runtime} page w stamps w1 :
  StampAPIScraper.scrape_page page w = Some (stamps, w1) ->
  exists quiet,
    trace w1 = trace w ++ quiet
    /\ saved_to_database quiet = [] /\ saved_to_json quiet = []
    /\ NoDup (product_id <$> stamps)
    /\ (forall x, x ∈ (product_id <$> stamps) -> x ∉ scraped_ids w)
    /\ scraped_ids w1 = list_to_set (product_id <$> stamps) ∪ scraped_ids w
    /\ Forall (fun _ => True) stamps.
Proof.
  assert (Forall (fun _ : CanonicalRecord => True) stamps) as A
    by (apply Forall_forall; auto).
  unfold StampAPIScraper.scrape_page, request.
  destruct (script w) as [|r rest] eqn:Es; [discriminate|].
  cbn [mbind option_bind].
  set (w0 := {| script := rest; scraped_ids := scraped_ids w;
                trace := trace w ++ [Get page] |}).
  assert (forall r0, Some (StampAPIScraper.read_response r0 w0)
                     = Some (stamps, w1) ->
            exists quiet,
              trace w1 = trace w ++ quiet
              /\ saved_to_database quiet = [] /\ saved_to_json quiet = []
              /\ NoDup (product_id <$> stamps)
              /\ (forall x, x ∈ (product_id <$> stamps) ->
                            x ∉ scraped_ids w)
              /\ scraped_ids w1
                 = list_to_set (product_id <$> stamps) ∪ scraped_ids w
              /\ Forall (fun _ => True) stamps)
    as Hread.
  { intros r0 [= E]. apply api_read_response_fresh in E as (T & N & F & I).
    exists [Get page]. rewrite T. auto 10. }
  destruct r as [|status body]; [apply Hread|].
  destruct status as [|p|p]; try apply Hread.
  repeat (destruct p as [p|p|]; try apply Hread).
  cbn [emit script scraped_ids trace].
  destruct rest as [|r' rest']; [discriminate|].
  cbn [mbind option_bind].
  intros [= E]. apply api_read_response_fresh in E as (T & N & F & I).
  exists [Get page; Sleep 30; Get page]. rewrite T. simpl.
  rewrite <- !app_assoc. auto 10.
Qed.

Lemma html_text_image listing ids rec ids' :
  StampScraper.extract_stamp_data listing ids = (inr rec, ids') ->
  text_image rec.
Proof.
  rewrite html_pipeline. intros E.
  apply pipeline_accepts in E as (a & b & [y c] & d & _ & _ & _ & _ & -> & _).
  exists a. reflexivity.
Qed.

Lemma html_scrape_page_fresh page w stamps w1 :
  StampScraper.scrape_page page w = Some (stamps, w1) ->
  exists quiet,
    trace w1 = trace w ++ quiet
    /\ saved_to_database quiet = [] /\ saved_to_json quiet = []
    /\ NoDup (product_id <$> stamps)
    /\ (forall x, x ∈ (product_id <$> stamps) -> x ∉ scraped_ids w)
    /\ scraped_ids w1 = list_to_set (product_id <$> stamps) ∪ scraped_ids w
    /\ Forall text_image stamps.
Proof.
  unfold StampScraper.scrape_page, request.
  destruct (script w) as [|r rest] eqn:Es; [discriminate|].
  cbn [mbind option_bind].
  assert (forall w0 : World (list Listing),
            Some ([], w0) = Some (stamps, w1) ->
            trace w0 = trace w ++ [Get page] ->
            scraped_ids w0 = scraped_ids w ->
            exists quiet,
              trace w1 = trace w ++ quiet
              /\ saved_to_database quiet = [] /\ saved_to_json quiet = []
              /\ NoDup (product_id <$> stamps)
              /\ (forall x, x ∈ (product_id <$> stamps) ->
                            x ∉ scraped_ids w)
              /\ scraped_ids w1
                 = list_to_set (product_id <$> stamps) ∪ scraped_ids w
              /\ Forall text_image stamps) as Z.
  { intros w0 [= <- <-] T I. exists [Get page]. rewrite T, I. simpl.
    repeat split; [constructor|set_solver..|constructor]. }
  destruct r as [|status [listings|]].
  - intros E. eapply Z; eauto.
  - destruct (raises_for_status status); [intros E; eapply Z; eauto|].
    cbn [scraped_ids].
    destruct (extract_each StampScraper.extract_stamp_data listings
                (scraped_ids w)) as [out ids'] eqn:E.
    intros [= <- <-].
    eapply (extract_each_fresh _ text_image) in E
      as (N & F & -> & A); [|apply html_keeps_identifiers
                            |intros; eapply html_text_image; eassumption].
    exists [Get page]. simpl. auto 10.
  - destruct (raises_for_status status); intros E; eapply Z; eauto.
Qed.

Lemma api_scrape_all_books `{Py.Runtime} delay max_pages w :
  let '(st', w') := final (StampAPIScraper.scrape_all delay max_pages w) in
  accounted true (fun _ => True) w w' (total_scraped st').
Proof.
  unfold StampAPIScraper.scrape_all, PlainLoop.scrape_all.
  pose proof (scrape_all_loop_books StampAPIScraper.scrape_page
                StampAPIScraper.save true (fun _ => True)
                api_scrape_page_fresh
                ltac:(intros; unfold StampAPIScraper.save, emit; simpl;
                      rewrite <- app_assoc; reflexivity)
                ltac:(reflexivity)
                (S (length (script w))) delay max_pages
                PlainLoop.initial w) as B.
  destruct (final _) as [st' w']. destruct B as (n & B & T).
  simpl in T. subst n. exact B.
Qed.

Lemma html_scrape_all_books delay max_pages w :
  let '(st', w') := final (StampScraper.scrape_all delay max_pages w) in
  accounted false text_image w w' (total_scraped st').
Proof.
  unfold StampScraper.scrape_all, PlainLoop.scrape_all.
  pose proof (scrape_all_loop_books StampScraper.scrape_page
                StampScraper.save false text_image
                html_scrape_page_fresh
                ltac:(reflexivity) ltac:(reflexivity)
                (S (length (script w))) delay max_pages
                PlainLoop.initial w) as B.
  destruct (final _) as [st' w']. destruct B as (n & B & T).
  simpl in T. subst n. exact B.
Qed.

(** X6.  However the requests of a run of [scrape_all] are answered, in
    scraper_api.py and in scraper.py, no two of the records the run saves
    have the same identifier, none of them has an identifier that was in
    [scraped_ids] when the run began, and [scraped_ids] ends as what it was
    together with the identifiers of the records saved. *)
Theorem scrape_all_saves_each_stamp_once `{Py.Runtime}
    (delay : Q) (max_pages : option Z)
    (w : World SearchPage) (v : World (list Listing)) :
  (let '(_, w') := final (StampAPIScraper.scrape_all delay max_pages w) in
   exists events,
     trace w' = trace w ++ events
     /\ NoDup (product_id <$> saved_to_database events)
     /\ (forall rec, rec ∈ saved_to_database events ->
                     product_id rec ∉ scraped_ids w)
     /\ scraped_ids w'
        = list_to_set (product_id <$> saved_to_database events)
          ∪ scraped_ids w)
  /\
  (let '(_, v') := final (StampScraper.scrape_all delay max_pages v) in
   exists events,
     trace v' = trace v ++ events
     /\ NoDup (product_id <$> saved_to_database events)
     /\ (forall rec, rec ∈ saved_to_database events ->
                     product_id rec ∉ scraped_ids v)
     /\ scraped_ids v'
        = list_to_set (product_id <$> saved_to_database events)
          ∪ scraped_ids v).
Proof.
  split.
  - pose proof (api_scrape_all_books delay max_pages w) as B.
    destruct (final _) as [st' w'].
    destruct B as (events & T & N & F & I & _).
    exists events. repeat split; try assumption.
    intros rec Hrec. apply F, list_elem_of_fmap_2, Hrec.
  - pose proof (html_scrape_all_books delay max_pages v) as B.
    destruct (final _) as [st' v'].
    destruct B as (events & T & N & F & I & _).
    exists events. repeat split; try assumption.
    intros rec Hrec. apply F, list_elem_of_fmap_2, Hrec.
Qed.

(** X7.  The [total_scraped] a run of [scrape_all] ends with is the number
    of records it has handed to [save_to_database], and the number of
    identifiers [scraped_ids] has gained.  scraper_api.py hands the same
    records, in the same order, to [save_to_json_incremental]; scraper.py
    writes no JSON during the run. *)
Theorem scrape_all_counts_what_it_saves `{Py.Runtime}
    (delay : Q) (max_pages : option Z)
    (w : World SearchPage) (v : World (list Listing)) :
  (let '(st', w') := final (StampAPIScraper.scrape_all delay max_pages w) in
   exists events,
     trace w' = trace w ++ events
     /\ total_scraped st' = length (saved_to_database events)
     /\ saved_to_json events = saved_to_database events
     /\ size (scraped_ids w') = (size (scraped_ids w) + total_scraped st')%nat)
  /\
  (let '(st', v') := final (StampScraper.scrape_all delay max_pages v) in
   exists events,
     trace v' = trace v ++ events
     /\ total_scraped st' = length (saved_to_database events)
     /\ saved_to_json events = []
     /\ size (scraped_ids v') = (size (scraped_ids v) + total_scraped st')%nat).
Proof.
  assert (forall {P} json good (w w' : World P) n,
            accounted json good w w' n ->
            exists events,
              trace w' = trace w ++ events
              /\ n = length (saved_to_database events)
              /\ saved_to_json events
                 = (if json then saved_to_database events else [])
              /\ size (scraped_ids w') = (size (scraped_ids w) + n)%nat) as Z.
  { intros P json good w0 w' n (events & T & N & F & I & J & L & _).
    exists events. repeat split; auto.
    rewrite I, size_union, size_list_to_set, length_fmap by
      (assumption || (intros x Hx; rewrite elem_of_list_to_set in Hx;
                      now apply F)).
    lia. }
  split.
  - pose proof (api_scrape_all_books delay max_pages w) as B.
    destruct (final _) as [st' w']. apply Z in B. exact B.
  - pose proof (html_scrape_all_books delay max_pages v) as B.
    destruct (final _) as [st' v']. apply Z in B. exact B.
Qed.

(** ** The filtered and the segmented loops, case by case *)

Lemma status_cases {T} (status : Z) (a b c : T) :
  match status with 429%Z => a | 200%Z => b | _ => c end
  = if (status =? 429)%Z then a else if (status =? 200)%Z then b else c.
Proof.
  destruct status as [|p|p]; try reflexivity.
  repeat (destruct p as [p|p|]; try reflexivity).
Qed.

(** The three ways a turn of the filtered loop goes on a response in
    hand: the [except] clause, a throttled response, a page of results. *)
Lemma filtered_turn_cases `{Py.Runtime} `{Stores} category condition delay r st w :
  Searchspring.filtered_turn category condition delay r st w =
  let on_exception :=
    let w1 := emit (Sleep delay) w in
    let st1 := {| page_num := page_num st + 1;
                  total_scraped := total_scraped st;
                  consecutive_empty := consecutive_empty st + 1 |} in
    if (3 <=? consecutive_empty st1)%nat then (inl st1, w1)
    else (inr st1, w1) in
  match r with
  | NetworkError => on_exception
  | Response status body =>
      if (status =? 429)%Z then (inr st, emit (Sleep 30) w)
      else if (status =? 200)%Z then
        match body with
        | None => on_exception
        | Some data =>
            Searchspring.filtered_turn category condition delay
              (Response 200 (Some data)) st w
        end
      else (inl st, w)
  end.
Proof.
  destruct r as [|status body]; [reflexivity|].
  unfold Searchspring.filtered_turn.
  destruct status as [|p|p]; try reflexivity.
  repeat (destruct p as [p|p|]; try reflexivity);
    destruct body; reflexivity.
Qed.

Lemma scrape_with_query_turn_cases `{Py.Runtime} `{Stores} delay r st w :
  StampAPISegmentedScraper.scrape_with_query_turn delay r st w =
  match r with
  | NetworkError => (inl st, w)
  | Response status body =>
      if (status =? 429)%Z then (inr st, emit (Sleep 30) w)
      else if (status =? 200)%Z then
        match body with
        | None => (inl st, w)
        | Some data =>
            StampAPISegmentedScraper.scrape_with_query_turn delay
              (Response 200 (Some data)) st w
        end
      else (inl st, w)
  end.
Proof.
  destruct r as [|status body]; [reflexivity|].
  unfold StampAPISegmentedScraper.scrape_with_query_turn.
  destruct status as [|p|p]; try reflexivity.
  repeat (destruct p as [p|p|]; try reflexivity);
    destruct body; reflexivity.
Qed.

(** ** Their books *)

Lemma accounted_weaken {P} json (Q Q' : CanonicalRecord -> Prop)
    (w w' : World P) n :
  (forall rec, Q rec -> Q' rec) ->
  accounted json Q w w' n -> accounted json Q' w w' n.
Proof.
  intros HQ (events & T & N & F & I & J & L & A).
  exists events. repeat split; try assumption.
  eapply Forall_impl; eassumption.
Qed.

Lemma sleep_books {P} json Q (w : World P) seconds :
  accounted json Q w (emit (Sleep seconds) w) 0.
Proof. eapply (accounted_quiet _ _ _ _ [Sleep seconds]); reflexivity. Qed.

(** A page of results, extracted and saved when there is something to
    save. *)
Lemma page_books `{Py.Runtime} category condition (w : World SearchPage)
    results stamps ids :
  extract_each (Searchspring.extract_stamp_data category condition)
    results (scraped_ids w) = (stamps, ids) ->
  accounted true (tagged category condition) w
    (match stamps with
     | _ :: _ => emit (SaveToJson stamps)
                   (emit (SaveToDatabase stamps) (with_ids ids w))
     | [] => with_ids ids w
     end) (length stamps).
Proof.
  intros E.
  eapply (extract_each_fresh _ (tagged category condition)) in E
    as (N & F & -> & A);
    [|apply searchspring_keeps_identifiers
     |intros; eapply searchspring_tags; eassumption].
  destruct stamps as [|stamp stamps].
  - eapply (accounted_quiet _ _ _ _ []); try reflexivity.
    + simpl. now rewrite app_nil_r.
    + simpl. set_solver.
  - eapply (accounted_batch true _ w (with_ids _ w) _ _ []);
      try eassumption; try reflexivity.
    + simpl. now rewrite app_nil_r.
    + simpl. rewrite <- app_assoc. reflexivity.
Qed.

(** A page of results in the filtered loop, with the batch in hand. *)
Lemma filtered_turn_page `{Py.Runtime} `{Stores} category condition delay
    data st w stamps ids :
  results data <> [] ->
  extract_each (Searchspring.extract_stamp_data category condition)
    (results data) (scraped_ids w) = (stamps, ids) ->
  Searchspring.filtered_turn category condition delay
    (Response 200 (Some data)) st w
  = let w1 := with_ids ids w in
    let on_exception (w2 : World SearchPage) :=
      (@inr Loop Loop {| page_num := page_num st + 1;
                         total_scraped := total_scraped st;
                         consecutive_empty := 1 |},
       emit (Sleep delay) w2) in
    let pagination (total : nat) (w2 : World SearchPage) :=
      if (default 0%Z (totalPages data)
          <=? default (page_num st) (currentPage data))%Z
      then (inl {| page_num := page_num st;
                   total_scraped := total;
                   consecutive_empty := 0 |}, w2)
      else (inr {| page_num := page_num st + 1;
                   total_scraped := total;
                   consecutive_empty := 0 |},
            emit (Sleep delay) w2) in
    match stamps with
    | _ :: _ =>
        match save_outcome (trace w) stamps with
        | Saved =>
            pagination (total_scraped st + length stamps)
              (emit (SaveToJson stamps) (emit (SaveToDatabase stamps) w1))
        | DatabaseRaises => on_exception w1
        | JsonRaises => on_exception (emit (SaveToDatabase stamps) w1)
        end
    | [] => pagination (total_scraped st) w1
    end.
Proof.
  intros Hne E. unfold Searchspring.filtered_turn.
  destruct (results data) as [|result others] eqn:Er; [congruence|].
  rewrite E. cbv zeta. destruct stamps as [|stamp stamps]; [reflexivity|].
  cbn [with_ids trace].
  destruct (save_outcome (trace w) (stamp :: stamps)); reflexivity.
Qed.

Lemma scrape_with_query_turn_page `{Py.Runtime} `{Stores} delay
    data st w stamps ids :
  results data <> [] ->
  extract_each (Searchspring.extract_stamp_data None None)
    (results data) (scraped_ids w) = (stamps, ids) ->
  StampAPISegmentedScraper.scrape_with_query_turn delay
    (Response 200 (Some data)) st w
  = let w1 := with_ids ids w in
    let streak (st1 : Loop) (w2 : World SearchPage) :=
      if (3 <=? consecutive_empty st1)%nat then (inl st1, w2)
      else if (default 0%Z (totalPages data)
               <=? default (page_num st) (currentPage data))%Z
      then (inl st1, w2)
      else (inr {| page_num := page_num st1 + 1;
                   total_scraped := total_scraped st1;
                   consecutive_empty := consecutive_empty st1 |},
            emit (Sleep delay) w2) in
    match stamps with
    | _ :: _ =>
        match save_outcome (trace w) stamps with
        | Saved =>
            streak {| page_num := page_num st;
                      total_scraped := total_scraped st + length stamps;
                      consecutive_empty := 0 |}
                   (emit (SaveToJson stamps)
                         (emit (SaveToDatabase stamps) w1))
        | DatabaseRaises => (inl st, w1)
        | JsonRaises => (inl st, emit (SaveToDatabase stamps) w1)
        end
    | [] =>
        streak {| page_num := page_num st;
                  total_scraped := total_scraped st;
                  consecutive_empty := consecutive_empty st + 1 |} w1
    end.
Proof.
  intros Hne E. unfold StampAPISegmentedScraper.scrape_with_query_turn.
  destruct (results data) as [|result others] eqn:Er; [congruence|].
  unfold StampAPISegmentedScraper.extract_stamp_data.
  match goal with |- context [extract_each ?f ?xs ?i] =>
    change (extract_each f xs i)
      with (extract_each (Searchspring.extract_stamp_data None None) xs i)
  end.
  rewrite E. cbv zeta. destruct stamps as [|stamp stamps]; [reflexivity|].
  cbn [with_ids trace].
  destruct (save_outcome (trace w) (stamp :: stamps)); reflexivity.
Qed.

(** The batch of a page: extracted, and saved as far as the saves go. *)
Lemma batch_books `{Py.Runtime} `{Stores} category condition
    (w : World SearchPage) results stamps ids :
  extract_each (Searchspring.extract_stamp_data category condition)
    results (scraped_ids w) = (stamps, ids) ->
  booked reliable (tagged category condition) w
    (match stamps with
     | _ :: _ =>
         match save_outcome (trace w) stamps with
         | Saved => emit (SaveToJson stamps)
                      (emit (SaveToDatabase stamps) (with_ids ids w))
         | DatabaseRaises => with_ids ids w
         | JsonRaises => emit (SaveToDatabase stamps) (with_ids ids w)
         end
     | [] => with_ids ids w
     end)
    (match stamps with
     | _ :: _ =>
         match save_outcome (trace w) stamps with
         | Saved => length stamps
         | _ => 0
         end
     | [] => 0
     end).
Proof.
  intros E. pose proof (page_books category condition w _ _ _ E) as B.
  destruct stamps as [|stamp stamps]; [now apply booked_of_accounted|].
  destruct (save_outcome (trace w) (stamp :: stamps)) eqn:Es;
    [now apply booked_of_accounted| |].
  - eapply (extract_each_fresh _ (tagged category condition)) in E
      as (N & F & -> & A);
      [|apply searchspring_keeps_identifiers
       |intros; eapply searchspring_tags; eassumption].
    exists []. simpl. rewrite app_nil_r.
    split; [reflexivity|]. split; [constructor|].
    split; [intros x Hx; inversion Hx|].
    split; [apply union_subseteq_r|].
    split; [constructor|]. split; [reflexivity|]. split; [constructor|].
    intros Hr. rewrite (Hr _ _) in Es. discriminate.
  - eapply (extract_each_fresh _ (tagged category condition)) in E
      as (N & F & -> & A);
      [|apply searchspring_keeps_identifiers
       |intros; eapply searchspring_tags; eassumption].
    exists [SaveToDatabase (stamp :: stamps)].
    cbn [saved_to_database saved_to_json emit with_ids trace scraped_ids].
    rewrite app_nil_r.
    split; [reflexivity|]. split; [exact N|].
    split.
    { intros x Hx. split; [now apply F|].
      apply elem_of_union_l, elem_of_list_to_set, Hx. }
    split; [apply union_subseteq_r|].
    split; [apply sublist_nil_l|]. split; [reflexivity|].
    split; [exact A|].
    intros Hr. rewrite (Hr _ _) in Es. discriminate.
Qed.

Lemma sleep_booked {P} exact Q (w : World P) seconds :
  booked exact Q w (emit (Sleep seconds) w) 0.
Proof. apply booked_of_accounted, sleep_books. Qed.

Lemma filtered_turn_books `{Py.Runtime} `{Stores} category condition delay
    r st w res w' :
  Searchspring.filtered_turn category condition delay r st w = (res, w') ->
  script w' = script w
  /\ exists n,
       booked reliable (tagged category condition) w w' n
       /\ total_scraped (match res with inl st' | inr st' => st' end)
          = (total_scraped st + n)%nat.
Proof.
  rewrite filtered_turn_cases. cbv zeta.
  assert (forall res w',
    (if (3 <=? consecutive_empty st + 1)%nat
     then (inl {| page_num := page_num st + 1;
                  total_scraped := total_scraped st;
                  consecutive_empty := consecutive_empty st + 1 |},
           emit (Sleep delay) w)
     else (inr {| page_num := page_num st + 1;
                  total_scraped := total_scraped st;
                  consecutive_empty := consecutive_empty st + 1 |},
           emit (Sleep delay) w)) = (res, w') ->
    script w' = script w
    /\ exists n,
         booked reliable (tagged category condition) w w' n
         /\ total_scraped (match res with inl st' | inr st' => st' end)
            = (total_scraped st + n)%nat) as Hexc.
  { intros res0 w0. cbn [consecutive_empty].
    destruct (3 <=? consecutive_empty st + 1)%nat;
      intros [= <- <-]; (split; [reflexivity|]); exists 0%nat;
      (split; [apply sleep_booked|simpl; lia]). }
  destruct r as [|status body]; [apply Hexc|].
  destruct (status =? 429)%Z.
  { intros [= <- <-]. split; [reflexivity|]. exists 0%nat.
    split; [apply sleep_booked|lia]. }
  destruct (status =? 200)%Z.
  2:{ intros [= <- <-]. split; [reflexivity|]. exists 0%nat.
      split; [apply booked_refl|lia]. }
  destruct body as [data|]; [|apply Hexc].
  destruct (results data) as [|result others] eqn:Er.
  { unfold Searchspring.filtered_turn. rewrite Er.
    cbn [consecutive_empty].
    destruct (2 <=? consecutive_empty st + 1)%nat;
      intros [= <- <-]; (split; [reflexivity|]); exists 0%nat.
    - split; [apply booked_refl|simpl; lia].
    - split; [apply sleep_booked|simpl; lia]. }
  destruct (extract_each (Searchspring.extract_stamp_data category condition)
              (results data) (scraped_ids w)) as [stamps ids] eqn:E.
  rewrite (filtered_turn_page category condition delay data st w stamps ids)
    by (assumption || congruence).
  pose proof (batch_books category condition w _ _ _ E) as B.
  cbv zeta.
  destruct stamps as [|stamp stamps];
    [|destruct (save_outcome (trace w) (stamp :: stamps))];
    try destruct (_ <=? _)%Z; intros [= <- <-];
    (split; [reflexivity|]); eexists;
    (split; [first [exact B
                   |eapply booked_trans; [exact B|apply sleep_booked]]|]);
    simpl; lia.
Qed.

Lemma scrape_with_query_turn_books `{Py.Runtime} `{Stores} delay r st w
    res w' :
  StampAPISegmentedScraper.scrape_with_query_turn delay r st w = (res, w') ->
  script w' = script w
  /\ exists n,
       booked reliable (tagged None None) w w' n
       /\ total_scraped (match res with inl st' | inr st' => st' end)
          = (total_scraped st + n)%nat.
Proof.
  rewrite scrape_with_query_turn_cases.
  assert (forall res w',
            (@inl Loop Loop st, w) = (res, w') ->
            script w' = script w
            /\ exists n,
                 booked reliable (tagged None None) w w' n
                 /\ total_scraped (match res with inl st' | inr st' => st' end)
                    = (total_scraped st + n)%nat) as Hstop.
  { intros res0 w0 [= <- <-]. split; [reflexivity|]. exists 0%nat.
    split; [apply booked_refl|lia]. }
  destruct r as [|status body]; [apply Hstop|].
  destruct (status =? 429)%Z.
  { intros [= <- <-]. split; [reflexivity|]. exists 0%nat.
    split; [apply sleep_booked|lia]. }
  destruct (status =? 200)%Z; [|apply Hstop].
  destruct body as [data|]; [|apply Hstop].
  destruct (results data) as [|result others] eqn:Er.
  { unfold StampAPISegmentedScraper.scrape_with_query_turn. rewrite Er.
    apply Hstop. }
  destruct (extract_each (Searchspring.extract_stamp_data None None)
              (results data) (scraped_ids w)) as [stamps ids] eqn:E.
  rewrite (scrape_with_query_turn_page delay data st w stamps ids)
    by (assumption || congruence).
  pose proof (batch_books None None w _ _ _ E) as B.
  cbv zeta.
  destruct stamps as [|stamp stamps];
    [|destruct (save_outcome (trace w) (stamp :: stamps))];
    cbn [consecutive_empty page_num total_scraped];
    try destruct (3 <=? _)%nat; try destruct (_ <=? _)%Z;
    intros [= <- <-];
    (split; [reflexivity|]); eexists;
    (split; [first [exact B
                   |eapply booked_trans; [exact B|apply sleep_booked]]|]);
    simpl; lia.
Qed.

Lemma get_books {P} json Q (w : World P) rest page :
  accounted json Q w
    {| script := rest; scraped_ids := scraped_ids w;
       trace := trace w ++ [Get page] |} 0.
Proof. eapply (accounted_quiet _ _ _ _ [Get page]); reflexivity. Qed.

Lemma get_booked {P} exact Q (w : World P) rest page :
  booked exact Q w
    {| script := rest; scraped_ids := scraped_ids w;
       trace := trace w ++ [Get page] |} 0.
Proof. apply booked_of_accounted, get_books. Qed.

Lemma filtered_loop_books `{Py.Runtime} `{Stores} category condition delay
    responses st ids events :
  let '(st', w') :=
    final (Searchspring.filtered_loop category condition delay
             responses st ids events) in
  exists n,
    booked reliable (tagged category condition)
      {| script := responses; scraped_ids := ids; trace := events |} w' n
    /\ total_scraped st' = (total_scraped st + n)%nat.
Proof.
  revert st ids events.
  induction responses as [|r rest IH]; intros st ids events;
    cbn [Searchspring.filtered_loop].
  { exists 0%nat. split; [apply booked_refl|simpl; lia]. }
  destruct (Searchspring.filtered_turn category condition delay r st _)
    as [[stl|str] w1] eqn:E;
    apply filtered_turn_books in E as (Es & n & B & T).
  - exists n. split; [|exact T].
    replace n with (0 + n)%nat by reflexivity.
    eapply booked_trans; [|exact B].
    apply (get_booked _ _
             {| script := r :: rest; scraped_ids := ids; trace := events |}).
  - specialize (IH str (scraped_ids w1) (trace w1)).
    destruct (final _) as [st' w'].
    destruct IH as (n' & B' & T'). simpl in T.
    exists (n + n')%nat. split; [|lia].
    replace (n + n')%nat with (0 + (n + n'))%nat by reflexivity.
    eapply booked_trans;
      [apply (get_booked _ _
                {| script := r :: rest; scraped_ids := ids;
                   trace := events |})|].
    eapply booked_trans; [exact B|].
    destruct w1 as [s1 i1 t1]. simpl in Es. subst s1. exact B'.
Qed.

Lemma scrape_with_query_loop_books `{Py.Runtime} `{Stores} delay
    responses st ids events :
  let '(st', w') :=
    final (StampAPISegmentedScraper.scrape_with_query_loop delay
             responses st ids events) in
  exists n,
    booked reliable (tagged None None)
      {| script := responses; scraped_ids := ids; trace := events |} w' n
    /\ total_scraped st' = (total_scraped st + n)%nat.
Proof.
  revert st ids events.
  induction responses as [|r rest IH]; intros st ids events;
    cbn [StampAPISegmentedScraper.scrape_with_query_loop].
  { exists 0%nat. split; [apply booked_refl|simpl; lia]. }
  destruct (StampAPISegmentedScraper.scrape_with_query_turn delay r st _)
    as [[stl|str] w1] eqn:E;
    apply scrape_with_query_turn_books in E as (Es & n & B & T).
  - exists n. split; [|exact T].
    replace n with (0 + n)%nat by reflexivity.
    eapply booked_trans; [|exact B].
    apply (get_booked _ _
             {| script := r :: rest; scraped_ids := ids; trace := events |}).
  - specialize (IH str (scraped_ids w1) (trace w1)).
    destruct (final _) as [st' w'].
    destruct IH as (n' & B' & T'). simpl in T.
    exists (n + n')%nat. split; [|lia].
    replace (n + n')%nat with (0 + (n + n'))%nat by reflexivity.
    eapply booked_trans;
      [apply (get_booked _ _
                {| script := r :: rest; scraped_ids := ids;
                   trace := events |})|].
    eapply booked_trans; [exact B|].
    destruct w1 as [s1 i1 t1]. simpl in Es. subst s1. exact B'.
Qed.

(** ** The books of a run over all the filters *)

Section ScrapeEachBooks.
Variable scrape : string -> World SearchPage -> Outcome Loop SearchPage.
Variable exact : Prop.
Variable Q : string -> CanonicalRecord -> Prop.
Hypothesis scrape_books : forall x w,
  let '(st', w') := final (scrape x w) in
  booked exact (Q x) w w' (total_scraped st').

Lemma scrape_each_books sleep_after_last delay filters total w :
  let o := scrape_each scrape sleep_after_last delay filters total w in
  exists n,
    booked exact (fun rec => exists x, x ∈ filters /\ Q x rec)
      w (final o).2 n
    /\ (forall total' w', o = Stopped total' w' -> total' = (total + n)%nat).
Proof.
  cbv zeta. revert total w.
  induction filters as [|x rest IH]; intros total w; cbn [scrape_each].
  { exists 0%nat. split; [apply booked_refl|].
    intros ? ? [= <- <-]. lia. }
  pose proof (scrape_books x w) as B.
  assert (forall rec, Q x rec ->
            exists y, y ∈ x :: rest /\ Q y rec) as Hx.
  { intros rec HQ. exists x. split; [left|assumption]. }
  assert (forall rec, (exists y, y ∈ rest /\ Q y rec) ->
            exists y, y ∈ x :: rest /\ Q y rec) as Hrest.
  { intros rec (y & Hy & HQ). exists y. split; [now right|assumption]. }
  destruct (scrape x w) as [st w1|st w1|st w1]; simpl in B.
  - set (w2 := if match rest with
                  | [] => sleep_after_last
                  | _ :: _ => true
                  end then emit (Sleep delay) w1 else w1).
    assert (booked exact (Q x) w w2 (total_scraped st)) as B2.
    { subst w2. destruct (match rest with [] => _ | _ => _ end);
        [|exact B].
      replace (total_scraped st) with (total_scraped st + 0)%nat by lia.
      eapply booked_trans; [exact B|apply sleep_booked]. }
    destruct (IH (total + total_scraped st)%nat w2) as (n & Bn & Tn).
    exists (total_scraped st + n)%nat. split.
    + eapply booked_trans;
        [eapply booked_weaken; [exact Hx|exact B2]
        |eapply booked_weaken; [exact Hrest|exact Bn]].
    + intros total' w' E. apply Tn in E. lia.
  - exists (total_scraped st). split; [|discriminate].
    simpl. eapply booked_weaken; [exact Hx|exact B].
  - exists (total_scraped st). split; [|discriminate].
    simpl. eapply booked_weaken; [exact Hx|exact B].
Qed.

End ScrapeEachBooks.

(** ** The coordinators *)

Lemma scrape_category_books `{Py.Runtime} `{Stores} delay category w :
  let '(st', w') :=
    final (StampAPICategoryScraper.scrape_category category delay w) in
  booked reliable (tagged (Some category) None) w w' (total_scraped st').
Proof.
  unfold StampAPICategoryScraper.scrape_category.
  pose proof (filtered_loop_books (Some category) None delay (script w)
                Searchspring.initial (scraped_ids w) (trace w)) as B.
  destruct (final _) as [st' w']. destruct B as (n & B & T).
  simpl in T. subst n. destruct w. exact B.
Qed.

Lemma scrape_condition_books `{Py.Runtime} `{Stores} delay condition w :
  let '(st', w') :=
    final (StampAPIUSConditionScraper.scrape_condition condition delay w) in
  booked reliable (tagged None (Some condition)) w w' (total_scraped st').
Proof.
  unfold StampAPIUSConditionScraper.scrape_condition.
  pose proof (filtered_loop_books None (Some condition) delay (script w)
                Searchspring.initial (scraped_ids w) (trace w)) as B.
  destruct (final _) as [st' w']. destruct B as (n & B & T).
  simpl in T. subst n. destruct w. exact B.
Qed.

Lemma scrape_with_query_books `{Py.Runtime} `{Stores} delay query w :
  let '(st', w') :=
    final (StampAPISegmentedScraper.scrape_with_query query delay w) in
  booked reliable (tagged None None) w w' (total_scraped st').
Proof.
  unfold StampAPISegmentedScraper.scrape_with_query.
  pose proof (scrape_with_query_loop_books delay (script w)
                Searchspring.initial (scraped_ids w) (trace w)) as B.
  destruct (final _) as [st' w']. destruct B as (n & B & T).
  simpl in T. subst n. destruct w. exact B.
Qed.

Lemma scrape_all_categories_books `{Py.Runtime} `{Stores} delay w :
  let o := StampAPICategoryScraper.scrape_all_categories delay w in
  exists n,
    booked reliable
      (fun rec => exists c, c ∈ StampAPICategoryScraper.categories
                            /\ tagged (Some c) None rec)
      w (final o).2 n
    /\ (forall total' w', o = Stopped total' w' -> total' = n).
Proof.
  unfold StampAPICategoryScraper.scrape_all_categories.
  exact (scrape_each_books
           (fun c => StampAPICategoryScraper.scrape_category c delay)
           reliable
           (fun c => tagged (Some c) None)
           (fun c w0 => scrape_category_books delay c w0)
           false delay StampAPICategoryScraper.categories 0 w).
Qed.

Lemma scrape_all_conditions_books `{Py.Runtime} `{Stores} delay w :
  let o := StampAPIUSConditionScraper.scrape_all_conditions delay w in
  exists n,
    booked reliable
      (fun rec => exists c, c ∈ StampAPIUSConditionScraper.conditions
                            /\ tagged None (Some c) rec)
      w (final o).2 n
    /\ (forall total' w', o = Stopped total' w' -> total' = n).
Proof.
  unfold StampAPIUSConditionScraper.scrape_all_conditions.
  exact (scrape_each_books
           (fun c => StampAPIUSConditionScraper.scrape_condition c delay)
           reliable
           (fun c => tagged None (Some c))
           (fun c w0 => scrape_condition_books delay c w0)
           false delay StampAPIUSConditionScraper.conditions 0 w).
Qed.

Lemma scrape_all_segmented_books `{Py.Runtime} `{Stores} delay w :
  let o := StampAPISegmentedScraper.scrape_all_segmented delay w in
  exists n,
    booked reliable
      (fun rec => exists q, q ∈ StampAPISegmentedScraper.segments
                            /\ tagged None None rec)
      w (final o).2 n
    /\ (forall total' w', o = Stopped total' w' -> total' = n).
Proof.
  unfold StampAPISegmentedScraper.scrape_all_segmented.
  exact (scrape_each_books
           (fun q => StampAPISegmentedScraper.scrape_with_query q delay)
           reliable
           (fun _ => tagged None None)
           (fun q w0 => scrape_with_query_books delay q w0)
           true delay StampAPISegmentedScraper.segments 0 w).
Qed.

(** What the books of a run say of the records it has saved. *)
Lemma booked_saved {P} exact (Q Q' : CanonicalRecord -> Prop)
    (w w' : World P) n :
  (forall rec, Q rec -> Q' rec) ->
  booked exact Q w w' n ->
  exists events,
    trace w' = trace w ++ events
    /\ NoDup (product_id <$> saved_to_database events)
    /\ sublist (saved_to_json events) (saved_to_database events)
    /\ (exact -> saved_to_json events = saved_to_database events)
    /\ Forall (fun rec =>
                 (product_id rec ∉ scraped_ids w)
                 /\ product_id rec ∈ scraped_ids w'
                 /\ Q' rec)
              (saved_to_database events).
Proof.
  intros HQ (events & T & N & F & S & J & L & A & X).
  exists events. split; [exact T|]. split; [exact N|]. split; [exact J|].
  split; [intros Hx; apply X, Hx|].
  apply Forall_forall. intros rec Hrec.
  rewrite Forall_forall in A.
  destruct (F (product_id rec)) as [F1 F2];
    [apply list_elem_of_fmap_2, Hrec|].
  auto.
Qed.

(** X8.  [scrape_all_categories], [scrape_all_conditions] and
    [scrape_all_segmented] keep one [scraped_ids] for all their filters: a
    stamp that several categories, conditions or segments hold is saved
    at most once, and a record that is saved was not in [scraped_ids]
    when the run began and is in it when the run ends.  Every record saved
    carries one of the categories (resp. conditions) of the class and no
    condition (resp. category); the segmented scraper tags nothing.  The
    records written to the JSON file are among those written to the
    database, in order: a batch whose [save_to_json_incremental] raises is
    in the database alone, and a batch whose [save_to_database] raises is
    in neither, though its identifiers are marked.  When no save raises
    the JSON file gets the records the database gets. *)
Theorem filters_share_the_seen_set `{Py.Runtime} `{Stores}
    (delay : Q) (w : World SearchPage) :
  (let w' :=
     (final (StampAPICategoryScraper.scrape_all_categories delay w)).2 in
   exists events,
     trace w' = trace w ++ events
     /\ NoDup (product_id <$> saved_to_database events)
     /\ sublist (saved_to_json events) (saved_to_database events)
     /\ (reliable -> saved_to_json events = saved_to_database events)
     /\ Forall (fun rec =>
                  (product_id rec ∉ scraped_ids w)
                  /\ product_id rec ∈ scraped_ids w'
                  /\ condition rec = None
                  /\ exists c, c ∈ StampAPICategoryScraper.categories
                               /\ category rec = Some c)
               (saved_to_database events))
  /\
  (let w' :=
     (final (StampAPIUSConditionScraper.scrape_all_conditions delay w)).2 in
   exists events,
     trace w' = trace w ++ events
     /\ NoDup (product_id <$> saved_to_database events)
     /\ sublist (saved_to_json events) (saved_to_database events)
     /\ (reliable -> saved_to_json events = saved_to_database events)
     /\ Forall (fun rec =>
                  (product_id rec ∉ scraped_ids w)
                  /\ product_id rec ∈ scraped_ids w'
                  /\ category rec = None
                  /\ exists c, c ∈ StampAPIUSConditionScraper.conditions
                               /\ condition rec = Some c)
               (saved_to_database events))
  /\
  (let w' :=
     (final (StampAPISegmentedScraper.scrape_all_segmented delay w)).2 in
   exists events,
     trace w' = trace w ++ events
     /\ NoDup (product_id <$> saved_to_database events)
     /\ sublist (saved_to_json events) (saved_to_database events)
     /\ (reliable -> saved_to_json events = saved_to_database events)
     /\ Forall (fun rec =>
                  (product_id rec ∉ scraped_ids w)
                  /\ product_id rec ∈ scraped_ids w'
                  /\ category rec = None /\ condition rec = None)
               (saved_to_database events)).
Proof.
  split; [|split]; cbv zeta.
  - destruct (scrape_all_categories_books delay w) as (n & B & _).
    eapply booked_saved; [|exact B].
    intros rec (c & Hc & E1 & E2). eauto.
  - destruct (scrape_all_conditions_books delay w) as (n & B & _).
    eapply booked_saved; [|exact B].
    intros rec (c & Hc & E1 & E2). eauto.
  - destruct (scrape_all_segmented_books delay w) as (n & B & _).
    eapply booked_saved; [|exact B].
    intros rec (c & Hc & E1 & E2). eauto.
Qed.

Lemma filters_share_the_seen_set_witness :
  exists events,
    trace one_stamp_run_end = trace (one_stamp_run 14) ++ events
    /\ NoDup (product_id <$> saved_to_database events)
    /\ saved_to_json events = saved_to_database events.
Proof.
  assert (@StampAPICategoryScraper.scrape_all_categories example_runtime
            example_stores 1 (one_stamp_run 14)
          = Stopped 1 one_stamp_run_end) as E
    by (vm_compute; reflexivity).
  destruct (proj1 (@filters_share_the_seen_set example_runtime
                     example_stores 1 (one_stamp_run 14)))
    as (events & T & N & _ & R & _).
  rewrite E in T. cbn [final snd] in T.
  exists events. split; [exact T|]. split; [exact N|].
  exact (R (fun _ _ => eq_refl)).
Defined.

Lemma booked_size {P} exact Q (w w' : World P) n :
  booked exact Q w w' n ->
  (size (scraped_ids w) + n <= size (scraped_ids w'))%nat
  /\ (exact -> size (scraped_ids w') = (size (scraped_ids w) + n)%nat).
Proof.
  intros (events & T & N & F & S & J & L & _ & X).
  assert (list_to_set (product_id <$> saved_to_database events)
          ## scraped_ids w) as D.
  { intros x Hx. rewrite elem_of_list_to_set in Hx. now apply F. }
  pose proof (size_union _ _ D) as U.
  rewrite size_list_to_set, length_fmap in U by assumption.
  pose proof (sublist_length _ _ J) as Hl.
  split.
  - assert (list_to_set (product_id <$> saved_to_database events)
            ∪ scraped_ids w ⊆ scraped_ids w') as Hsub.
    { apply union_least; [|exact S].
      intros x Hx. rewrite elem_of_list_to_set in Hx. now apply F. }
    apply subseteq_size in Hsub. lia.
  - intros Hx. destruct (X Hx) as [I E].
    rewrite I, U, <- E. lia.
Qed.

(** X9.  Of the two totals that [scrape_all_categories],
    [scrape_all_conditions] and [scrape_all_segmented] print when they are
    done, [total_scraped] is at most [len(self.scraped_ids)] when the run
    began with no identifier seen, and they are the same number when no
    save has raised.  A batch whose save raises has its identifiers in
    [scraped_ids] and is not counted: the witness is a run that ends with
    a total of 0 and one identifier seen. *)
Theorem total_scraped_is_at_most_total_unique `{Py.Runtime} `{Stores}
    (delay : Q) (w : World SearchPage) :
  scraped_ids w = ∅ ->
  (forall total w',
     StampAPICategoryScraper.scrape_all_categories delay w
     = Stopped total w' ->
     (total <= size (scraped_ids w'))%nat
     /\ (reliable -> total = size (scraped_ids w')))
  /\ (forall total w',
        StampAPIUSConditionScraper.scrape_all_conditions delay w
        = Stopped total w' ->
        (total <= size (scraped_ids w'))%nat
        /\ (reliable -> total = size (scraped_ids w')))
  /\ (forall total w',
        StampAPISegmentedScraper.scrape_all_segmented delay w
        = Stopped total w' ->
        (total <= size (scraped_ids w'))%nat
        /\ (reliable -> total = size (scraped_ids w'))).
Proof.
  intros Hfresh. split; [|split]; intros total w' E.
  - destruct (scrape_all_categories_books delay w) as (n & B & T).
    rewrite E in B. simpl in B. apply booked_size in B as [B1 B2].
    rewrite Hfresh, size_empty in B1, B2. rewrite (T _ _ E).
    split; [lia|]. intros Hr. rewrite (B2 Hr). reflexivity.
  - destruct (scrape_all_conditions_books delay w) as (n & B & T).
    rewrite E in B. simpl in B. apply booked_size in B as [B1 B2].
    rewrite Hfresh, size_empty in B1, B2. rewrite (T _ _ E).
    split; [lia|]. intros Hr. rewrite (B2 Hr). reflexivity.
  - destruct (scrape_all_segmented_books delay w) as (n & B & T).
    rewrite E in B. simpl in B. apply booked_size in B as [B1 B2].
    rewrite Hfresh, size_empty in B1, B2. rewrite (T _ _ E).
    split; [lia|]. intros Hr. rewrite (B2 Hr). reflexivity.
Qed.

Lemma total_scraped_is_at_most_total_unique_witness :
  scraped_ids (one_stamp_run 14) = ∅
  /\ @StampAPICategoryScraper.scrape_all_categories example_runtime
       example_stores 1 (one_stamp_run 14) = Stopped 1 one_stamp_run_end
  /\ 1%nat = size (scraped_ids one_stamp_run_end)
  /\ @StampAPICategoryScraper.scrape_all_categories example_runtime
       failing_stores 1 (one_stamp_run 15)
     = Stopped 0 one_stamp_run_unsaved
  /\ (0 <= size (scraped_ids one_stamp_run_unsaved))%nat
  /\ size (scraped_ids one_stamp_run_unsaved) = 1%nat.
Proof.
  assert (@StampAPICategoryScraper.scrape_all_categories example_runtime
            example_stores 1 (one_stamp_run 14)
          = Stopped 1 one_stamp_run_end) as E
    by (vm_compute; reflexivity).
  assert (@StampAPICategoryScraper.scrape_all_categories example_runtime
            failing_stores 1 (one_stamp_run 15)
          = Stopped 0 one_stamp_run_unsaved) as E'
    by (vm_compute; reflexivity).
  split; [reflexivity|]. split; [exact E|]. split; [|split; [exact E'|]].
  - exact (proj2 (proj1 (@total_scraped_is_at_most_total_unique
                           example_runtime example_stores 1
                           (one_stamp_run 14) eq_refl)
                        1%nat one_stamp_run_end E)
                 (fun _ _ => eq_refl)).
  - split; [|vm_compute; reflexivity].
    exact (proj1 (proj1 (@total_scraped_is_at_most_total_unique
                           example_runtime failing_stores 1
                           (one_stamp_run 15) eq_refl)
                        0%nat one_stamp_run_unsaved E')).
Defined.

(** ** The table *)

Lemma known_product_id (x : string) (l : list Row) :
  existsb (fun r => String.eqb (row_product_id r) x) l = true
  <-> x ∈ (row_product_id <$> l).
Proof.
  rewrite existsb_exists, list_elem_of_fmap. split.
  - intros (r & Hr & E). apply String.eqb_eq in E.
    exists r. split; [auto|]. now apply list_elem_of_In.
  - intros (r & -> & Hr). exists r. split; [now apply list_elem_of_In|].
    apply String.eqb_refl.
Qed.

(** What one insert does to the table. *)
Lemma insert_row_rows now filter stamp t t' :
  insert_row now filter stamp t = inr t' ->
  filter_column t' = filter_column t
  /\ sequence t' = (sequence t + 1)%Z
  /\ exists url,
       image_url stamp = Py.JStr url
       /\ rows t' =
          if bool_decide (product_id stamp ∈ (row_product_id <$> rows t))
          then rows t
          else rows t
               ++ [row_of now (sequence t + 1) filter stamp url].
Proof.
  unfold insert_row.
  destruct (image_url stamp) as [| | | |u| |]; try discriminate.
  intros [= <-]. cbn [filter_column sequence rows].
  split; [reflexivity|]. split; [reflexivity|]. exists u.
  split; [reflexivity|].
  destruct (existsb _ (rows t)) eqn:E.
  - apply known_product_id in E. now rewrite bool_decide_eq_true_2.
  - rewrite bool_decide_eq_false_2; [reflexivity|].
    intros Hin. apply known_product_id in Hin. congruence.
Qed.

Lemma insert_or_ignore_rows column now stamp t t' :
  insert_or_ignore column now stamp t = inr t' ->
  filter_column t' = filter_column t
  /\ sequence t' = (sequence t + 1)%Z
  /\ exists url filter,
       image_url stamp = Py.JStr url
       /\ filter = (c ← column; filter_of c stamp)
       /\ rows t' =
          if bool_decide (product_id stamp ∈ (row_product_id <$> rows t))
          then rows t
          else rows t
               ++ [row_of now (sequence t + 1) filter stamp url].
Proof.
  unfold insert_or_ignore. destruct column as [c|].
  - destruct (filter_of c stamp) as [value|] eqn:Ef; [|discriminate].
    destruct (has_column c t); [|discriminate].
    intros E. apply insert_row_rows in E as (C & S & u & Eu & R).
    split; [exact C|]. split; [exact S|].
    exists u, (Some value). simpl. rewrite Ef. auto.
  - intros E. apply insert_row_rows in E as (C & S & u & Eu & R).
    split; [exact C|]. split; [exact S|]. exists u, None. auto.
Qed.

(** The rows a batch adds: for each stamp whose identifier is not in the
    table yet, and not earlier in the batch, one row. *)
Lemma insert_each_rows column now stamps t t' :
  insert_each column now stamps t = inr t' ->
  filter_column t' = filter_column t
  /\ sequence t' = (sequence t + Z.of_nat (length stamps))%Z
  /\ exists added,
       rows t' = rows t ++ added
       /\ (forall x, x ∈ (row_product_id <$> added) ->
                     x ∈ (product_id <$> stamps)
                     /\ x ∉ (row_product_id <$> rows t))
       /\ (forall x, x ∈ (product_id <$> stamps) ->
                     x ∈ (row_product_id <$> rows t'))
       /\ NoDup (row_product_id <$> added)
       /\ Forall (fun r => sequence t < row_id r <= sequence t')%Z added.
Proof.
  revert t. induction stamps as [|stamp rest IH]; intros t.
  - intros [= <-]. split; [reflexivity|]. split; [simpl; lia|].
    exists []. rewrite app_nil_r. simpl.
    repeat split; try constructor; set_solver.
  - cbn [insert_each].
    destruct (insert_or_ignore column now stamp t) as [e|t1] eqn:E1;
      [discriminate|].
    intros E2.
    apply insert_or_ignore_rows in E1 as (C1 & S1 & u & f & Eu & Ef & R1).
    apply IH in E2 as (C2 & S2 & added & R2 & A1 & A2 & N & B).
    split; [congruence|].
    split; [rewrite S2, S1, length_cons; lia|].
    destruct (bool_decide (product_id stamp ∈ (row_product_id <$> rows t)))
      eqn:Ein.
    + apply bool_decide_eq_true in Ein. rewrite R1 in *.
      exists added. split; [exact R2|]. split; [|split; [|split]].
      * intros x Hx. apply A1 in Hx as [H1 H2].
        split; [rewrite fmap_cons; now right|assumption].
      * intros x [->|Hx]%elem_of_cons; [|now apply A2].
        rewrite R2, fmap_app. apply elem_of_app. now left.
      * exact N.
      * eapply Forall_impl; [exact B|]. simpl. intros r. lia.
    + apply bool_decide_eq_false in Ein. rewrite R1 in *.
      set (row := row_of now (sequence t + 1) f stamp u) in *.
      exists (row :: added).
      split; [rewrite R2, <- app_assoc; reflexivity|].
      rewrite fmap_app in A1. cbn [fmap list_fmap] in A1.
      split; [|split; [|split]].
      * intros x [->|Hx]%elem_of_cons.
        -- split; [left|exact Ein].
        -- apply A1 in Hx as [H1 H2]. split; [now right|].
           intros H3. apply H2, elem_of_app. now left.
      * intros x [->|Hx]%elem_of_cons; [|now apply A2].
        rewrite R2, !fmap_app. apply elem_of_app. left.
        apply elem_of_app. right. left.
      * cbn [fmap list_fmap]. constructor; [|exact N].
        intros Hin. apply A1 in Hin as [_ H2].
        apply H2, elem_of_app. right. left.
      * constructor.
        -- subst row. cbn [row_of row_id]. lia.
        -- eapply Forall_impl; [exact B|]. simpl. intros r. lia.
Qed.

(** Whether an insert raises depends on the stamp and on the columns of
    the table, not on its rows. *)
Lemma insert_or_ignore_again column now now2 stamp t t' t2 :
  insert_or_ignore column now stamp t = inr t' ->
  filter_column t2 = filter_column t ->
  exists t2', insert_or_ignore column now2 stamp t2 = inr t2'.
Proof.
  unfold insert_or_ignore, insert_row, has_column. intros E C. rewrite C.
  destruct column as [c|].
  - destruct (filter_of c stamp); [|discriminate].
    destruct (match filter_column t with Some _ => _ | None => _ end);
      [|discriminate].
    destruct (image_url stamp); try discriminate. eauto.
  - destruct (image_url stamp); try discriminate. eauto.
Qed.

Lemma insert_each_again column now now2 stamps t t' t2 :
  insert_each column now stamps t = inr t' ->
  filter_column t2 = filter_column t ->
  exists t2', insert_each column now2 stamps t2 = inr t2'.
Proof.
  revert t t2. induction stamps as [|stamp rest IH]; intros t t2.
  - simpl. eauto.
  - cbn [insert_each].
    destruct (insert_or_ignore column now stamp t) as [|t1] eqn:E1;
      [discriminate|].
    intros E2 C.
    destruct (insert_or_ignore_again column now now2 stamp t t1 t2 E1 C)
      as (t3 & E3).
    rewrite E3. eapply IH; [exact E2|].
    apply insert_or_ignore_rows in E1 as (-> & _).
    apply insert_or_ignore_rows in E3 as (-> & _). exact C.
Qed.

(** A batch whose identifiers are all in the table adds no row. *)
Lemma insert_each_known column now stamps t t' :
  insert_each column now stamps t = inr t' ->
  (forall x, x ∈ (product_id <$> stamps) ->
             x ∈ (row_product_id <$> rows t)) ->
  rows t' = rows t.
Proof.
  intros E Hk.
  apply insert_each_rows in E as (_ & _ & added & R & A & _).
  destruct added as [|r added]; [now rewrite R, app_nil_r|].
  destruct (A (row_product_id r)) as [H1 H2]; [left|].
  exfalso. auto.
Qed.

Lemma insert_each_app column now a b t :
  insert_each column now (a ++ b) t
  = match insert_each column now a t with
    | inl e => inl e
    | inr t' => insert_each column now b t'
    end.
Proof.
  revert t. induction a as [|stamp a IH]; intros t; [reflexivity|].
  cbn [app insert_each].
  destruct (insert_or_ignore column now stamp t); [reflexivity|apply IH].
Qed.

(** X10.  A [save_to_database] that returns leaves the rows of the table as
    they were and in place, and adds rows after them: only of stamps of the
    batch, and only under identifiers the table did not have.  Every stamp
    of the batch then has its identifier in the table, and identifiers that
    were unique in the table still are. *)
Theorem save_to_database_keeps_what_is_there
    (column : option FilterColumn) (now : Z -> string)
    (stamps : list CanonicalRecord) (t : Table) (db' : option Table) :
  save_to_database column now stamps (Some t) = inr db' ->
  exists t' added,
    db' = Some t'
    /\ rows t' = rows t ++ added
    /\ (forall x, x ∈ (row_product_id <$> added) ->
                  x ∈ (product_id <$> stamps)
                  /\ x ∉ (row_product_id <$> rows t))
    /\ (forall x, x ∈ (product_id <$> stamps) ->
                  x ∈ (row_product_id <$> rows t'))
    /\ (NoDup (row_product_id <$> rows t) ->
        NoDup (row_product_id <$> rows t')).
Proof.
  intros E.
  assert (exists t', db' = Some t'
                     /\ insert_each column now stamps t = inr t')
    as (t' & -> & E').
  { unfold save_to_database in E. destruct stamps as [|stamp rest].
    - injection E as <-. eauto.
    - destruct (insert_each column now (stamp :: rest) t) as [|t'];
        [discriminate|]. injection E as <-. eauto. }
  apply insert_each_rows in E' as (_ & _ & added & R & A1 & A2 & N & _).
  exists t', added. repeat split; try assumption; try (now apply A1).
  intros N0. rewrite R, fmap_app. apply NoDup_app.
  split; [exact N0|]. split; [|exact N].
  intros x H1 H2. now apply A1 in H2.
Qed.

Lemma save_to_database_keeps_what_is_there_witness :
  save_to_database None sample_clock [norway_1] (Some sample_table)
  = inr (Some {| filter_column := None; rows := rows sample_table;
                 sequence := 2 |})
  /\ NoDup (row_product_id <$> rows sample_table).
Proof.
  assert (save_to_database None sample_clock [norway_1] (Some sample_table)
          = inr (Some {| filter_column := None; rows := rows sample_table;
                         sequence := 2 |})) as E
    by (vm_compute; reflexivity).
  split; [exact E|].
  destruct (save_to_database_keeps_what_is_there None sample_clock
              [norway_1] sample_table _ E)
    as (t' & added & [= <-] & R & _ & _ & N).
  simpl in N. simpl.
  repeat constructor. set_solver.
Defined.

(** X11.  Saving a batch a second time succeeds, adds no row and changes
    none, whenever it is done; but every ignored insert takes a value of
    the AUTOINCREMENT counter, which moves on by the size of the batch. *)
Theorem saving_again_adds_no_row
    (column : option FilterColumn) (now now' : Z -> string)
    (stamps : list CanonicalRecord) (db db1 : option Table) :
  save_to_database column now stamps db = inr db1 ->
  exists db2,
    save_to_database column now' stamps db1 = inr db2
    /\ rows_of db2 = rows_of db1
    /\ forall t1 t2, db1 = Some t1 -> db2 = Some t2 ->
         sequence t2 = (sequence t1 + Z.of_nat (length stamps))%Z.
Proof.
  unfold save_to_database. destruct stamps as [|stamp rest].
  { intros [= <-]. exists db. repeat split.
    intros t1 t2 -> [= <-]. simpl. lia. }
  destruct db as [t|];
    [|destruct column as [c|]; [destruct (filter_of c stamp)|]; discriminate].
  destruct (insert_each column now (stamp :: rest) t) as [|t1] eqn:E;
    [discriminate|].
  intros [= <-].
  pose proof (insert_each_rows _ _ _ _ _ E) as (C & _ & added & _ & _ & K & _).
  destruct (insert_each_again column now now' _ t t1 t1 E C) as (t2 & E2).
  rewrite E2. exists (Some t2). split; [reflexivity|]. split.
  - simpl. eapply insert_each_known; eassumption.
  - intros ? ? [= <-] [= <-].
    now apply insert_each_rows in E2 as (_ & S & _).
Qed.

Lemma saving_again_adds_no_row_witness :
  exists db2,
    save_to_database None sample_clock [norway_1]
      (Some {| filter_column := None; rows := rows sample_table;
               sequence := 2 |}) = inr db2
    /\ rows_of db2 = rows sample_table.
Proof.
  destruct (saving_again_adds_no_row None sample_clock sample_clock
              [norway_1] (Some sample_table)
              (Some {| filter_column := None; rows := rows sample_table;
                       sequence := 2 |}))
    as (db2 & E & R & _); [vm_compute; reflexivity|].
  exists db2. split; [exact E|exact R].
Defined.

(** ** A run and its store *)

(** On a table that is there, a batch is its inserts, empty or not. *)
Lemma save_to_database_inserts column now stamps t :
  save_to_database column now stamps (Some t)
  = match insert_each column now stamps t with
    | inl e => inl e
    | inr t' => inr (Some t')
    end.
Proof. destruct stamps; reflexivity. Qed.

(** What [save_to_json_incremental] does to the entries. *)
Lemma save_to_json_entries stamps file file' :
  save_to_json_incremental stamps file = inr file' ->
  entries file' = entries file ++ (stamp_to_json <$> stamps)
  /\ (stamps <> [] -> exists l, file' = Document (Py.JArr l)).
Proof.
  unfold save_to_json_incremental. destruct stamps as [|stamp rest].
  { intros [= <-]. simpl. rewrite app_nil_r. split; [reflexivity|].
    congruence. }
  destruct file as [| |[| | | | |l|]]; try discriminate;
    intros [= <-]; simpl; eauto.
Qed.

Lemma save_to_json_again stamps l :
  exists l',
    save_to_json_incremental stamps (Document (Py.JArr l))
    = inr (Document (Py.JArr l')).
Proof. destruct stamps; simpl; eauto. Qed.

(** The saves of a run on a table that is there: the inserts of all the
    records saved, in order; the file gains the records given to it. *)
Lemma replay_table column now events t file s' :
  replay column now events {| database := Some t; json_file := file |}
  = inr s' ->
  exists t',
    database s' = Some t'
    /\ insert_each column now (saved_to_database events) t = inr t'
    /\ entries (json_file s')
       = entries file ++ (stamp_to_json <$> saved_to_json events).
Proof.
  revert t file. induction events as [|e events IH]; intros t file.
  - intros [= <-]. exists t. simpl. rewrite app_nil_r. auto.
  - destruct e as [page|seconds|stamps|stamps]; cbn [replay saved_to_database
      saved_to_json database json_file].
    + apply IH.
    + apply IH.
    + rewrite save_to_database_inserts, insert_each_app.
      destruct (insert_each column now stamps t) as [|t1]; [discriminate|].
      apply IH.
    + destruct (save_to_json_incremental stamps file) as [|file1] eqn:E;
        [discriminate|].
      intros E'. apply IH in E' as (t' & D & I & J).
      exists t'. split; [exact D|]. split; [exact I|].
      apply save_to_json_entries in E as (E & _).
      rewrite J, E, fmap_app, app_assoc. reflexivity.
Qed.

(** A run that gives nothing to the JSON file leaves it as it is. *)
Lemma replay_database_only column now events t file :
  saved_to_json events = [] ->
  replay column now events {| database := Some t; json_file := file |}
  = match insert_each column now (saved_to_database events) t with
    | inl e => inl e
    | inr t' => inr {| database := Some t'; json_file := file |}
    end.
Proof.
  revert t. induction events as [|e events IH]; intros t J; [reflexivity|].
  destruct e as [page|seconds|stamps|stamps];
    cbn [replay saved_to_database saved_to_json database json_file] in *.
  - now apply IH.
  - now apply IH.
  - rewrite save_to_database_inserts, insert_each_app.
    destruct (insert_each column now stamps t); [reflexivity|now apply IH].
  - apply app_eq_nil in J as [-> J]. simpl. now apply IH.
Qed.

(** The inserts of records that are new to the table and differ from
    each other: one row each, in order, with the next identifiers. *)
Lemma insert_each_fresh now stamps t :
  NoDup (product_id <$> stamps) ->
  (forall x, x ∈ (product_id <$> stamps) ->
             x ∉ (row_product_id <$> rows t)) ->
  Forall text_image stamps ->
  insert_each None now stamps t
  = inr {| filter_column := filter_column t;
           rows := rows t
                   ++ imap (fun i stamp =>
                              row_of now (sequence t + 1 + Z.of_nat i) None
                                     stamp (url_of stamp)) stamps;
           sequence := sequence t + Z.of_nat (length stamps) |}.
Proof.
  revert t. induction stamps as [|stamp rest IH]; intros t N F A.
  - simpl. rewrite app_nil_r, Z.add_0_r. now destruct t.
  - cbn [insert_each insert_or_ignore].
    apply NoDup_cons in N as [N1 N2]. apply Forall_cons in A as [[u Eu] A].
    unfold insert_row. rewrite Eu.
    assert (existsb (fun r => String.eqb (row_product_id r)
                                         (product_id stamp)) (rows t)
            = false) as ->.
    { destruct (existsb _ (rows t)) eqn:E; [|reflexivity].
      apply known_product_id in E. exfalso. eapply F; [left|exact E]. }
    rewrite IH; cbn [rows sequence filter_column]; try assumption.
    + f_equal. f_equal.
      * rewrite <- app_assoc. f_equal. cbn [imap app]. f_equal.
        -- unfold row_of, url_of. rewrite Eu, Z.add_0_r. reflexivity.
        -- apply imap_ext. intros i x _. simpl. f_equal. lia.
      * rewrite length_cons. lia.
    + intros x Hx. rewrite fmap_app. intros [H|H]%elem_of_app.
      * eapply F; [right; exact Hx|exact H].
      * simpl in H. apply list_elem_of_singleton in H. subst x. auto.
Qed.

(** X12.  The main program of scraper.py on a database file that is not
    there: after [init_database] and [scrape_all], the table holds one row
    for each record the run has saved, in the order of saving, with the
    ids 1, 2, 3, ... and the columns of the record; their number is
    [total_scraped]; [export_to_json] writes these rows, in this order. *)
Theorem html_run_fills_the_table
    (delay : Q) (max_pages : option Z) (v : World (list Listing))
    (now : Z -> string) :
  trace v = [] ->
  let v' := (final (StampScraper.scrape_all delay max_pages v)).2 in
  let saved := saved_to_database (trace v') in
  let table :=
    {| filter_column := None;
       rows := imap (fun i stamp =>
                       row_of now (1 + Z.of_nat i) None stamp (url_of stamp))
                    saved;
       sequence := Z.of_nat (length saved) |} in
  replay None now (trace v')
    {| database := init_database None None; json_file := Missing |}
  = inr {| database := Some table; json_file := Missing |}
  /\ export_to_json (Some table)
     = inr (Document (Py.JArr (row_to_json None <$> rows table)))
  /\ length (rows table)
     = total_scraped (final (StampScraper.scrape_all delay max_pages v)).1.
Proof.
  intros Et. cbv zeta.
  pose proof (html_scrape_all_books delay max_pages v) as B.
  destruct (final (StampScraper.scrape_all delay max_pages v))
    as [st' v'] eqn:Ef.
  cbn [fst snd].
  destruct B as (events & T & N & F & I & J & L & A).
  rewrite Et in T. simpl in T. rewrite T.
  split; [|split].
  - unfold init_database.
    rewrite replay_database_only by exact J.
    rewrite (insert_each_fresh now (saved_to_database events)
               {| filter_column := None; rows := []; sequence := 0 |}
               N ltac:(set_solver) A).
    cbn [rows sequence filter_column app]. reflexivity.
  - reflexivity.
  - cbn [rows]. rewrite length_imap. now rewrite L.
Qed.

Lemma html_run_fills_the_table_witness :
  trace one_listing_run = []
  /\ replay None sample_clock
       (trace (final (StampScraper.scrape_all 2 None one_listing_run)).2)
       {| database := init_database None None; json_file := Missing |}
     = inr {| database :=
                Some {| filter_column := None;
                        rows := [ {| row_id := 1;
                                     row_product_id := "42";
                                     row_image_url := "https://x/img.jpg";
                                     row_stamp_number := "Norway 1";
                                     row_year := "1855";
                                     row_country := "Norway";
                                     row_price := Some Py.float_one;
                                     row_filter := None;
                                     row_scraped_at :=
                                       "2024-01-01 00:00:00" |} ];
                        sequence := 1 |};
              json_file := Missing |}.
Proof.
  split; [reflexivity|].
  destruct (html_run_fills_the_table 2 None one_listing_run sample_clock
              eq_refl) as (H & _).
  vm_compute in H |- *. exact H.
Defined.

(** [replay] succeeds when its two halves do, and then ends where they
    end. *)
Lemma replay_halves column now events s s1 :
  replay column now events s = inr s1 <->
  replay_database column now events (database s) = inr (database s1)
  /\ replay_file events (json_file s) = inr (json_file s1).
Proof.
  revert s. induction events as [|e events IH]; intros s.
  - simpl. destruct s as [d f], s1 as [d1 f1]. simpl. split.
    + intros [= <- <-]. auto.
    + intros [[= <-] [= <-]]. reflexivity.
  - destruct e as [page|seconds|stamps|stamps];
      cbn [replay replay_database replay_file]; try apply IH.
    + destruct (save_to_database column now stamps (database s)) as [|db];
        [split; [discriminate|intros [? _]; discriminate]|].
      apply (IH {| database := db; json_file := json_file s |}).
    + destruct (save_to_json_incremental stamps (json_file s)) as [|file];
        [split; [discriminate|intros [_ ?]; discriminate]|].
      apply (IH {| database := database s; json_file := file |}).
Qed.

(** The table half, on a table that is there and on one that is not. *)
Lemma replay_database_some column now events t :
  replay_database column now events (Some t)
  = match insert_each column now (saved_to_database events) t with
    | inl e => inl e
    | inr t' => inr (Some t')
    end.
Proof.
  revert t. induction events as [|e events IH]; intros t; [reflexivity|].
  destruct e as [page|seconds|stamps|stamps];
    cbn [replay_database saved_to_database]; try apply IH.
  rewrite save_to_database_inserts, insert_each_app.
  destruct (insert_each column now stamps t); [reflexivity|apply IH].
Qed.

Lemma replay_database_none column now events db1 :
  replay_database column now events None = inr db1 -> db1 = None.
Proof.
  induction events as [|e events IH]; [now intros [= <-]|].
  destruct e as [page|seconds|stamps|stamps];
    cbn [replay_database]; try apply IH.
  destruct stamps as [|stamp rest]; [apply IH|].
  cbn [save_to_database].
  destruct column as [c|]; [destruct (filter_of c stamp)|]; discriminate.
Qed.

Lemma replay_database_again column now now2 events db db1 :
  replay_database column now events db = inr db1 ->
  exists db2,
    replay_database column now2 events db1 = inr db2
    /\ rows_of db2 = rows_of db1.
Proof.
  destruct db as [t|].
  - rewrite replay_database_some.
    destruct (insert_each column now (saved_to_database events) t)
      as [|t1] eqn:E; [discriminate|].
    intros [= <-]. rewrite replay_database_some.
    pose proof (insert_each_rows _ _ _ _ _ E)
      as (C & _ & added & _ & _ & K & _).
    destruct (insert_each_again column now now2 _ t t1 t1 E C) as (t2 & E2).
    rewrite E2. exists (Some t2). split; [reflexivity|].
    simpl. eapply insert_each_known; eassumption.
  - intros E. pose proof (replay_database_none _ _ _ _ E) as ->.
    exists None. split; [|reflexivity].
    revert E. clear. induction events as [|e events IH]; [reflexivity|].
    destruct e as [page|seconds|stamps|stamps];
      cbn [replay_database]; try apply IH.
    destruct stamps as [|stamp rest]; [apply IH|].
    cbn [save_to_database].
    destruct column as [c|]; [destruct (filter_of c stamp)|]; discriminate.
Qed.

(** The file half. *)
Lemma replay_file_entries events file file1 :
  replay_file events file = inr file1 ->
  entries file1 = entries file ++ (stamp_to_json <$> saved_to_json events)
  /\ (file1 = file \/ exists l, file1 = Document (Py.JArr l)).
Proof.
  revert file. induction events as [|e events IH]; intros file.
  - intros [= <-]. simpl. rewrite app_nil_r. auto.
  - destruct e as [page|seconds|stamps|stamps];
      cbn [replay_file saved_to_json]; try apply IH.
    destruct (save_to_json_incremental stamps file) as [|file0] eqn:E;
      [discriminate|].
    intros R. apply IH in R as (J & K).
    pose proof (save_to_json_entries _ _ _ E) as (E1 & E2).
    split; [rewrite J, E1, fmap_app, app_assoc; reflexivity|].
    destruct stamps as [|stamp rest].
    + injection E as <-. exact K.
    + right. destruct K as [->|K]; [|exact K].
      apply E2. discriminate.
Qed.

Lemma replay_file_list events l :
  exists l', replay_file events (Document (Py.JArr l))
             = inr (Document (Py.JArr l')).
Proof.
  revert l. induction events as [|e events IH]; intros l; [simpl; eauto|].
  destruct e as [page|seconds|stamps|stamps];
    cbn [replay_file]; try apply IH.
  destruct (save_to_json_again stamps l) as (l' & ->). apply IH.
Qed.

Lemma replay_file_again events file file1 :
  replay_file events file = inr file1 ->
  exists file2, replay_file events file1 = inr file2.
Proof.
  intros R. pose proof (replay_file_entries _ _ _ R) as (_ & [->|(l & ->)]).
  - eauto.
  - destruct (replay_file_list events l) as (l' & E). eauto.
Qed.

(** X13.  A run of [scrape_all] of scraper_api.py appends to the JSON file
    every record it saves.  When the same pages are scraped again by a new
    process, whose [scraped_ids] is empty again, over the same two files,
    the table gains no row, and the JSON file gains every record a second
    time. *)
Theorem second_run_duplicates_the_json_file `{Py.Runtime}
    (delay : Q) (max_pages : option Z) (w : World SearchPage)
    (now now' : Z -> string) (s s1 : Store) :
  trace w = [] ->
  let events :=
    trace (final (StampAPIScraper.scrape_all delay max_pages w)).2 in
  replay None now events s = inr s1 ->
  entries (json_file s1)
  = entries (json_file s) ++ (stamp_to_json <$> saved_to_database events)
  /\ exists s2,
       replay None now' events s1 = inr s2
       /\ rows_of (database s2) = rows_of (database s1)
       /\ entries (json_file s2)
          = entries (json_file s1)
            ++ (stamp_to_json <$> saved_to_database events).
Proof.
  intros Et. cbv zeta.
  pose proof (api_scrape_all_books delay max_pages w) as B.
  destruct (final (StampAPIScraper.scrape_all delay max_pages w))
    as [st' w'] eqn:Ef.
  cbn [snd].
  destruct B as (events & T & _ & _ & _ & J & _ & _).
  rewrite Et in T. simpl in T. rewrite T.
  intros [Rd Rf]%replay_halves.
  pose proof (replay_file_entries _ _ _ Rf) as (E1 & _).
  rewrite J in E1. split; [exact E1|].
  destruct (replay_database_again None now now' _ _ _ Rd) as (db2 & Rd2 & R).
  destruct (replay_file_again _ _ _ Rf) as (file2 & Rf2).
  exists {| database := db2; json_file := file2 |}.
  split; [apply replay_halves; auto|]. split; [exact R|].
  pose proof (replay_file_entries _ _ _ Rf2) as (E2 & _).
  rewrite J in E2. exact E2.
Qed.

Lemma second_run_duplicates_the_json_file_witness :
  trace one_result_run = []
  /\ exists s1 s2,
       replay None sample_clock
         (trace (final (@StampAPIScraper.scrape_all example_runtime 1 None
                          one_result_run)).2)
         {| database := init_database None None; json_file := Missing |}
       = inr s1
       /\ replay None sample_clock
            (trace (final (@StampAPIScraper.scrape_all example_runtime 1 None
                             one_result_run)).2) s1
          = inr s2
       /\ length (rows_of (database s1)) = 1%nat
       /\ length (rows_of (database s2)) = 1%nat
       /\ length (entries (json_file s1)) = 1%nat
       /\ length (entries (json_file s2)) = 2%nat.
Proof.
  split; [reflexivity|].
  destruct (replay None sample_clock
              (trace (final (@StampAPIScraper.scrape_all example_runtime 1
                               None one_result_run)).2)
              {| database := init_database None None;
                 json_file := Missing |}) as [e|s1] eqn:R;
    [vm_compute in R; discriminate|].
  destruct (@second_run_duplicates_the_json_file example_runtime 1 None
              one_result_run sample_clock sample_clock _ s1 eq_refl R)
    as (E1 & s2 & R2 & Er & E2).
  exists s1, s2. split; [reflexivity|]. split; [exact R2|].
  assert (length (rows_of (database s1)) = 1%nat) as L1.
  { vm_compute in R. injection R as <-. reflexivity. }
  assert (length (entries (json_file s1)) = 1%nat) as L2.
  { rewrite E1. reflexivity. }
  split; [exact L1|]. split; [rewrite Er; exact L1|].
  split; [exact L2|]. rewrite E2, length_app, L2. reflexivity.
Defined.

(** ** A run whose saves raise *)

Lemma saves_nothing_refl {P} (w : World P) : saves_nothing w w.
Proof. exists []. rewrite app_nil_r. auto. Qed.

Lemma saves_nothing_trans {P} (w w1 w2 : World P) :
  saves_nothing w w1 -> saves_nothing w1 w2 -> saves_nothing w w2.
Proof.
  intros (e1 & T1 & D1 & J1) (e2 & T2 & D2 & J2).
  exists (e1 ++ e2). rewrite T2, T1, <- app_assoc.
  rewrite saved_to_database_app, saved_to_json_app, D1, D2, J1, J2. auto.
Qed.

Lemma saves_nothing_sleep {P} (w : World P) seconds :
  saves_nothing w (emit (Sleep seconds) w).
Proof. exists [Sleep seconds]. auto. Qed.

Lemma saves_nothing_get {P} (w : World P) rest page :
  saves_nothing w
    {| script := rest; scraped_ids := scraped_ids w;
       trace := trace w ++ [Get page] |}.
Proof. exists [Get page]. auto. Qed.

Lemma saves_nothing_ids (w : World SearchPage) ids :
  saves_nothing w (with_ids ids w).
Proof. exists []. cbn [with_ids trace]. rewrite app_nil_r. auto. Qed.

Section SavesRaise.
Context `{Py.Runtime} `{Stores}.
Hypothesis saves_raise : forall events stamp stamps,
  save_outcome events (stamp :: stamps) = DatabaseRaises.

Lemma filtered_turn_saves_nothing category condition delay r st w res w' :
  Searchspring.filtered_turn category condition delay r st w = (res, w') ->
  saves_nothing w w'
  /\ total_scraped (match res with inl st' | inr st' => st' end)
     = total_scraped st.
Proof.
  rewrite filtered_turn_cases. cbv zeta.
  assert (forall (st0 : Loop) (w0 : World SearchPage) res w',
    (if (3 <=? consecutive_empty st0 + 1)%nat
     then (@inl Loop Loop
             {| page_num := page_num st0 + 1;
                total_scraped := total_scraped st0;
                consecutive_empty := consecutive_empty st0 + 1 |},
           emit (Sleep delay) w0)
     else (inr {| page_num := page_num st0 + 1;
                  total_scraped := total_scraped st0;
                  consecutive_empty := consecutive_empty st0 + 1 |},
           emit (Sleep delay) w0)) = (res, w') ->
    saves_nothing w0 w'
    /\ total_scraped (match res with inl st' | inr st' => st' end)
       = total_scraped st0) as Hexc.
  { intros st0 w0 res0 w0'.
    destruct (3 <=? consecutive_empty st0 + 1)%nat;
      intros [= <- <-]; (split; [apply saves_nothing_sleep|reflexivity]). }
  destruct r as [|status body]; [apply Hexc|].
  destruct (status =? 429)%Z;
    [intros [= <- <-]; split; [apply saves_nothing_sleep|reflexivity]|].
  destruct (status =? 200)%Z;
    [|intros [= <- <-]; split; [apply saves_nothing_refl|reflexivity]].
  destruct body as [data|]; [|apply Hexc].
  destruct (results data) as [|result others] eqn:Er.
  { unfold Searchspring.filtered_turn. rewrite Er.
    cbn [consecutive_empty page_num total_scraped].
    destruct (2 <=? consecutive_empty st + 1)%nat; intros [= <- <-];
      (split; [first [apply saves_nothing_refl|apply saves_nothing_sleep]
              |reflexivity]). }
  destruct (extract_each (Searchspring.extract_stamp_data category condition)
              (results data) (scraped_ids w)) as [stamps ids] eqn:Ex.
  rewrite (filtered_turn_page category condition delay data st w stamps ids)
    by (congruence || assumption).
  cbv zeta. destruct stamps as [|stamp stamps].
  - destruct (_ <=? _)%Z; intros [= <- <-];
      (split; [|reflexivity]).
    + apply saves_nothing_ids.
    + eapply saves_nothing_trans;
        [apply saves_nothing_ids|apply saves_nothing_sleep].
  - rewrite saves_raise. intros [= <- <-]. split; [|reflexivity].
    eapply saves_nothing_trans;
      [apply saves_nothing_ids|apply saves_nothing_sleep].
Qed.

Lemma filtered_loop_saves_nothing category condition delay
    responses st ids events :
  let '(st', w') :=
    final (Searchspring.filtered_loop category condition delay
             responses st ids events) in
  saves_nothing
    {| script := responses; scraped_ids := ids; trace := events |} w'
  /\ total_scraped st' = total_scraped st.
Proof.
  revert st ids events.
  induction responses as [|r rest IH]; intros st ids events;
    cbn [Searchspring.filtered_loop final].
  - split; [apply saves_nothing_refl|reflexivity].
  - pose proof (saves_nothing_get
                  {| script := r :: rest; scraped_ids := ids;
                     trace := events |} rest (page_num st)) as G.
    cbn [scraped_ids trace] in G.
    destruct (Searchspring.filtered_turn category condition delay r st _)
      as [[stl|str] w1] eqn:E;
      apply filtered_turn_saves_nothing in E as [E Et]; cbn [final].
    + split; [eapply saves_nothing_trans; eassumption|exact Et].
    + specialize (IH str (scraped_ids w1) (trace w1)).
      destruct (final _) as [st' w'].
      destruct IH as [IH IHt]. split; [|congruence].
      eapply saves_nothing_trans; [exact G|].
      eapply saves_nothing_trans; [exact E|].
      destruct IH as (e & T & D & J). exists e. auto.
Qed.

Lemma scrape_category_saves_nothing delay category w :
  let '(st', w') :=
    final (StampAPICategoryScraper.scrape_category category delay w) in
  saves_nothing w w' /\ total_scraped st' = 0%nat.
Proof.
  unfold StampAPICategoryScraper.scrape_category.
  pose proof (filtered_loop_saves_nothing (Some category) None delay
                (script w) Searchspring.initial (scraped_ids w) (trace w))
    as B.
  destruct (final _) as [st' w']. destruct B as [(e & T & D & J) Bt].
  split; [exists e; auto|exact Bt].
Qed.

End SavesRaise.

Section ScrapeEachSavesNothing.
Variable scrape : string -> World SearchPage -> Outcome Loop SearchPage.
Hypothesis scrape_saves_nothing : forall x w,
  let '(st', w') := final (scrape x w) in
  saves_nothing w w' /\ total_scraped st' = 0%nat.

Lemma scrape_each_saves_nothing sleep_after_last delay filters total w :
  let '(total', w') :=
    final (scrape_each scrape sleep_after_last delay filters total w) in
  saves_nothing w w' /\ total' = total.
Proof.
  revert total w.
  induction filters as [|x rest IH]; intros total w; cbn [scrape_each].
  - split; [apply saves_nothing_refl|reflexivity].
  - pose proof (scrape_saves_nothing x w) as B.
    destruct (scrape x w) as [st w1|st w1|st w1]; cbn [final] in B |- *;
      destruct B as [B Bt]; [|split; [exact B|reflexivity]..].
    match goal with |- context [scrape_each _ _ _ _ ?n ?w2] =>
      specialize (IH n w2) end.
    destruct (final _) as [total' w'].
    destruct IH as [I It]. split; [|lia].
    eapply saves_nothing_trans; [exact B|].
    eapply saves_nothing_trans; [|exact I].
    destruct (match rest with [] => sleep_after_last | _ :: _ => true end);
      [apply saves_nothing_sleep|apply saves_nothing_refl].
Qed.

End ScrapeEachSavesNothing.

(** ** A table without the column of the INSERT *)

Lemma save_to_database_needs_the_column c now stamp stamps db :
  (forall t, db = Some t -> has_column c t = false) ->
  exists e, save_to_database (Some c) now (stamp :: stamps) db = inl e.
Proof.
  intros Hc. unfold save_to_database.
  destruct db as [t|].
  - cbn [insert_each]. unfold insert_or_ignore.
    destruct (filter_of c stamp); [|eauto].
    rewrite (Hc t eq_refl). eauto.
  - destruct (filter_of c stamp); eauto.
Qed.

Lemma replay_keeps_the_table_without_column c now events s s' :
  (forall t, database s = Some t -> has_column c t = false) ->
  replay (Some c) now events s = inr s' ->
  forall t, database s' = Some t -> has_column c t = false.
Proof.
  revert s.
  induction events as [|e events IH]; intros s Hc; cbn [replay].
  - intros [= <-]. exact Hc.
  - destruct e as [page|seconds|stamps|stamps]; try (apply IH; assumption).
    + destruct stamps as [|stamp stamps].
      * cbn [save_to_database]. apply IH. exact Hc.
      * destruct (save_to_database_needs_the_column c now stamp stamps
                    (database s) Hc) as [e ->].
        discriminate.
    + destruct (save_to_json_incremental stamps (json_file s)) as [|file];
        [discriminate|].
      apply IH. exact Hc.
Qed.

Lemma stores_from_raise c now s events stamp stamps :
  (forall t, database s = Some t -> has_column c t = false) ->
  @save_outcome (stores_from (Some c) now s) events (stamp :: stamps)
  = DatabaseRaises.
Proof.
  intros Hc. unfold save_outcome, stores_from.
  destruct (replay (Some c) now events s) as [|s'] eqn:E; [reflexivity|].
  destruct (save_to_database_needs_the_column c now stamp stamps
              (database s')
              (replay_keeps_the_table_without_column c now events s s'
                 Hc E)) as [e ->].
  reflexivity.
Qed.

Lemma replay_app column now a b s :
  replay column now (a ++ b) s
  = match replay column now a s with
    | inl e => inl e
    | inr s1 => replay column now b s1
    end.
Proof.
  revert s. induction a as [|e a IH]; intros s; [reflexivity|].
  destruct e as [page|seconds|stamps|stamps]; cbn [app replay];
    try apply IH.
  - destruct (save_to_database column now stamps (database s));
      [reflexivity|apply IH].
  - destruct (save_to_json_incremental stamps (json_file s));
      [reflexivity|apply IH].
Qed.

Lemma replay_without_saves column now events s :
  saved_to_database events = [] ->
  saved_to_json events = [] ->
  replay column now events s = inr s.
Proof.
  induction events as [|e events IH]; [reflexivity|].
  destruct e as [page|seconds|stamps|stamps];
    cbn [saved_to_database saved_to_json replay]; try exact IH.
  - intros [-> D]%app_eq_nil J. cbn [save_to_database].
    destruct s as [d f]. apply IH; assumption.
  - intros D [-> J]%app_eq_nil. cbn [save_to_json_incremental].
    destruct s as [d f]. apply IH; assumption.
Qed.



(** ** Requests and sleeps *)

Lemma rested_after_app r a b :
  rested_after r (a ++ b) = rested_after (rested_after r a) b.
Proof.
  revert r. induction a as [|[] a IH]; intros r; simpl; auto.
Qed.

Lemma paced_app delay r a b :
  paced delay r (a ++ b)
  <-> paced delay r a /\ paced delay (rested_after r a) b.
Proof.
  revert r. induction a as [|[] a IH]; intros r; simpl;
    rewrite ?IH; tauto.
Qed.

Lemma paced_rested delay r events :
  paced delay r events -> paced delay true events.
Proof.
  revert r. induction events as [|[] events IH]; intros r; simpl; eauto.
  tauto.
Qed.

Lemma rested_after_rested r events :
  rested_after false events = true -> rested_after r events = true.
Proof.
  revert r. induction events as [|[] events IH]; intros r; simpl; auto.
  discriminate.
Qed.

Lemma paced_any delay r events :
  paced delay false events -> paced delay r events.
Proof. destruct r; [apply paced_rested|auto]. Qed.

Lemma adds_paced_refl {P} delay before (w : World P) :
  adds_paced delay before false w w.
Proof.
  exists []. rewrite app_nil_r. repeat split. discriminate.
Qed.

(** A step that rests, then a step that may start with a request. *)
Lemma adds_paced_then {P} delay before rests (w w1 w2 : World P) :
  adds_paced delay before true w w1 ->
  adds_paced delay true rests w1 w2 ->
  adds_paced delay before rests w w2.
Proof.
  intros (e1 & T1 & P1 & R1) (e2 & T2 & P2 & R2).
  exists (e1 ++ e2). rewrite T2, T1, app_assoc. split; [reflexivity|].
  split.
  - apply paced_app. split; [exact P1|].
    rewrite (rested_after_rested before e1) by auto. exact P2.
  - intros E. rewrite rested_after_app. apply rested_after_rested; auto.
Qed.

(** A step, then a step that makes no request before it sleeps. *)
Lemma adds_paced_quiet {P} delay before rests rests' (w w1 w2 : World P) :
  adds_paced delay before rests w w1 ->
  adds_paced delay false rests' w1 w2 ->
  adds_paced delay before rests' w w2.
Proof.
  intros (e1 & T1 & P1 & R1) (e2 & T2 & P2 & R2).
  exists (e1 ++ e2). rewrite T2, T1, app_assoc. split; [reflexivity|].
  split.
  - apply paced_app. split; [exact P1|]. apply paced_any, P2.
  - intros E. rewrite rested_after_app. apply rested_after_rested; auto.
Qed.

Lemma adds_paced_weaken {P} delay before rests (w w' : World P) :
  adds_paced delay before rests w w' ->
  adds_paced delay true false w w'.
Proof.
  intros (e & T & Pe & _). exists e. split; [exact T|].
  split; [eapply paced_rested, Pe|discriminate].
Qed.

Ltac pace :=
  first
    [ apply adds_paced_refl
    | exists []; split;
      [ cbn [trace emit with_ids]; rewrite app_nil_r; reflexivity
      | split; [exact I|discriminate] ]
    | eexists; split;
      [ cbn [trace emit with_ids]; rewrite <- ?app_assoc; reflexivity
      | split; [simpl; auto|simpl; auto; try discriminate] ] ].

Lemma sleep_paced {P} delay (w : World P) :
  adds_paced delay false true w (emit (Sleep delay) w).
Proof. pace. Qed.

Lemma request_paced {P} delay page (w : World P) r w1 :
  request page w = Some (r, w1) -> adds_paced delay true false w w1.
Proof.
  unfold request. destruct (script w); [discriminate|].
  intros [= <- <-]. pace.
Qed.

(** ** The loop of [scrape_all] *)

Section PlainLoopPaced.
Context {P : Type}.
Variable scrape_page :
  Z -> World P -> option (list CanonicalRecord * World P).
Variable save : list CanonicalRecord -> World P -> World P.
Variable json : bool.
Variable delay : Q.

Hypothesis scrape_page_paced : forall page w stamps w1,
  scrape_page page w = Some (stamps, w1) ->
  adds_paced delay true false w w1.
Hypothesis save_trace : forall stamps w,
  trace (save stamps w)
  = trace w ++ SaveToDatabase stamps
               :: (if json then [SaveToJson stamps] else []).

Local Abbreviation turn := (PlainLoop.scrape_all_turn scrape_page save).
Local Abbreviation loop := (PlainLoop.scrape_all_loop scrape_page save).

Lemma save_paced stamps w : adds_paced delay false false w (save stamps w).
Proof.
  eexists. split; [apply save_trace|].
  destruct json; simpl; split; auto; discriminate.
Qed.

Lemma scrape_all_turn_paced max_pages st w r w' :
  turn delay max_pages st w = Some (r, w') ->
  adds_paced delay true (match r with inl _ => false | inr _ => true end)
    w w'.
Proof.
  unfold PlainLoop.scrape_all_turn.
  destruct (PlainLoop.over_limit max_pages (page_num st)).
  { intros [= <- <-]. pace. }
  destruct (scrape_page (page_num st) w) as [[stamps w1]|] eqn:Ep;
    [|discriminate].
  cbn [mbind option_bind].
  apply scrape_page_paced in Ep.
  destruct stamps as [|stamp stamps].
  - cbn [consecutive_empty].
    destruct (3 <=? consecutive_empty st + 1)%nat; intros [= <- <-].
    + exact Ep.
    + eapply adds_paced_quiet; [exact Ep|apply sleep_paced].
  - cbn [consecutive_empty Nat.leb]. intros [= <- <-].
    eapply adds_paced_quiet; [|apply sleep_paced].
    eapply adds_paced_quiet; [exact Ep|apply save_paced].
Qed.

Lemma scrape_all_loop_paced fuel max_pages st w :
  adds_paced delay true false w
    (final (loop fuel delay max_pages st w)).2.
Proof.
  revert st w. induction fuel as [|fuel IH]; intros st w;
    cbn [PlainLoop.scrape_all_loop]; [pace|].
  destruct (turn delay max_pages st w) as [[[stl|str] w1]|] eqn:E;
    [| |pace]; apply scrape_all_turn_paced in E.
  - exact E.
  - eapply adds_paced_then; [exact E|apply IH].
Qed.

End PlainLoopPaced.

(** What a page adds to the trace in scraper_api.py and in scraper.py. *)
Lemma api_scrape_page_trace `{Py.Runtime} page w stamps w1 :
  StampAPIScraper.scrape_page page w = Some (stamps, w1) ->
  trace w1 = trace w ++ [Get page]
  \/ trace w1 = trace w ++ [Get page; Sleep 30; Get page].
Proof.
  unfold StampAPIScraper.scrape_page, request.
  destruct (script w) as [|r rest] eqn:Es; [discriminate|].
  cbn [mbind option_bind].
  set (w0 := {| script := rest; scraped_ids := scraped_ids w;
                trace := trace w ++ [Get page] |}).
  assert (forall r0, Some (StampAPIScraper.read_response r0 w0)
                     = Some (stamps, w1) ->
            trace w1 = trace w ++ [Get page]
            \/ trace w1 = trace w ++ [Get page; Sleep 30; Get page])
    as Hread.
  { intros r0 [= E]. apply api_read_response_fresh in E as (T & _).
    left. exact T. }
  destruct r as [|status body]; [apply Hread|].
  destruct status as [|p|p]; try apply Hread.
  repeat (destruct p as [p|p|]; try apply Hread).
  cbn [emit script scraped_ids trace].
  destruct rest as [|r' rest']; [discriminate|].
  cbn [mbind option_bind].
  intros [= E]. apply api_read_response_fresh in E as (T & _).
  right. rewrite T. simpl. rewrite <- !app_assoc. reflexivity.
Qed.

Lemma html_scrape_page_trace page w stamps w1 :
  StampScraper.scrape_page page w = Some (stamps, w1) ->
  trace w1 = trace w ++ [Get page].
Proof.
  unfold StampScraper.scrape_page, request.
  destruct (script w) as [|r rest] eqn:Es; [discriminate|].
  cbn [mbind option_bind].
  destruct r as [|status [listings|]]; try (now intros [= <- <-]).
  - destruct (raises_for_status status); [now intros [= <- <-]|].
    cbn [scraped_ids].
    destruct (extract_each StampScraper.extract_stamp_data listings
                (scraped_ids w)) as [out ids'].
    now intros [= <- <-].
  - destruct (raises_for_status status); now intros [= <- <-].
Qed.

Lemma api_scrape_page_paced `{Py.Runtime} delay page w stamps w1 :
  StampAPIScraper.scrape_page page w = Some (stamps, w1) ->
  adds_paced delay true false w w1.
Proof.
  intros [T|T]%api_scrape_page_trace; eexists; (split; [exact T|]);
    simpl; auto 10.
Qed.

Lemma html_scrape_page_paced delay page w stamps w1 :
  StampScraper.scrape_page page w = Some (stamps, w1) ->
  adds_paced delay true false w w1.
Proof.
  intros T%html_scrape_page_trace; eexists; (split; [exact T|]).
  simpl. auto.
Qed.

(** X15.  A run of [scrape_all], in scraper_api.py and in scraper.py, never
    sends two requests without sleeping between them, however the requests
    are answered; and it sleeps for [delay] seconds, or for the 30 seconds
    that follow a response 429, and for no other time. *)
Theorem requests_are_paced `{Py.Runtime} (delay : Q) (max_pages : option Z)
    (w : World SearchPage) (v : World (list Listing)) :
  (exists events,
     trace (final (StampAPIScraper.scrape_all delay max_pages w)).2
     = trace w ++ events
     /\ paced delay true events)
  /\ (exists events,
        trace (final (StampScraper.scrape_all delay max_pages v)).2
        = trace v ++ events
        /\ paced delay true events).
Proof.
  split.
  - destruct (scrape_all_loop_paced StampAPIScraper.scrape_page
                StampAPIScraper.save true delay
                (api_scrape_page_paced delay)
                ltac:(intros; unfold StampAPIScraper.save, emit; simpl;
                      rewrite <- app_assoc; reflexivity)
                (S (length (script w))) max_pages PlainLoop.initial w)
      as (events & T & Pe & _).
    exists events. split; [exact T|exact Pe].
  - destruct (scrape_all_loop_paced StampScraper.scrape_page
                StampScraper.save false delay
                (html_scrape_page_paced delay)
                ltac:(reflexivity)
                (S (length (script v))) max_pages PlainLoop.initial v)
      as (events & T & Pe & _).
    exists events. split; [exact T|exact Pe].
Qed.

(** ** The filtered and the segmented loops *)

Lemma filtered_turn_paced `{Py.Runtime} `{Stores} category condition delay r st w
    res w' :
  Searchspring.filtered_turn category condition delay r st w = (res, w') ->
  adds_paced delay false (match res with inl _ => false | inr _ => true end)
    w w'.
Proof.
  rewrite filtered_turn_cases. cbv zeta.
  assert (forall res w',
    (if (3 <=? consecutive_empty st + 1)%nat
     then (inl {| page_num := page_num st + 1;
                  total_scraped := total_scraped st;
                  consecutive_empty := consecutive_empty st + 1 |},
           emit (Sleep delay) w)
     else (inr {| page_num := page_num st + 1;
                  total_scraped := total_scraped st;
                  consecutive_empty := consecutive_empty st + 1 |},
           emit (Sleep delay) w)) = (res, w') ->
    adds_paced delay false
      (match res with inl _ => false | inr _ => true end) w w') as Hexc.
  { intros res0 w0. cbn [consecutive_empty].
    destruct (3 <=? consecutive_empty st + 1)%nat;
      intros [= <- <-]; pace. }
  destruct r as [|status body]; [apply Hexc|].
  destruct (status =? 429)%Z; [intros [= <- <-]; pace|].
  destruct (status =? 200)%Z; [|intros [= <- <-]; pace].
  destruct body as [data|]; [|apply Hexc].
  unfold Searchspring.filtered_turn.
  destruct (results data) as [|result results] eqn:Er.
  { cbn [consecutive_empty].
    destruct (2 <=? consecutive_empty st + 1)%nat;
      intros [= <- <-]; pace. }
  destruct (extract_each (Searchspring.extract_stamp_data category condition)
              (result :: results) (scraped_ids w)) as [stamps ids].
  destruct stamps as [|stamp stamps];
    [|destruct (save_outcome _ _); cbn [consecutive_empty Nat.add Nat.leb]];
    try destruct (_ <=? _)%Z; intros [= <- <-]; pace.
Qed.

Lemma scrape_with_query_turn_paced `{Py.Runtime} `{Stores} delay r st w res w' :
  StampAPISegmentedScraper.scrape_with_query_turn delay r st w = (res, w') ->
  adds_paced delay false (match res with inl _ => false | inr _ => true end)
    w w'.
Proof.
  rewrite scrape_with_query_turn_cases.
  destruct r as [|status body]; [intros [= <- <-]; pace|].
  destruct (status =? 429)%Z; [intros [= <- <-]; pace|].
  destruct (status =? 200)%Z; [|intros [= <- <-]; pace].
  destruct body as [data|]; [|intros [= <- <-]; pace].
  unfold StampAPISegmentedScraper.scrape_with_query_turn.
  destruct (results data) as [|result results] eqn:Er;
    [intros [= <- <-]; pace|].
  unfold StampAPISegmentedScraper.extract_stamp_data.
  match goal with |- context [extract_each ?f ?xs ?i] =>
    destruct (extract_each f xs i) as [stamps ids] end.
  destruct stamps as [|stamp stamps].
  - cbn [consecutive_empty page_num total_scraped].
    destruct (3 <=? consecutive_empty st + 1)%nat;
      [|destruct (_ <=? _)%Z]; intros [= <- <-]; pace.
  - destruct (save_outcome _ _);
      cbn [consecutive_empty page_num total_scraped Nat.leb];
      try destruct (_ <=? _)%Z; intros [= <- <-]; pace.
Qed.

Lemma get_paced {P} delay (w : World P) rest page :
  adds_paced delay true false w
    {| script := rest; scraped_ids := scraped_ids w;
       trace := trace w ++ [Get page] |}.
Proof. pace. Qed.

Lemma filtered_loop_paced `{Py.Runtime} `{Stores} category condition delay
    responses st ids events :
  adds_paced delay true false
    {| script := responses; scraped_ids := ids; trace := events |}
    (final (Searchspring.filtered_loop category condition delay
              responses st ids events)).2.
Proof.
  revert st ids events.
  induction responses as [|r rest IH]; intros st ids events;
    cbn [Searchspring.filtered_loop]; [pace|].
  destruct (Searchspring.filtered_turn category condition delay r st _)
    as [[stl|str] w1] eqn:E; apply filtered_turn_paced in E.
  - eapply adds_paced_quiet; [|exact E].
    apply (get_paced delay
             {| script := r :: rest; scraped_ids := ids; trace := events |}).
  - specialize (IH str (scraped_ids w1) (trace w1)).
    destruct IH as (e2 & T2 & P2 & _).
    eapply adds_paced_then; [|exists e2; split; [exact T2|split; [exact P2|discriminate]]].
    eapply adds_paced_quiet; [|exact E].
    apply (get_paced delay
             {| script := r :: rest; scraped_ids := ids; trace := events |}).
Qed.

Lemma scrape_with_query_loop_paced `{Py.Runtime} `{Stores} delay
    responses st ids events :
  adds_paced delay true false
    {| script := responses; scraped_ids := ids; trace := events |}
    (final (StampAPISegmentedScraper.scrape_with_query_loop delay
              responses st ids events)).2.
Proof.
  revert st ids events.
  induction responses as [|r rest IH]; intros st ids events;
    cbn [StampAPISegmentedScraper.scrape_with_query_loop]; [pace|].
  destruct (StampAPISegmentedScraper.scrape_with_query_turn delay r st _)
    as [[stl|str] w1] eqn:E; apply scrape_with_query_turn_paced in E.
  - eapply adds_paced_quiet; [|exact E].
    apply (get_paced delay
             {| script := r :: rest; scraped_ids := ids; trace := events |}).
  - specialize (IH str (scraped_ids w1) (trace w1)).
    destruct IH as (e2 & T2 & P2 & _).
    eapply adds_paced_then; [|exists e2; split; [exact T2|split; [exact P2|discriminate]]].
    eapply adds_paced_quiet; [|exact E].
    apply (get_paced delay
             {| script := r :: rest; scraped_ids := ids; trace := events |}).
Qed.

(** ** A run over all the filters *)

Section ScrapeEachPaced.
Variable scrape : string -> World SearchPage -> Outcome Loop SearchPage.
Variable delay : Q.
Hypothesis scrape_paced : forall x w,
  adds_paced delay true false w (final (scrape x w)).2.

Lemma scrape_each_paced sleep_after_last filters total w :
  adds_paced delay true false w
    (final (scrape_each scrape sleep_after_last delay filters total w)).2.
Proof.
  revert total w.
  induction filters as [|x rest IH]; intros total w; cbn [scrape_each];
    [pace|].
  pose proof (scrape_paced x w) as B.
  destruct (scrape x w) as [st w1|st w1|st w1]; simpl in B;
    [|exact B..].
  destruct rest as [|y rest].
  - cbn [scrape_each]. destruct sleep_after_last; [|exact B].
    eapply adds_paced_weaken.
    eapply adds_paced_quiet; [exact B|apply sleep_paced].
  - eapply adds_paced_then; [|apply IH].
    eapply adds_paced_quiet; [exact B|apply sleep_paced].
Qed.

End ScrapeEachPaced.

(** X16.  The same holds of a whole run of [scrape_all_categories], of
    [scrape_all_conditions] and of [scrape_all_segmented], across the
    filters: no two requests without a sleep between them, the last
    request for a filter and the first for the next included, and no sleep
    but for [delay] or for 30 seconds. *)
Theorem filters_are_paced `{Py.Runtime} `{Stores} (delay : Q) (w : World SearchPage) :
  (exists events,
     trace (final (StampAPICategoryScraper.scrape_all_categories delay w)).2
     = trace w ++ events
     /\ paced delay true events)
  /\ (exists events,
        trace (final (StampAPIUSConditionScraper.scrape_all_conditions
                        delay w)).2
        = trace w ++ events
        /\ paced delay true events)
  /\ (exists events,
        trace (final (StampAPISegmentedScraper.scrape_all_segmented
                        delay w)).2
        = trace w ++ events
        /\ paced delay true events).
Proof.
  assert (forall w0 : World SearchPage,
            {| script := script w0; scraped_ids := scraped_ids w0;
               trace := trace w0 |} = w0) as Eta by (now intros []).
  assert (forall scrape flag filters,
            (forall x w0, adds_paced delay true false w0
                            (final (scrape x w0)).2) ->
            exists events,
              trace (final (scrape_each scrape flag delay filters 0 w)).2
              = trace w ++ events
              /\ paced delay true events) as Hall.
  { intros scrape flag filters Hs.
    destruct (scrape_each_paced scrape delay Hs flag filters 0%nat w)
      as (events & T & Pe & _).
    exists events. split; [exact T|exact Pe]. }
  split; [|split].
  - unfold StampAPICategoryScraper.scrape_all_categories.
    apply Hall. intros x w0.
    unfold StampAPICategoryScraper.scrape_category.
    rewrite <- (Eta w0) at 1. apply filtered_loop_paced.
  - unfold StampAPIUSConditionScraper.scrape_all_conditions.
    apply Hall. intros x w0.
    unfold StampAPIUSConditionScraper.scrape_condition.
    rewrite <- (Eta w0) at 1. apply filtered_loop_paced.
  - unfold StampAPISegmentedScraper.scrape_all_segmented.
    apply Hall. intros x w0.
    unfold StampAPISegmentedScraper.scrape_with_query.
    rewrite <- (Eta w0) at 1. apply scrape_with_query_loop_paced.
Qed.

(** ** The pages a loop asks for *)

Lemma ascending_next p q pages :
  q = p \/ q = (p + 1)%Z -> starts_at q pages -> ascending p pages.
Proof.
  destruct pages as [|x rest]; [auto|]. simpl.
  intros Hq [-> A].
  split; [exact Hq|]. exact A.
Qed.

Lemma ascending_again p pages : ascending p pages -> ascending p (p :: pages).
Proof. simpl. auto. Qed.

Section PlainLoopPages.
Context {P : Type}.
Variable scrape_page :
  Z -> World P -> option (list CanonicalRecord * World P).
Variable save : list CanonicalRecord -> World P -> World P.

Hypothesis scrape_page_requests : forall page w stamps w1,
  scrape_page page w = Some (stamps, w1) ->
  exists events,
    trace w1 = trace w ++ events
    /\ (requested events = [page] \/ requested events = [page; page]).
Hypothesis save_requests : forall stamps w,
  exists events,
    trace (save stamps w) = trace w ++ events /\ requested events = [].

Local Abbreviation turn := (PlainLoop.scrape_all_turn scrape_page save).
Local Abbreviation loop := (PlainLoop.scrape_all_loop scrape_page save).

Lemma scrape_all_turn_pages delay max_pages st w r w' :
  turn delay max_pages st w = Some (r, w') ->
  exists events,
    trace w' = trace w ++ events
    /\ ((requested events = [] /\ exists st', r = inl st')
        \/ PlainLoop.over_limit max_pages (page_num st) = false
           /\ (requested events = [page_num st]
               \/ requested events = [page_num st; page_num st]))
    /\ match r with
       | inl _ => True
       | inr st' => page_num st' = (page_num st + 1)%Z
       end.
Proof.
  unfold PlainLoop.scrape_all_turn.
  destruct (PlainLoop.over_limit max_pages (page_num st)).
  { intros [= <- <-]. exists []. rewrite app_nil_r.
    split; [reflexivity|]. split; [left; eauto|exact I]. }
  destruct (scrape_page (page_num st) w) as [[stamps w1]|] eqn:Ep;
    [|discriminate].
  cbn [mbind option_bind].
  apply scrape_page_requests in Ep as (e & T & R).
  assert (exists e2 w2,
            trace w2 = trace w ++ e ++ e2 /\ requested e2 = []
            /\ forall r w',
                 (let '(st1, w2) :=
                    match stamps with
                    | _ :: _ =>
                        ({| page_num := page_num st;
                            total_scraped := total_scraped st + length stamps;
                            consecutive_empty := 0 |},
                         save stamps w1)
                    | [] =>
                        ({| page_num := page_num st;
                            total_scraped := total_scraped st;
                            consecutive_empty := consecutive_empty st + 1 |},
                         w1)
                    end in
                  if (3 <=? consecutive_empty st1)%nat
                  then Some (inl st1, w2)
                  else
                    Some (inr {| page_num := page_num st1 + 1;
                                 total_scraped := total_scraped st1;
                                 consecutive_empty := consecutive_empty st1 |},
                          emit (Sleep delay) w2)) = Some (r, w') ->
                 (w' = w2 \/ w' = emit (Sleep delay) w2)
                 /\ match r with
                    | inl _ => True
                    | inr st' => page_num st' = (page_num st + 1)%Z
                    end) as (e2 & w2 & T2 & R2 & Hres).
  { destruct stamps as [|stamp stamps].
    - exists [], w1. rewrite app_nil_r. repeat split; auto;
        revert H; cbn [consecutive_empty page_num];
        destruct (3 <=? _)%nat; intros [= <- <-]; auto.
    - destruct (save_requests (stamp :: stamps) w1) as (e2 & T2 & R2).
      exists e2, (save (stamp :: stamps) w1).
      rewrite T2, T, app_assoc. repeat split; auto;
        revert H; cbn [consecutive_empty Nat.leb page_num];
        intros [= <- <-]; auto. }
  intros E. apply Hres in E as [[->| ->] Hr].
  - exists (e ++ e2). split; [exact T2|].
    rewrite requested_app, R2, app_nil_r. auto.
  - exists (e ++ e2 ++ [Sleep delay]). split.
    + simpl. rewrite T2, <- !app_assoc. reflexivity.
    + rewrite !requested_app, R2. simpl. rewrite app_nil_r. auto.
Qed.

Lemma over_limit_bound m page :
  m <> 0%Z -> PlainLoop.over_limit (Some m) page = false -> (page <= m)%Z.
Proof.
  unfold PlainLoop.over_limit. intros Hm.
  destruct (Z.eqb_spec m 0); [contradiction|]. simpl. lia.
Qed.

Lemma scrape_all_loop_pages fuel delay max_pages st w :
  exists events,
    trace (final (loop fuel delay max_pages st w)).2 = trace w ++ events
    /\ starts_at (page_num st) (requested events)
    /\ forall m, max_pages = Some m -> m <> 0%Z ->
         Forall (fun p => (p <= m)%Z) (requested events).
Proof.
  revert st w. induction fuel as [|fuel IH]; intros st w;
    cbn [PlainLoop.scrape_all_loop].
  { exists []. rewrite app_nil_r. simpl. auto. }
  destruct (turn delay max_pages st w) as [[[stl|str] w1]|] eqn:E.
  3:{ exists []. rewrite app_nil_r. simpl. auto. }
  - apply scrape_all_turn_pages in E as (e & T & R & _).
    exists e. split; [exact T|].
    destruct R as [[-> _]|[L [-> | ->]]]; simpl; (split; [auto|]);
      intros m -> Hm; repeat constructor;
      eapply over_limit_bound; eassumption.
  - apply scrape_all_turn_pages in E as (e & T & R & Hp).
    destruct (IH str w1) as (e' & T' & S' & B').
    exists (e ++ e'). split;
      [simpl in *; rewrite T', T, app_assoc; reflexivity|].
    rewrite requested_app. rewrite Hp in S'.
    assert (ascending (page_num st) (requested e')) as A
      by (eapply ascending_next; [right; reflexivity|exact S']).
    destruct R as [[_ (? & [=])]|[L [-> | ->]]]; simpl.
    + split; [auto|]. intros m -> Hm. constructor; [|eauto].
      eapply over_limit_bound; eassumption.
    + split; [auto|]. intros m -> Hm.
      repeat constructor; eauto; eapply over_limit_bound; eassumption.
Qed.

Lemma scrape_all_loop_zero fuel delay st w :
  loop fuel delay (Some 0%Z) st w = loop fuel delay None st w.
Proof.
  revert st w. induction fuel as [|fuel IH]; intros st w; [reflexivity|].
  cbn [PlainLoop.scrape_all_loop].
  change (turn delay (Some 0%Z) st w) with (turn delay None st w).
  destruct (turn delay None st w) as [[[stl|str] w1]|]; auto.
Qed.

End PlainLoopPages.

Lemma api_scrape_page_requests `{Py.Runtime} page w stamps w1 :
  StampAPIScraper.scrape_page page w = Some (stamps, w1) ->
  exists events,
    trace w1 = trace w ++ events
    /\ (requested events = [page] \/ requested events = [page; page]).
Proof.
  intros [T|T]%api_scrape_page_trace; eexists; (split; [exact T|]); auto.
Qed.

Lemma html_scrape_page_requests page w stamps w1 :
  StampScraper.scrape_page page w = Some (stamps, w1) ->
  exists events,
    trace w1 = trace w ++ events
    /\ (requested events = [page] \/ requested events = [page; page]).
Proof.
  intros T%html_scrape_page_trace; eexists; (split; [exact T|]); auto.
Qed.

(** X17.  [scrape_all], in scraper_api.py and in scraper.py, asks for the
    pages in order: page 1 first, and after a page the same page again or
    the next one.  With a [max_pages] other than 0 no page beyond
    [max_pages] is asked for, and none at all when [max_pages] is
    negative.  [max_pages = 0] is no limit: the run is that of
    [max_pages = None]. *)
Theorem max_pages_bounds_the_pages `{Py.Runtime} (delay : Q)
    (max_pages : option Z) (w : World SearchPage)
    (v : World (list Listing)) :
  (exists events,
     trace (final (StampAPIScraper.scrape_all delay max_pages w)).2
     = trace w ++ events
     /\ starts_at 1 (requested events)
     /\ forall m, max_pages = Some m -> m <> 0%Z ->
          Forall (fun p => (p <= m)%Z) (requested events))
  /\ (exists events,
        trace (final (StampScraper.scrape_all delay max_pages v)).2
        = trace v ++ events
        /\ starts_at 1 (requested events)
        /\ forall m, max_pages = Some m -> m <> 0%Z ->
             Forall (fun p => (p <= m)%Z) (requested events))
  /\ StampAPIScraper.scrape_all delay (Some 0%Z) w
     = StampAPIScraper.scrape_all delay None w
  /\ StampScraper.scrape_all delay (Some 0%Z) v
     = StampScraper.scrape_all delay None v.
Proof.
  split; [|split; [|split]].
  - apply (scrape_all_loop_pages StampAPIScraper.scrape_page
             StampAPIScraper.save api_scrape_page_requests).
    intros stamps w0. eexists. split.
    + unfold StampAPIScraper.save, emit. simpl.
      rewrite <- app_assoc. reflexivity.
    + reflexivity.
  - apply (scrape_all_loop_pages StampScraper.scrape_page
             StampScraper.save html_scrape_page_requests).
    intros stamps w0. eexists. split; reflexivity.
  - apply scrape_all_loop_zero.
  - apply scrape_all_loop_zero.
Qed.

Lemma max_pages_bounds_the_pages_witness :
  exists events,
    trace (final (@StampAPIScraper.scrape_all example_runtime 1
                    (Some 1%Z) one_result_run)).2
    = trace one_result_run ++ events
    /\ Forall (fun p => (p <= 1)%Z) (requested events).
Proof.
  destruct (@max_pages_bounds_the_pages example_runtime 1 (Some 1%Z)
              one_result_run one_listing_run)
    as ((events & T & _ & B) & _).
  exists events. split; [exact T|].
  apply (B 1%Z); [reflexivity|lia].
Defined.

(** ** The pages of the filtered and the segmented loops *)

Ltac quiet :=
  first
    [ exists []; split;
      [ cbn [trace emit with_ids]; rewrite app_nil_r; reflexivity
      | split; [reflexivity|simpl; auto] ]
    | eexists; split;
      [ cbn [trace emit with_ids]; rewrite <- ?app_assoc; reflexivity
      | split; [reflexivity|simpl; auto] ] ].

Lemma filtered_turn_pages `{Py.Runtime} `{Stores} category condition delay r st w
    res w' :
  Searchspring.filtered_turn category condition delay r st w = (res, w') ->
  exists events,
    trace w' = trace w ++ events
    /\ requested events = []
    /\ match res with
       | inl _ => True
       | inr st' => page_num st' = page_num st
                    \/ page_num st' = (page_num st + 1)%Z
       end.
Proof.
  rewrite filtered_turn_cases. cbv zeta.
  assert (forall res w',
    (if (3 <=? consecutive_empty st + 1)%nat
     then (inl {| page_num := page_num st + 1;
                  total_scraped := total_scraped st;
                  consecutive_empty := consecutive_empty st + 1 |},
           emit (Sleep delay) w)
     else (inr {| page_num := page_num st + 1;
                  total_scraped := total_scraped st;
                  consecutive_empty := consecutive_empty st + 1 |},
           emit (Sleep delay) w)) = (res, w') ->
    exists events,
      trace w' = trace w ++ events
      /\ requested events = []
      /\ match res with
         | inl _ => True
         | inr st' => page_num st' = page_num st
                      \/ page_num st' = (page_num st + 1)%Z
         end) as Hexc.
  { intros res0 w0. cbn [consecutive_empty].
    destruct (3 <=? consecutive_empty st + 1)%nat;
      intros [= <- <-]; quiet. }
  destruct r as [|status body]; [apply Hexc|].
  destruct (status =? 429)%Z; [intros [= <- <-]; quiet|].
  destruct (status =? 200)%Z; [|intros [= <- <-]; quiet].
  destruct body as [data|]; [|apply Hexc].
  unfold Searchspring.filtered_turn.
  destruct (results data) as [|result results] eqn:Er.
  { cbn [consecutive_empty].
    destruct (2 <=? consecutive_empty st + 1)%nat;
      intros [= <- <-]; quiet. }
  destruct (extract_each (Searchspring.extract_stamp_data category condition)
              (result :: results) (scraped_ids w)) as [stamps ids].
  destruct stamps as [|stamp stamps];
    [|destruct (save_outcome _ _); cbn [consecutive_empty Nat.add Nat.leb]];
    try destruct (_ <=? _)%Z; intros [= <- <-]; quiet.
Qed.

Lemma scrape_with_query_turn_pages `{Py.Runtime} `{Stores} delay r st w res w' :
  StampAPISegmentedScraper.scrape_with_query_turn delay r st w = (res, w') ->
  exists events,
    trace w' = trace w ++ events
    /\ requested events = []
    /\ match res with
       | inl _ => True
       | inr st' => page_num st' = page_num st
                    \/ page_num st' = (page_num st + 1)%Z
       end.
Proof.
  rewrite scrape_with_query_turn_cases.
  destruct r as [|status body]; [intros [= <- <-]; quiet|].
  destruct (status =? 429)%Z; [intros [= <- <-]; quiet|].
  destruct (status =? 200)%Z; [|intros [= <- <-]; quiet].
  destruct body as [data|]; [|intros [= <- <-]; quiet].
  unfold StampAPISegmentedScraper.scrape_with_query_turn.
  destruct (results data) as [|result results] eqn:Er;
    [intros [= <- <-]; quiet|].
  unfold StampAPISegmentedScraper.extract_stamp_data.
  match goal with |- context [extract_each ?f ?xs ?i] =>
    destruct (extract_each f xs i) as [stamps ids] end.
  destruct stamps as [|stamp stamps].
  - cbn [consecutive_empty page_num total_scraped].
    destruct (3 <=? consecutive_empty st + 1)%nat;
      [|destruct (_ <=? _)%Z]; intros [= <- <-]; quiet.
  - destruct (save_outcome _ _);
      cbn [consecutive_empty page_num total_scraped Nat.leb];
      try destruct (_ <=? _)%Z; intros [= <- <-]; quiet.
Qed.

Lemma filtered_loop_pages `{Py.Runtime} `{Stores} category condition delay
    responses st ids events :
  exists added,
    trace (final (Searchspring.filtered_loop category condition delay
                    responses st ids events)).2 = events ++ added
    /\ starts_at (page_num st) (requested added).
Proof.
  revert st ids events.
  induction responses as [|r rest IH]; intros st ids events;
    cbn [Searchspring.filtered_loop].
  { exists []. rewrite app_nil_r. split; [reflexivity|exact I]. }
  destruct (Searchspring.filtered_turn category condition delay r st _)
    as [[stl|str] w1] eqn:E;
    apply filtered_turn_pages in E as (e & T & R & Hp);
    cbn [trace] in T.
  - exists (Get (page_num st) :: e). split.
    + simpl. rewrite T, <- app_assoc. reflexivity.
    + simpl. rewrite R. auto.
  - destruct (IH str (scraped_ids w1) (trace w1)) as (e' & T' & S').
    exists (Get (page_num st) :: e ++ e'). split.
    + rewrite T', T, <- !app_assoc. reflexivity.
    + simpl. rewrite requested_app, R. simpl. split; [reflexivity|].
      eapply ascending_next; eassumption.
Qed.

Lemma scrape_with_query_loop_pages `{Py.Runtime} `{Stores} delay
    responses st ids events :
  exists added,
    trace (final (StampAPISegmentedScraper.scrape_with_query_loop delay
                    responses st ids events)).2 = events ++ added
    /\ starts_at (page_num st) (requested added).
Proof.
  revert st ids events.
  induction responses as [|r rest IH]; intros st ids events;
    cbn [StampAPISegmentedScraper.scrape_with_query_loop].
  { exists []. rewrite app_nil_r. split; [reflexivity|exact I]. }
  destruct (StampAPISegmentedScraper.scrape_with_query_turn delay r st _)
    as [[stl|str] w1] eqn:E;
    apply scrape_with_query_turn_pages in E as (e & T & R & Hp);
    cbn [trace] in T.
  - exists (Get (page_num st) :: e). split.
    + simpl. rewrite T, <- app_assoc. reflexivity.
    + simpl. rewrite R. auto.
  - destruct (IH str (scraped_ids w1) (trace w1)) as (e' & T' & S').
    exists (Get (page_num st) :: e ++ e'). split.
    + rewrite T', T, <- !app_assoc. reflexivity.
    + simpl. rewrite requested_app, R. simpl. split; [reflexivity|].
      eapply ascending_next; eassumption.
Qed.

(** X18.  [scrape_category], [scrape_condition] and [scrape_with_query] ask
    for the pages of their filter in order, whatever the answers: page 1
    first, and after a page the same page again or the next one. *)
Theorem filter_pages_are_requested_in_order `{Py.Runtime} `{Stores}
    (filter : string) (delay : Q) (w : World SearchPage) :
  (exists events,
     trace (final (StampAPICategoryScraper.scrape_category filter delay w)).2
     = trace w ++ events
     /\ starts_at 1 (requested events))
  /\ (exists events,
        trace (final (StampAPIUSConditionScraper.scrape_condition
                        filter delay w)).2
        = trace w ++ events
        /\ starts_at 1 (requested events))
  /\ (exists events,
        trace (final (StampAPISegmentedScraper.scrape_with_query
                        filter delay w)).2
        = trace w ++ events
        /\ starts_at 1 (requested events)).
Proof.
  split; [|split].
  - apply filtered_loop_pages.
  - apply filtered_loop_pages.
  - apply scrape_with_query_loop_pages.
Qed.

(** ** The records of the product pages *)

(** What the last steps of [extract_product_data] make of the four
    values in hand, in scraper_product_pages.py and in
    scraper_direct_navigation.py. *)
Lemma product_record_shape (pid : option string) (url y c raw : string)
    (pr : spec_float) (ids ids' : gset string) (rec : CanonicalRecord) :
  (if nonempty pid then default "" pid ∉ ids else True) ->
  ids' = (if nonempty pid then {[default "" pid]} ∪ ids else ids) ->
  url <> "" -> Py.str_contains placeholder url = false ->
  (exists text, year_and_country text = inr (y, c)) ->
  Py.is_empty c = false ->
  Py.str_isdigit (Py.str_strip (Py.str_remove "#" raw)) = true ->
  rec = {| product_id :=
             if nonempty pid then default "" pid
             else c +:+ "_" +:+ Py.str_strip (Py.str_remove "#" raw);
           image_url := Py.JStr url;
           stamp_number :=
             c +:+ " " +:+ Py.str_strip (Py.str_remove "#" raw);
           year := y;
           country := c;
           price := pr;
           category := None;
           condition := None |} ->
  exists number url,
    Py.str_isdigit number = true
    /\ stamp_number rec = country rec +:+ " " +:+ number
    /\ is_valid_stamp_number (stamp_number rec) = true
    /\ country rec <> ""
    /\ String.length (year rec) = 4%nat
    /\ Py.forallb_str Py.isdecimal (year rec) = true
    /\ image_url rec = Py.JStr url
    /\ url <> ""
    /\ Py.str_contains placeholder url = false
    /\ product_id rec <> ""
    /\ ((product_id rec ∉ ids) /\ ids' = {[product_id rec]} ∪ ids
        \/ product_id rec = country rec +:+ "_" +:+ number /\ ids' = ids).
Proof.
  intros Hnew -> Hu Hp (text & Ey) Hc Hd ->.
  apply year_and_country_inr in Ey as (L & D & _ & _).
  exists (Py.str_strip (Py.str_remove "#" raw)), url.
  cbn [product_id image_url stamp_number year country].
  split; [exact Hd|]. split; [reflexivity|]. split.
  { unfold is_valid_stamp_number. rewrite strip_tokens.
    erewrite (last_token_of _ (c +:+ " ") _ "");
      [exact Hd| |exact Hd|reflexivity|].
    - rewrite append_empty_r, <- append_assoc. reflexivity.
    - right. exists c, " "%char. split; reflexivity. }
  split; [intros ->; discriminate|].
  split; [exact L|]. split; [exact D|]. split; [reflexivity|].
  split; [exact Hu|]. split; [exact Hp|].
  destruct (nonempty pid) eqn:En.
  - split; [|left; split; [exact Hnew|reflexivity]].
    destruct pid as [[|x s]|]; discriminate.
  - split; [|right; split; reflexivity].
    destruct c; discriminate.
Qed.

Lemma image_gate (image_url : option string) (url : string) :
  (if negb (nonempty image_url) then inl NoImage
   else if Py.str_contains placeholder (default "" image_url)
        then inl NoImage
        else inr (default "" image_url)) = inr url ->
  url <> "" /\ Py.str_contains placeholder url = false.
Proof.
  destruct (nonempty image_url) eqn:En; [|discriminate]. cbn [negb].
  destruct (Py.str_contains placeholder (default "" image_url)) eqn:Ep;
    [discriminate|].
  intros [= <-]. split; [|exact Ep].
  destruct image_url as [[|x s]|]; discriminate.
Qed.

Lemma title_gate (title : option string) (y c : string) :
  match title with
  | None => inl NoYear
  | Some text =>
      let title_text := Py.str_strip text in
      if Py.is_empty title_text then inl NoYear
      else
        match year_and_country title_text with
        | inl r => inl r
        | inr (year, country) =>
            if Py.is_empty country then inl NoCountry
            else inr (year, country)
        end
  end = inr (y, c) ->
  (exists text, year_and_country text = inr (y, c))
  /\ Py.is_empty c = false.
Proof.
  destruct title as [text|]; [|discriminate]. cbv zeta.
  destruct (Py.is_empty (Py.str_strip text)); [discriminate|].
  destruct (year_and_country (Py.str_strip text)) as [|[y' c']] eqn:E;
    [discriminate|].
  destruct (Py.is_empty c') eqn:Ec; [discriminate|].
  intros [= <- <-]. eauto.
Qed.

Lemma number_gate (heading : option string) (raw : string) :
  match heading with
  | None => inl InvalidCatalogNumber
  | Some text =>
      let stamp_number_raw := Py.str_strip text in
      if Py.is_empty stamp_number_raw then inl InvalidCatalogNumber
      else if StampProductScraper.is_valid_stamp_number stamp_number_raw
      then inr stamp_number_raw
      else inl InvalidCatalogNumber
  end = inr raw ->
  Py.str_isdigit (Py.str_strip (Py.str_remove "#" raw)) = true.
Proof.
  destruct heading as [text|]; [|discriminate]. cbv zeta.
  destruct (Py.is_empty (Py.str_strip text)); [discriminate|].
  destruct (StampProductScraper.is_valid_stamp_number (Py.str_strip text))
    eqn:E; [|discriminate].
  intros [= <-]. exact E.
Qed.

(** An accepted page has passed its gates. *)
Lemma product_page_accepts page ids rec ids' :
  StampProductScraper.extract_product_data page ids = (inr rec, ids') ->
  exists pid url y c raw pr,
    (if nonempty pid then default "" pid ∉ ids else True)
    /\ ids' = (if nonempty pid then {[default "" pid]} ∪ ids else ids)
    /\ StampProductScraper.extract_image_url page = inr url
    /\ StampProductScraper.extract_year_country page = inr (y, c)
    /\ StampProductScraper.extract_stamp_number page = inr raw
    /\ rec = {| product_id :=
                  if nonempty pid then default "" pid
                  else c +:+ "_" +:+ Py.str_strip (Py.str_remove "#" raw);
                image_url := Py.JStr url;
                stamp_number :=
                  c +:+ " " +:+ Py.str_strip (Py.str_remove "#" raw);
                year := y;
                country := c;
                price := pr;
                category := None;
                condition := None |}.
Proof.
  unfold StampProductScraper.extract_product_data,
    StampProductScraper.get_product_id.
  set (pid := match nextProducts page with
              | Some attribute => attribute
              | None => None
              end).
  intros E. exists pid. revert E.
  unfold bind, ret, reject_if, reject, gate, is_scraped, mark_scraped.
  destruct (StampProductScraper.extract_image_url page) as [|url];
    [destruct (nonempty pid); [destruct (bool_decide _)|]; discriminate|].
  destruct (StampProductScraper.extract_year_country page) as [|[y c]];
    [destruct (nonempty pid); [destruct (bool_decide _)|]; discriminate|].
  destruct (StampProductScraper.extract_stamp_number page) as [|raw];
    [destruct (nonempty pid); [destruct (bool_decide _)|]; discriminate|].
  destruct (StampProductScraper.extract_price page) as [|pr];
    [destruct (nonempty pid); [destruct (bool_decide _)|]; discriminate|].
  destruct (nonempty pid) eqn:En.
  - destruct (bool_decide (default "" pid ∈ ids)) eqn:Ed; [discriminate|].
    apply bool_decide_eq_false in Ed.
    cbv beta iota zeta delta [ret]. rewrite En. intros [= <- <-].
    exists url, y, c, raw, pr. auto 10.
  - cbv beta iota zeta delta [ret]. rewrite En. intros [= <- <-].
    exists url, y, c, raw, pr. auto 10.
Qed.

Lemma direct_page_accepts page ids rec ids' :
  DirectStampProductScraper.extract_product_data page ids
  = (inr rec, ids') ->
  exists pid url y c raw pr,
    (if nonempty pid then default "" pid ∉ ids else True)
    /\ ids' = (if nonempty pid then {[default "" pid]} ∪ ids else ids)
    /\ DirectStampProductScraper.extract_image_url page = inr url
    /\ DirectStampProductScraper.extract_year_country page = inr (y, c)
    /\ DirectStampProductScraper.extract_stamp_number page = inr raw
    /\ rec = {| product_id :=
                  if nonempty pid then default "" pid
                  else c +:+ "_" +:+ Py.str_strip (Py.str_remove "#" raw);
                image_url := Py.JStr url;
                stamp_number :=
                  c +:+ " " +:+ Py.str_strip (Py.str_remove "#" raw);
                year := y;
                country := c;
                price := pr;
                category := None;
                condition := None |}.
Proof.
  unfold DirectStampProductScraper.extract_product_data,
    DirectStampProductScraper.get_product_id.
  destruct (direct_h1_title page) as [title|] eqn:Et;
    [|unfold bind, reject; discriminate].
  set (pid := match direct_nextProducts page with
              | Some attribute => attribute
              | None => None
              end).
  intros E. exists pid. revert E.
  unfold bind, ret, reject_if, reject, gate, is_scraped, mark_scraped.
  destruct (DirectStampProductScraper.extract_image_url page) as [|url];
    [destruct (nonempty pid); [destruct (bool_decide _)|]; discriminate|].
  destruct (DirectStampProductScraper.extract_year_country page)
    as [|[y c]];
    [destruct (nonempty pid); [destruct (bool_decide _)|]; discriminate|].
  destruct (DirectStampProductScraper.extract_stamp_number page) as [|raw];
    [destruct (nonempty pid); [destruct (bool_decide _)|]; discriminate|].
  destruct (DirectStampProductScraper.extract_price page) as [|pr];
    [destruct (nonempty pid); [destruct (bool_decide _)|]; discriminate|].
  destruct (nonempty pid) eqn:En.
  - destruct (bool_decide (default "" pid ∈ ids)) eqn:Ed; [discriminate|].
    apply bool_decide_eq_false in Ed.
    cbv beta iota zeta delta [ret]. rewrite En. intros [= <- <-].
    exists url, y, c, raw, pr. auto 10.
  - cbv beta iota zeta delta [ret]. rewrite En. intros [= <- <-].
    exists url, y, c, raw, pr. auto 10.
Qed.

(** X19.  Every record [extract_product_data] returns, in
    scraper_product_pages.py and in scraper_direct_navigation.py, is well
    formed: its catalogue number is its country, a space, and a word on
    which [str.isdigit] holds, and so passes the [is_valid_stamp_number] of
    the list scrapers; its country is non-empty, its year four digits; its
    image is a non-empty address without the placeholder; its identifier is
    non-empty, and is either new and now in [scraped_ids], or the country
    and the number joined by an underscore, with [scraped_ids] left as it
    was. *)
Theorem product_page_record_is_well_formed
    (page : ProductPage) (direct : DirectPage)
    (ids ids' : gset string) (rec : CanonicalRecord) :
  StampProductScraper.extract_product_data page ids = (inr rec, ids')
  \/ DirectStampProductScraper.extract_product_data direct ids
     = (inr rec, ids') ->
  exists number url,
    Py.str_isdigit number = true
    /\ stamp_number rec = country rec +:+ " " +:+ number
    /\ is_valid_stamp_number (stamp_number rec) = true
    /\ country rec <> ""
    /\ String.length (year rec) = 4%nat
    /\ Py.forallb_str Py.isdecimal (year rec) = true
    /\ image_url rec = Py.JStr url
    /\ url <> ""
    /\ Py.str_contains placeholder url = false
    /\ product_id rec <> ""
    /\ ((product_id rec ∉ ids) /\ ids' = {[product_id rec]} ∪ ids
        \/ product_id rec = country rec +:+ "_" +:+ number /\ ids' = ids).
Proof.
  intros [E|E].
  - apply product_page_accepts in E
      as (pid & url & y & c & raw & pr & Hn & Hi & E1 & E2 & E3 & Hr).
    unfold StampProductScraper.extract_image_url in E1.
    destruct (match zoomImg page with Some _ => _ | None => _ end)
      as [found|]; [|discriminate].
    apply image_gate in E1 as [Hu Hp].
    apply title_gate in E2 as [Hy Hc].
    apply number_gate in E3.
    eapply product_record_shape; eassumption.
  - apply direct_page_accepts in E
      as (pid & url & y & c & raw & pr & Hn & Hi & E1 & E2 & E3 & Hr).
    apply image_gate in E1 as [Hu Hp].
    apply title_gate in E2 as [Hy Hc].
    apply number_gate in E3.
    eapply product_record_shape; eassumption.
Qed.

Lemma product_page_record_is_well_formed_witness :
  exists number,
    Py.str_isdigit number = true
    /\ "Norway 1" = "Norway" +:+ " " +:+ number
    /\ is_valid_stamp_number "Norway 1" = true.
Proof.
  destruct (product_page_record_is_well_formed page_without_identifier
              direct_page_without_identifier ∅ ∅
              {| product_id := "Norway_1";
                 image_url := Py.JStr "https://x/a.jpg";
                 stamp_number := "Norway 1";
                 year := "1855";
                 country := "Norway";
                 price := Py.float_one;
                 category := None;
                 condition := None |})
    as (number & url & Hd & Hs & Hv & _);
    [left; vm_compute; reflexivity|].
  exists number. auto.
Defined.

(** ** The loop over the product pages *)

Lemma saved_stamps_app a b :
  saved_stamps (a ++ b) = saved_stamps a ++ saved_stamps b.
Proof.
  induction a as [|[] a IH]; simpl; rewrite ?IH; reflexivity.
Qed.

Lemma visited_app a b : visited (a ++ b) = visited a ++ visited b.
Proof.
  induction a as [|[] a IH]; simpl; rewrite ?IH; reflexivity.
Qed.

Section ProductLoopCounts.
Context {P : Type}.
Variable extract_product_data : P -> Extract CanonicalRecord.
Variable next_product : option NextButton -> bool * list Action.
Variable on_site : string -> Prop.

Hypothesis next_product_saves : forall button,
  saved_stamps (next_product button).2 = [].
Hypothesis next_product_visits : forall button,
  Forall on_site (visited (next_product button).2).

Local Abbreviation loop :=
  (ProductLoop.scrape_all_loop extract_product_data next_product).

Lemma at_limit_bound m total :
  m <> 0%Z -> ProductLoop.at_limit (Some m) total = false ->
  (Z.of_nat total < m)%Z.
Proof.
  unfold ProductLoop.at_limit. intros Hm.
  destruct (Z.eqb_spec m 0); [contradiction|]. simpl. lia.
Qed.

Lemma scrape_all_loop_counts max_products pages st ids actions :
  let r := loop max_products pages st ids actions in
  let st' := run_counts r in
  let b' := run_browser r in
  (ProductLoop.product_count st' + ProductLoop.total_scraped st
   + ProductLoop.skipped_count st
   = ProductLoop.product_count st + ProductLoop.total_scraped st'
     + ProductLoop.skipped_count st')%nat
  /\ (ProductLoop.product_count st'
      <= ProductLoop.product_count st + length pages)%nat
  /\ (exists added,
        ProductLoop.actions b' = actions ++ added
        /\ (ProductLoop.total_scraped st'
            = ProductLoop.total_scraped st + length (saved_stamps added))%nat
        /\ Forall on_site (visited added))
  /\ (forall m, max_products = Some m -> m <> 0%Z ->
        (Z.of_nat (ProductLoop.total_scraped st) <= Z.max m 0)%Z ->
        (Z.of_nat (ProductLoop.total_scraped st') <= Z.max m 0)%Z).
Proof.
  cbv zeta. revert st ids actions.
  induction pages as [|[page button] rest IH]; intros st ids actions;
    cbn [ProductLoop.scrape_all_loop];
    destruct (ProductLoop.at_limit max_products
                (ProductLoop.total_scraped st)) eqn:El;
    try (cbn [run_counts run_browser ProductLoop.actions];
         repeat split; try lia; auto;
         exists []; rewrite app_nil_r; simpl; repeat split; auto; lia).
  destruct (extract_product_data page ids) as [[r|stamp] ids1].
  - pose proof (next_product_saves button) as Hs.
    pose proof (next_product_visits button) as Hv.
    destruct (next_product button) as [[] step]; cbn [snd] in Hs, Hv.
    + match goal with |- context [loop _ _ ?s ?i ?a] =>
        specialize (IH s i a) end.
      destruct IH as (C & L & (added & A & T & V) & B).
      cbn [ProductLoop.product_count ProductLoop.total_scraped
           ProductLoop.skipped_count] in *.
      split; [lia|]. split; [simpl; lia|]. split.
      * exists (step ++ added).
        split; [rewrite A, <- app_assoc; reflexivity|]. split.
        -- rewrite T, saved_stamps_app, Hs. reflexivity.
        -- rewrite visited_app. apply Forall_app; auto.
      * intros m Em Hm Hb. eauto.
    + cbn [run_counts run_browser ProductLoop.actions
           ProductLoop.product_count ProductLoop.total_scraped
           ProductLoop.skipped_count length].
      split; [lia|]. split; [lia|]. split; [|auto].
      exists step. rewrite Hs. split; [reflexivity|].
      split; [simpl; lia|exact Hv].
  - pose proof (next_product_saves button) as Hs.
    pose proof (next_product_visits button) as Hv.
    assert (forall m, max_products = Some m -> m <> 0%Z ->
              (Z.of_nat (ProductLoop.total_scraped st + 1) <= Z.max m 0)%Z)
      as Hb1.
    { intros m -> Hm. pose proof (at_limit_bound m _ Hm El). lia. }
    destruct (next_product button) as [[] step]; cbn [snd] in Hs, Hv.
    + match goal with |- context [loop _ _ ?s ?i ?a] =>
        specialize (IH s i a) end.
      destruct IH as (C & L & (added & A & T & V) & B).
      cbn [ProductLoop.product_count ProductLoop.total_scraped
           ProductLoop.skipped_count] in *.
      split; [lia|]. split; [simpl; lia|]. split.
      * exists ([Save stamp] ++ step ++ added).
        split; [rewrite A, <- !app_assoc; reflexivity|]. split.
        -- rewrite T, !saved_stamps_app, Hs. simpl. lia.
        -- rewrite !visited_app. simpl. apply Forall_app; auto.
      * intros m Em Hm Hb. eauto.
    + cbn [run_counts run_browser ProductLoop.actions
           ProductLoop.product_count ProductLoop.total_scraped
           ProductLoop.skipped_count length].
      split; [lia|]. split; [lia|]. split.
      * exists ([Save stamp] ++ step).
        split; [rewrite <- app_assoc; reflexivity|]. split.
        -- rewrite saved_stamps_app, Hs. simpl. lia.
        -- rewrite visited_app. simpl. exact Hv.
      * intros m Em Hm _. eauto.
Qed.

Lemma product_loop_zero pages st ids actions :
  loop (Some 0%Z) pages st ids actions = loop None pages st ids actions.
Proof.
  revert st ids actions.
  induction pages as [|[page button] rest IH]; intros st ids actions;
    cbn [ProductLoop.scrape_all_loop ProductLoop.at_limit Z.eqb negb andb];
    [reflexivity|].
  destruct (extract_product_data page ids) as [[r|stamp] ids1];
    destruct (next_product button) as [[] step]; auto.
Qed.

End ProductLoopCounts.

Lemma click_next_button_saves button :
  saved_stamps (StampProductScraper.click_next_button button).2 = [].
Proof.
  unfold StampProductScraper.click_next_button.
  destruct button as [[[class|] href raises]|]; cbn; try reflexivity.
  destruct (Py.str_contains "disable" class); [reflexivity|].
  destruct (negb (nonempty href) || _); reflexivity.
Qed.

Lemma get_next_url_on_site button url :
  DirectStampProductScraper.get_next_url button = Some url ->
  Py.str_contains "mysticstamp.com" url = true.
Proof.
  unfold DirectStampProductScraper.get_next_url.
  destruct button as [[[class|] href raises]|]; cbn [button_class button_href];
    try discriminate.
  destruct (Py.str_contains "disable" class); [discriminate|].
  destruct (negb (nonempty href)) eqn:En; [discriminate|].
  destruct (String.eqb (default "" href) "#"); [discriminate|].
  cbn [orb].
  destruct (Py.str_contains "mysticstamp.com" (default "" href)) eqn:Es;
    [|discriminate].
  cbn [negb]. intros ->. exact Es.
Qed.

Lemma direct_next_product_saves button :
  saved_stamps (DirectStampProductScraper.next_product button).2 = [].
Proof.
  unfold DirectStampProductScraper.next_product.
  destruct (DirectStampProductScraper.get_next_url button) as [url|];
    [|reflexivity].
  destruct (Py.is_empty url); reflexivity.
Qed.

Lemma direct_next_product_visits button :
  Forall (fun url => Py.str_contains "mysticstamp.com" url = true)
    (visited (DirectStampProductScraper.next_product button).2).
Proof.
  unfold DirectStampProductScraper.next_product.
  destruct (DirectStampProductScraper.get_next_url button) as [url|] eqn:E;
    [|constructor].
  destruct (Py.is_empty url); [constructor|].
  repeat constructor. eapply get_next_url_on_site, E.
Qed.

(** X20.  The loop of [scrape_all] over the product pages, in
    scraper_product_pages.py and in scraper_direct_navigation.py: when it
    ends, [product_count] is [total_scraped] plus [skipped_count], no more
    than the pages the browser has shown; [total_scraped] is the number of
    stamps saved; with a [max_products] other than 0 it is at most
    [max_products], and 0 when [max_products] is negative;
    [max_products = 0] is no limit.  scraper_direct_navigation.py sends the
    browser to no address that does not hold [mysticstamp.com]. *)
Theorem product_counts_add_up (max_products : option Z)
    (b : ProductLoop.Browser (P := ProductPage))
    (d : ProductLoop.Browser (P := DirectPage)) :
  (let r := StampProductScraper.scrape_all max_products b in
   let st := run_counts r in
   ProductLoop.product_count st
   = (ProductLoop.total_scraped st + ProductLoop.skipped_count st)%nat
   /\ (ProductLoop.product_count st <= length (ProductLoop.pages b))%nat
   /\ (exists added,
         ProductLoop.actions (run_browser r) = ProductLoop.actions b ++ added
         /\ length (saved_stamps added) = ProductLoop.total_scraped st)
   /\ (forall m, max_products = Some m -> m <> 0%Z ->
         (Z.of_nat (ProductLoop.total_scraped st) <= Z.max m 0)%Z))
  /\ (let r := DirectStampProductScraper.scrape_all max_products d in
      let st := run_counts r in
      ProductLoop.product_count st
      = (ProductLoop.total_scraped st + ProductLoop.skipped_count st)%nat
      /\ (ProductLoop.product_count st <= length (ProductLoop.pages d))%nat
      /\ (exists added,
            ProductLoop.actions (run_browser r)
            = ProductLoop.actions d ++ added
            /\ length (saved_stamps added) = ProductLoop.total_scraped st
            /\ Forall (fun url => Py.str_contains "mysticstamp.com" url
                                  = true) (visited added))
      /\ (forall m, max_products = Some m -> m <> 0%Z ->
            (Z.of_nat (ProductLoop.total_scraped st) <= Z.max m 0)%Z))
  /\ StampProductScraper.scrape_all (Some 0%Z) b
     = StampProductScraper.scrape_all None b
  /\ DirectStampProductScraper.scrape_all (Some 0%Z) d
     = DirectStampProductScraper.scrape_all None d.
Proof.
  split; [|split; [|split]].
  - cbv zeta. unfold StampProductScraper.scrape_all.
    destruct (scrape_all_loop_counts StampProductScraper.extract_product_data
                StampProductScraper.click_next_button (fun _ => True)
                click_next_button_saves
                ltac:(intros; apply Forall_forall; auto)
                max_products (ProductLoop.pages b) ProductLoop.initial
                (ProductLoop.scraped_ids b)
                (ProductLoop.actions b
                 ++ [Goto StampProductScraper.start_url]))
      as (C & L & (added & A & T & _) & B).
    cbn [ProductLoop.initial ProductLoop.product_count
         ProductLoop.total_scraped ProductLoop.skipped_count] in *.
    split; [lia|]. split; [lia|]. split.
    + exists ([Goto StampProductScraper.start_url] ++ added).
      rewrite A, <- app_assoc, saved_stamps_app. split; [reflexivity|].
      simpl. lia.
    + intros m Em Hm. apply (B m Em Hm). lia.
  - cbv zeta. unfold DirectStampProductScraper.scrape_all.
    destruct (scrape_all_loop_counts
                DirectStampProductScraper.extract_product_data
                DirectStampProductScraper.next_product
                (fun url => Py.str_contains "mysticstamp.com" url = true)
                direct_next_product_saves direct_next_product_visits
                max_products (ProductLoop.pages d) ProductLoop.initial
                (ProductLoop.scraped_ids d)
                (ProductLoop.actions d
                 ++ [Goto "https://www.mysticstamp.com/"]))
      as (C & L & (added & A & T & V) & B).
    cbn [ProductLoop.initial ProductLoop.product_count
         ProductLoop.total_scraped ProductLoop.skipped_count] in *.
    split; [lia|]. split; [lia|]. split.
    + exists ([Goto "https://www.mysticstamp.com/"] ++ added).
      rewrite A, <- app_assoc, saved_stamps_app, visited_app.
      split; [reflexivity|]. split; [simpl; lia|].
      apply Forall_app. split; [|exact V].
      repeat constructor.
    + intros m Em Hm. apply (B m Em Hm). lia.
  - apply product_loop_zero.
  - apply product_loop_zero.
Qed.

Lemma product_counts_add_up_witness :
  (Z.of_nat
     (ProductLoop.total_scraped
        (run_counts
           (StampProductScraper.scrape_all (Some 1%Z)
              {| ProductLoop.pages :=
                   [(product_page_norway_1, Some next_button_on);
                    (page_without_identifier, None)];
                 ProductLoop.scraped_ids := ∅;
                 ProductLoop.actions := [] |}))) <= 1)%Z.
Proof.
  destruct (product_counts_add_up (Some 1%Z)
              {| ProductLoop.pages :=
                   [(product_page_norway_1, Some next_button_on);
                    (page_without_identifier, None)];
                 ProductLoop.scraped_ids := ∅;
                 ProductLoop.actions := [] |}
              {| ProductLoop.pages := [];
                 ProductLoop.scraped_ids := ∅;
                 ProductLoop.actions := [] |})
    as ((_ & _ & _ & B) & _).
  apply (B 1%Z); [reflexivity|lia].
Defined.

(** ** The loop of scraper_selenium.py *)

Lemma selenium_keeps_identifiers :
  keeps_identifiers SeleniumStampScraper.extract_stamp_data.
Proof.
  intros listing ids.
  unfold SeleniumStampScraper.extract_stamp_data,
    SeleniumStampScraper.get_product_id.
  destruct (card_article listing) as [attribute|]; [|reflexivity].
  unfold bind, ret, reject_if, reject, gate, is_scraped, mark_scraped.
  destruct (Py.is_empty (default "" attribute));
    [cbv beta iota zeta delta [ret]; reflexivity|].
  cbv beta iota zeta delta [ret].
  destruct (bool_decide (default "" attribute ∈ ids)) eqn:Ed;
    [cbv beta iota zeta delta [ret]; reflexivity|].
  apply bool_decide_eq_false in Ed. cbv beta iota zeta delta [ret].
  destruct (SeleniumStampScraper.extract_image_url listing);
    [cbv beta iota zeta delta [ret]; reflexivity|].
  destruct (SeleniumStampScraper.extract_stamp_number listing);
    [cbv beta iota zeta delta [ret]; reflexivity|].
  destruct (SeleniumStampScraper.extract_year_country listing) as [|[y c]];
    [cbv beta iota zeta delta [ret]; reflexivity|].
  destruct (SeleniumStampScraper.extract_price listing);
    [cbv beta iota zeta delta [ret]; reflexivity|].
  cbv beta iota zeta delta [ret]. cbn [product_id]. auto.
Qed.

Lemma show_more_limit m clicks :
  m <> 0%Z -> SeleniumStampScraper.at_limit (Some m) clicks = false ->
  (Z.of_nat clicks < m)%Z.
Proof.
  unfold SeleniumStampScraper.at_limit. intros Hm.
  destruct (Z.eqb_spec m 0); [contradiction|]. simpl. lia.
Qed.

(** One look at the page, and the batch saved. *)
Lemma scrape_current_listings_books view ids events stamps ids1 :
  SeleniumStampScraper.scrape_current_listings view ids = (stamps, ids1) ->
  accounted true (fun _ => True) (as_world ids events)
    (as_world ids1
       (match stamps with
        | _ :: _ => events ++ [SaveToDatabase stamps; SaveToJson stamps]
        | [] => events
        end)) (length stamps).
Proof.
  unfold SeleniumStampScraper.scrape_current_listings. intros E.
  assert (NoDup (product_id <$> stamps)
          /\ (forall x, x ∈ (product_id <$> stamps) -> x ∉ ids)
          /\ ids1 = list_to_set (product_id <$> stamps) ∪ ids)
    as (N & F & ->).
  { destruct (SeleniumStampScraper.listings view) as [cards|].
    - eapply (extract_each_fresh _ (fun _ => True)) in E
        as (N & F & I & _); [auto|apply selenium_keeps_identifiers|auto].
    - injection E as <- <-. simpl.
      repeat split; [constructor|set_solver..]. }
  destruct stamps as [|stamp stamps].
  - eapply (accounted_quiet _ _ _ _ []); try reflexivity.
    + simpl. now rewrite app_nil_r.
    + simpl. set_solver.
  - eapply (accounted_batch true _ (as_world ids events)
              (as_world _ events) _ _ []);
      try eassumption; try reflexivity.
    + simpl. now rewrite app_nil_r.
    + apply Forall_forall. auto.
Qed.

Lemma show_more_loop_books max_clicks views st ids events :
  let r := SeleniumStampScraper.scrape_all_loop max_clicks views st ids
             events in
  let st' := show_more_counts r in
  let b' := show_more_browser r in
  (exists n,
     accounted true (fun _ => True) (as_world ids events)
       (as_world (SeleniumStampScraper.scraped_ids b')
                 (SeleniumStampScraper.trace b')) n
     /\ SeleniumStampScraper.total_scraped st'
        = (SeleniumStampScraper.total_scraped st + n)%nat)
  /\ (SeleniumStampScraper.click_count st'
      <= SeleniumStampScraper.click_count st + length views)%nat
  /\ (forall m, max_clicks = Some m -> m <> 0%Z ->
        (Z.of_nat (SeleniumStampScraper.click_count st) <= Z.max m 0)%Z ->
        (Z.of_nat (SeleniumStampScraper.click_count st') <= Z.max m 0)%Z).
Proof.
  cbv zeta. revert st ids events.
  induction views as [|view rest IH]; intros st ids events;
    cbn [SeleniumStampScraper.scrape_all_loop].
  { cbn [show_more_counts show_more_browser SeleniumStampScraper.trace
         SeleniumStampScraper.scraped_ids].
    split; [exists 0%nat; split; [apply accounted_refl|lia]|].
    split; [lia|auto]. }
  destruct (SeleniumStampScraper.scrape_current_listings view ids)
    as [stamps ids1] eqn:E.
  apply (scrape_current_listings_books _ _ events) in E.
  set (st1 := match stamps with
              | _ :: _ =>
                  {| SeleniumStampScraper.click_count :=
                       SeleniumStampScraper.click_count st;
                     SeleniumStampScraper.total_scraped :=
                       SeleniumStampScraper.total_scraped st + length stamps;
                     SeleniumStampScraper.consecutive_no_new := 0 |}
              | [] =>
                  {| SeleniumStampScraper.click_count :=
                       SeleniumStampScraper.click_count st;
                     SeleniumStampScraper.total_scraped :=
                       SeleniumStampScraper.total_scraped st;
                     SeleniumStampScraper.consecutive_no_new :=
                       SeleniumStampScraper.consecutive_no_new st + 1 |}
              end).
  set (events1 := match stamps with
                  | _ :: _ =>
                      events ++ [SaveToDatabase stamps; SaveToJson stamps]
                  | [] => events
                  end) in *.
  assert (SeleniumStampScraper.click_count st1
          = SeleniumStampScraper.click_count st
          /\ SeleniumStampScraper.total_scraped st1
             = (SeleniumStampScraper.total_scraped st + length stamps)%nat)
    as [Ec Et].
  { subst st1. destruct stamps; simpl; split; lia. }
  assert (match stamps with
          | _ :: _ =>
              ({| SeleniumStampScraper.click_count :=
                    SeleniumStampScraper.click_count st;
                  SeleniumStampScraper.total_scraped :=
                    SeleniumStampScraper.total_scraped st + length stamps;
                  SeleniumStampScraper.consecutive_no_new := 0 |},
               events ++ [SaveToDatabase stamps; SaveToJson stamps])
          | [] =>
              ({| SeleniumStampScraper.click_count :=
                    SeleniumStampScraper.click_count st;
                  SeleniumStampScraper.total_scraped :=
                    SeleniumStampScraper.total_scraped st;
                  SeleniumStampScraper.consecutive_no_new :=
                    SeleniumStampScraper.consecutive_no_new st + 1 |},
               events)
          end = (st1, events1)) as Epair
    by (subst st1 events1; destruct stamps; reflexivity).
  rewrite Epair. clear Epair.
  assert (forall b,
            let r := SeleniumStampScraper.Left st1
                       {| SeleniumStampScraper.views := b;
                          SeleniumStampScraper.scraped_ids := ids1;
                          SeleniumStampScraper.trace := events1 |} in
            (exists n,
               accounted true (fun _ => True) (as_world ids events)
                 (as_world
                    (SeleniumStampScraper.scraped_ids (show_more_browser r))
                    (SeleniumStampScraper.trace (show_more_browser r))) n
               /\ SeleniumStampScraper.total_scraped (show_more_counts r)
                  = (SeleniumStampScraper.total_scraped st + n)%nat)
            /\ (SeleniumStampScraper.click_count (show_more_counts r)
                <= SeleniumStampScraper.click_count st
                   + length (view :: rest))%nat
            /\ (forall m, max_clicks = Some m -> m <> 0%Z ->
                  (Z.of_nat (SeleniumStampScraper.click_count st)
                   <= Z.max m 0)%Z ->
                  (Z.of_nat (SeleniumStampScraper.click_count
                               (show_more_counts r)) <= Z.max m 0)%Z))
    as Hleft.
  { intros b. cbv zeta.
    cbn [show_more_counts show_more_browser SeleniumStampScraper.trace
         SeleniumStampScraper.scraped_ids].
    split; [exists (length stamps); split; [exact E|exact Et]|].
    rewrite Ec. split; [lia|auto]. }
  clearbody st1 events1.
  destruct (3 <=? SeleniumStampScraper.consecutive_no_new st1)%nat;
    [apply Hleft|].
  destruct (SeleniumStampScraper.at_limit max_clicks
              (SeleniumStampScraper.click_count st1)) eqn:El;
    [apply Hleft|].
  destruct (SeleniumStampScraper.show_more view); [|apply Hleft].
  match goal with
  | |- context [SeleniumStampScraper.scrape_all_loop _ _ ?s ?i ?e] =>
      destruct (IH s i e) as ((n & B & T) & L & K)
  end.
  cbn [SeleniumStampScraper.click_count
       SeleniumStampScraper.total_scraped] in *.
  split; [|split].
  - exists (length stamps + n)%nat. split.
    + eapply accounted_trans; [exact E|exact B].
    + rewrite T, Et. lia.
  - simpl. lia.
  - intros m -> Hm Hb. apply (K m eq_refl Hm).
    pose proof (show_more_limit m _ Hm El). lia.
Qed.

Lemma show_more_loop_zero views st ids events :
  SeleniumStampScraper.scrape_all_loop (Some 0%Z) views st ids events
  = SeleniumStampScraper.scrape_all_loop None views st ids events.
Proof.
  revert st ids events.
  induction views as [|view rest IH]; intros st ids events;
    [reflexivity|].
  cbn [SeleniumStampScraper.scrape_all_loop SeleniumStampScraper.at_limit
       Z.eqb negb andb].
  destruct (SeleniumStampScraper.scrape_current_listings view ids)
    as [stamps ids1].
  destruct stamps; cbv beta iota zeta;
    destruct (3 <=? _)%nat; try reflexivity;
    destruct (SeleniumStampScraper.show_more view); auto.
Qed.

(** X21.  The loop of [scrape_all] of scraper_selenium.py, where every click
    on Show More leaves the listings already seen on the page: whatever
    the browser shows, no two of the records the run saves have the same
    identifier and none has an identifier seen before the run;
    [total_scraped] is their number, and the JSON file gets the batches
    the database gets.  There is at most one click per view; with a
    [max_clicks] other than 0 there are at most [max_clicks] clicks, and
    none when it is negative; [max_clicks = 0] is no limit. *)
Theorem show_more_saves_each_stamp_once (max_clicks : option Z)
    (b : SeleniumStampScraper.Browser) :
  (let r := SeleniumStampScraper.scrape_all max_clicks b in
   let st := show_more_counts r in
   let b' := show_more_browser r in
   exists added,
     SeleniumStampScraper.trace b' = SeleniumStampScraper.trace b ++ added
     /\ NoDup (product_id <$> saved_to_database added)
     /\ (forall x, x ∈ (product_id <$> saved_to_database added) ->
                   x ∉ SeleniumStampScraper.scraped_ids b)
     /\ SeleniumStampScraper.scraped_ids b'
        = list_to_set (product_id <$> saved_to_database added)
          ∪ SeleniumStampScraper.scraped_ids b
     /\ saved_to_json added = saved_to_database added
     /\ length (saved_to_database added)
        = SeleniumStampScraper.total_scraped st
     /\ (SeleniumStampScraper.click_count st
         <= length (SeleniumStampScraper.views b))%nat
     /\ (forall m, max_clicks = Some m -> m <> 0%Z ->
           (Z.of_nat (SeleniumStampScraper.click_count st) <= Z.max m 0)%Z))
  /\ SeleniumStampScraper.scrape_all (Some 0%Z) b
     = SeleniumStampScraper.scrape_all None b.
Proof.
  split; [|apply show_more_loop_zero].
  cbv zeta. unfold SeleniumStampScraper.scrape_all.
  match goal with
  | |- context [SeleniumStampScraper.scrape_all_loop _ ?v ?s ?i ?e] =>
      destruct (show_more_loop_books max_clicks v s i e)
        as ((n & (added & T & N & F & I & J & L & _) & Et) & Lc & K)
  end.
  cbn [SeleniumStampScraper.click_count SeleniumStampScraper.total_scraped
       as_world scraped_ids trace] in *.
  exists added. repeat split; try assumption; try lia.
  intros m Em Hm. apply (K m Em Hm). lia.
Qed.

Lemma show_more_saves_each_stamp_once_witness :
  (Z.of_nat
     (SeleniumStampScraper.click_count
        (show_more_counts
           (SeleniumStampScraper.scrape_all (Some 1%Z)
              {| SeleniumStampScraper.views :=
                   [ {| SeleniumStampScraper.listings :=
                          Some [card_norway_1];
                        SeleniumStampScraper.show_more := true |};
                     {| SeleniumStampScraper.listings :=
                          Some [card_norway_1];
                        SeleniumStampScraper.show_more := true |} ];
                 SeleniumStampScraper.scraped_ids := ∅;
                 SeleniumStampScraper.trace := [] |}))) <= 1)%Z.
Proof.
  destruct (show_more_saves_each_stamp_once (Some 1%Z)
              {| SeleniumStampScraper.views :=
                   [ {| SeleniumStampScraper.listings :=
                          Some [card_norway_1];
                        SeleniumStampScraper.show_more := true |};
                     {| SeleniumStampScraper.listings :=
                          Some [card_norway_1];
                        SeleniumStampScraper.show_more := true |} ];
                 SeleniumStampScraper.scraped_ids := ∅;
                 SeleniumStampScraper.trace := [] |})
    as ((added & _ & _ & _ & _ & _ & _ & _ & B) & _).
  apply (B 1%Z); [reflexivity|lia].
Defined.
